(** * videobuf2-dma-contig: the DMA-contiguous memory allocator of videobuf2

    A shallow embedding of [drivers/media/v4l2-core/videobuf2-dma-contig.c]
    and the properties of its buffer life cycle.

    Conventions of the embedding:
    - C integers are [Z] values; every assignment to a fixed-width variable
      writes out the wrap-around of its type ([ulong], [dma_addr_t], [uint],
      [int]).  The width of [unsigned long] and of [dma_addr_t] is a
      parameter of the target ([platform]).
    - [struct vb2_dc_buf] objects live in a store ([bufs]) indexed by their
      address; a pointer is a key of that store.  [kzalloc] extends the
      store, [kfree] shrinks it, and a dereference of a pointer that is not
      in the store has no result.
    - Calls into the rest of the kernel (allocators, the DMA mapping layer,
      the dma-buf core, the frame-vector helpers) are answered by an oracle
      ([kernel]) and recorded, with their outcome, in a call log ([klog]). *)

From stdpp Require Import base option list gmap strings.
From Stdlib Require Import ZArith Lia.

Local Open Scope Z_scope.

(** ** Target parameters and fixed-width arithmetic *)

Variant bitness := Bits32 | Bits64.

Definition bits (b : bitness) : Z :=
  match b with Bits32 => 32 | Bits64 => 64 end.

(** The macros that [vb2_dc_pfn_to_dma] is conditionally compiled against. *)
Variant pfn_macro :=
  | Arch_pfn_to_dma (f : Z → Z)   (* __arch_pfn_to_dma(dev, pfn) *)
  | Pfn_to_bus (f : Z → Z)        (* __pfn_to_bus(pfn) *)
  | Pfn_to_phys (f : Z → Z)       (* __pfn_to_phys(pfn) *)
  | No_pfn_macro.

Record platform := Platform {
  BITS_PER_LONG : bitness;        (* width of unsigned long *)
  DMA_ADDR_BITS : bitness;        (* width of dma_addr_t *)
  PAGE_SHIFT : Z;
  dma_get_cache_alignment : Z;
  arch_pfn_macro : pfn_macro
}.

Definition wrap (w : Z) (x : Z) : Z := x mod 2 ^ w.

(** Two's complement reading of the low [w] bits. *)
Definition swrap (w : Z) (x : Z) : Z :=
  (x + 2 ^ (w - 1)) mod 2 ^ w - 2 ^ (w - 1).

Definition uint (x : Z) : Z := wrap 32 x.
Definition int (x : Z) : Z := swrap 32 x.
Definition ulong (p : platform) (x : Z) : Z := wrap (bits (BITS_PER_LONG p)) x.
Definition dma_addr_t (p : platform) (x : Z) : Z := wrap (bits (DMA_ADDR_BITS p)) x.

Definition INT_MAX : Z := 2 ^ 31 - 1.
Definition INT_MIN : Z := - 2 ^ 31.

Definition is_uint (x : Z) : Prop := 0 ≤ x < 2 ^ 32.
Definition is_int (x : Z) : Prop := INT_MIN ≤ x ≤ INT_MAX.
Definition is_ulong (p : platform) (x : Z) : Prop := 0 ≤ x < 2 ^ bits (BITS_PER_LONG p).

(** errno values *)
Definition EIO : Z := 5.
Definition ENOMEM : Z := 12.
Definition EFAULT : Z := 14.
Definition EINVAL : Z := 22.

(** ** Scatterlists *)

Record scatterlist := Scatterlist {
  sg_page : Z;            (* page frame behind the entry *)
  sg_offset : Z;          (* unsigned int offset *)
  sg_length : Z;          (* unsigned int length *)
  dma_address : Z;        (* dma_addr_t, filled in by dma_map_sg *)
  dma_length : Z          (* unsigned int, filled in by dma_map_sg *)
}.

Definition sg_dma_address (s : scatterlist) : Z := dma_address s.
Definition sg_dma_len (s : scatterlist) : Z := dma_length s.

Record sg_table := SgTable {
  sgl : list scatterlist;   (* the list; [] is a NULL list head *)
  nents : Z;                (* unsigned int: number of mapped entries *)
  orig_nents : Z            (* unsigned int: original size of the list *)
}.

(** A device segment [(addr, len)] as [dma_map_sg] leaves it. *)
Definition seg (addr len : Z) : scatterlist :=
  {| sg_page := 0; sg_offset := 0; sg_length := len;
     dma_address := addr; dma_length := len |}.

Definition mapped_table (ss : list scatterlist) : sg_table :=
  {| sgl := ss; nents := Z.of_nat (length ss); orig_nents := Z.of_nat (length ss) |}.

Section Platform.
Context (p : platform).

(** The body of the [for_each_sg] loop of [vb2_dc_get_contiguous_size],
    entered with [n] iterations left, the cursor [s] at the head of [ss],
    and the current values of the locals [expected] and [size].  Walking
    past the end of the list dereferences the NULL that [sg_next] returned:
    no result. *)
Fixpoint contiguous_size_loop (n : nat) (ss : list scatterlist)
    (expected size : Z) : option Z :=
  match n with
  | O => Some size
  | S n' =>
    match ss with
    | [] => None
    | s :: rest =>
      if bool_decide (sg_dma_address s ≠ expected) then Some size
      else contiguous_size_loop n' rest
             (dma_addr_t p (sg_dma_address s + sg_dma_len s))
             (ulong p (size + sg_dma_len s))
    end
  end.

Definition vb2_dc_get_contiguous_size (sgt : sg_table) : option Z :=
  s0 ← head (sgl sgt);
  contiguous_size_loop (Z.to_nat (nents sgt)) (sgl sgt) (sg_dma_address s0) 0.

End Platform.

(** ** Kernel objects *)

Definition loc := positive.       (* address of a kernel object *)
Definition device := positive.    (* struct device * *)

(** enum dma_data_direction, in the order of its values 0..3 *)
Variant dma_data_direction :=
  DMA_BIDIRECTIONAL | DMA_TO_DEVICE | DMA_FROM_DEVICE | DMA_NONE.

Global Instance dma_data_direction_eq_dec : EqDecision dma_data_direction.
Proof. solve_decision. Defined.

Record vb2_dc_conf := { conf_dev : device }.

(** struct frame_vector: the frames behind a pinned user range. *)
Record frame_vector := FrameVector {
  nr_frames : Z;            (* unsigned int *)
  frames : list Z           (* pfns (or the pages with those frame numbers) *)
}.

Definition frame_vector_count (vec : frame_vector) : Z := nr_frames vec.
Definition frame_vector_pfns (vec : frame_vector) : list Z := frames vec.
Definition frame_vector_pages (vec : frame_vector) : list Z := frames vec.

(** struct dma_buf, as far as this file reads it. *)
Record dma_buf := DmaBuf {
  dmabuf_size : Z;          (* size_t size *)
  dmabuf_priv : loc         (* void *priv: the exporter's buffer *)
}.

Record dma_buf_attachment := DmaBufAttachment {
  dba_dmabuf : dma_buf;
  dba_dev : device;
  dba_priv : option loc     (* exporter's struct vb2_dc_attachment, or NULL *)
}.

Record dma_buf_export_info := {
  exp_size : Z;
  exp_flags : Z;
  exp_priv : loc
}.

(** struct vb2_vmarea_handler: [put] is always [vb2_dc_put] in this file. *)
Record vb2_vmarea_handler := {
  h_refcount : loc;         (* &buf->refcount, by the buffer that holds it *)
  h_arg : loc
}.

Record vb2_dc_buf := Vb2DcBuf {
  dev : option device;
  vaddr : Z;                              (* void *; 0 is NULL *)
  size : Z;                               (* unsigned long *)
  dma_addr : Z;                           (* dma_addr_t *)
  dma_dir : dma_data_direction;
  dma_sgt : option sg_table;
  vec : option frame_vector;
  handler : option vb2_vmarea_handler;    (* MMAP related *)
  refcount : Z;                           (* atomic_t *)
  sgt_base : option sg_table;
  db_attach : option dma_buf_attachment   (* DMABUF related *)
}.

(** What [kzalloc(sizeof *buf)] returns: every field zero. *)
Definition zeroed_buf : vb2_dc_buf :=
  {| dev := None; vaddr := 0; size := 0; dma_addr := 0;
     dma_dir := DMA_BIDIRECTIONAL; dma_sgt := None; vec := None;
     handler := None; refcount := 0; sgt_base := None; db_attach := None |}.

Definition set_dev v (b : vb2_dc_buf) := Vb2DcBuf v (vaddr b) (size b) (dma_addr b) (dma_dir b) (dma_sgt b) (vec b) (handler b) (refcount b) (sgt_base b) (db_attach b).
Definition set_vaddr v (b : vb2_dc_buf) := Vb2DcBuf (dev b) v (size b) (dma_addr b) (dma_dir b) (dma_sgt b) (vec b) (handler b) (refcount b) (sgt_base b) (db_attach b).
Definition set_size v (b : vb2_dc_buf) := Vb2DcBuf (dev b) (vaddr b) v (dma_addr b) (dma_dir b) (dma_sgt b) (vec b) (handler b) (refcount b) (sgt_base b) (db_attach b).
Definition set_dma_addr v (b : vb2_dc_buf) := Vb2DcBuf (dev b) (vaddr b) (size b) v (dma_dir b) (dma_sgt b) (vec b) (handler b) (refcount b) (sgt_base b) (db_attach b).
Definition set_dma_dir v (b : vb2_dc_buf) := Vb2DcBuf (dev b) (vaddr b) (size b) (dma_addr b) v (dma_sgt b) (vec b) (handler b) (refcount b) (sgt_base b) (db_attach b).
Definition set_dma_sgt v (b : vb2_dc_buf) := Vb2DcBuf (dev b) (vaddr b) (size b) (dma_addr b) (dma_dir b) v (vec b) (handler b) (refcount b) (sgt_base b) (db_attach b).
Definition set_vec v (b : vb2_dc_buf) := Vb2DcBuf (dev b) (vaddr b) (size b) (dma_addr b) (dma_dir b) (dma_sgt b) v (handler b) (refcount b) (sgt_base b) (db_attach b).
Definition set_handler v (b : vb2_dc_buf) := Vb2DcBuf (dev b) (vaddr b) (size b) (dma_addr b) (dma_dir b) (dma_sgt b) (vec b) v (refcount b) (sgt_base b) (db_attach b).
Definition set_refcount v (b : vb2_dc_buf) := Vb2DcBuf (dev b) (vaddr b) (size b) (dma_addr b) (dma_dir b) (dma_sgt b) (vec b) (handler b) v (sgt_base b) (db_attach b).
Definition set_sgt_base v (b : vb2_dc_buf) := Vb2DcBuf (dev b) (vaddr b) (size b) (dma_addr b) (dma_dir b) (dma_sgt b) (vec b) (handler b) (refcount b) v (db_attach b).
Definition set_db_attach v (b : vb2_dc_buf) := Vb2DcBuf (dev b) (vaddr b) (size b) (dma_addr b) (dma_dir b) (dma_sgt b) (vec b) (handler b) (refcount b) (sgt_base b) v.

(** struct vb2_dc_attachment: the exporter's per-attachment cache. *)
Record vb2_dc_attachment := Vb2DcAttachment {
  att_sgt : sg_table;
  att_dma_dir : dma_data_direction
}.

(** A pointer-returning call: a valid pointer or [ERR_PTR(e)]. *)
Inductive errptr (A : Type) :=
  | Ptr (a : A)
  | ERR_PTR (e : Z).
Arguments Ptr {A} a.
Arguments ERR_PTR {A} e.

(** ** The call log *)

(** The object a [kzalloc]/[kmalloc]/[kfree] call is about ([sizeof]). *)
Variant kobj := Kobj_buf | Kobj_sgt.

Inductive kcall :=
  | Kmalloc (o : kobj) (ok : bool)      (* kzalloc or kmalloc *)
  | Kfree (o : kobj)
  | Dma_alloc_coherent (sz : Z) (ok : bool)
  | Dma_free_coherent
  | Get_device (d : device)
  | Put_device
  | Vb2_create_framevec (start length : Z) (write ok : bool)
  | Frame_vector_to_pages (ret : Z)
  | Vb2_destroy_framevec
  | Sg_alloc_table_from_pages (ret : Z)
  | Sg_free_table
  | Dma_map_sg (dir : dma_data_direction) (ret : Z)
  | Dma_unmap_sg (dir : dma_data_direction)
  | Dma_get_sgtable (ret : Z)
  | Dma_buf_export (ok : bool)
  | Dma_buf_attach (ok : bool)
  | Dma_buf_detach
  | Dma_buf_map_attachment (dir : dma_data_direction) (ok : bool)
  | Dma_buf_unmap_attachment (dir : dma_data_direction)
  | Dma_buf_vunmap
  | Mutex_lock
  | Mutex_unlock
  | Warn_on                       (* a WARN_ON whose condition held *)
  | Pr_err (msg : string)
  | Pr_debug (msg : string)
  | Dev_err (msg : string).

(** ** The rest of the kernel

    Each service answers from the calls made so far and its arguments. *)
Record kernel := Kernel {
  k_kzalloc : list kcall → kobj → bool;                       (* non-NULL? *)
  k_dma_alloc_coherent : list kcall → device → Z → Z * Z;    (* (vaddr, dma_handle) *)
  k_vb2_create_framevec : list kcall → Z → Z → bool → errptr frame_vector;
  k_frame_vector_to_pages : list kcall → frame_vector → Z;
  k_sg_alloc_table_from_pages :
    list kcall → list Z → Z → Z → Z → Z * sg_table;          (* (ret, table) *)
  k_dma_map_sg :
    list kcall → device → list scatterlist → Z → dma_data_direction
    → Z * list scatterlist;                                   (* (ret, list) *)
  k_dma_get_sgtable : list kcall → vb2_dc_buf → Z * sg_table;
  k_dma_buf_export : list kcall → dma_buf_export_info → errptr unit;
  k_dma_buf_attach : list kcall → dma_buf → device → errptr dma_buf_attachment;
  k_dma_buf_map_attachment :
    list kcall → dma_buf_attachment → dma_data_direction → errptr sg_table
}.

(** ** Kernel state and the monad of kernel code *)

Record kstate := KState {
  bufs : gmap loc vb2_dc_buf;             (* live struct vb2_dc_buf objects *)
  attachs : gmap loc vb2_dc_attachment;   (* live struct vb2_dc_attachment *)
  klog : list kcall
}.

(** A computation reads and updates the state; [None] is a fault (a
    dereference of NULL or of a freed object). *)
Definition K (A : Type) : Type := kstate → option (A * kstate).

Global Instance K_ret : MRet K := λ A a s, Some (a, s).
Global Instance K_bind : MBind K := λ A B f m s,
  match m s with
  | Some (a, s') => f a s'
  | None => None
  end.

Definition fault {A} : K A := λ _, None.

Definition get_log : K (list kcall) := λ s, Some (klog s, s).

Definition log (e : kcall) : K unit := λ s,
  Some (tt, KState (bufs s) (attachs s) (klog s ++ [e])).

(** [*l] for a [struct vb2_dc_buf *l] *)
Definition deref (l : loc) : K vb2_dc_buf := λ s,
  b ← bufs s !! l; Some (b, s).

(** [l->field = v], through the setter of the field *)
Definition assign (l : loc) (f : vb2_dc_buf → vb2_dc_buf) : K unit := λ s,
  b ← bufs s !! l; Some (tt, KState (<[l := f b]> (bufs s)) (attachs s) (klog s)).

Definition deref_attach (l : loc) : K vb2_dc_attachment := λ s,
  a ← attachs s !! l; Some (a, s).

Definition assign_attach (l : loc) (f : vb2_dc_attachment → vb2_dc_attachment) : K unit := λ s,
  a ← attachs s !! l; Some (tt, KState (bufs s) (<[l := f a]> (attachs s)) (klog s)).

(** [kzalloc(sizeof(struct vb2_dc_buf), GFP_KERNEL)]: NULL, or a fresh
    zero-filled object. *)
Definition kzalloc_buf (k : kernel) : K (option loc) := λ s,
  if k_kzalloc k (klog s) Kobj_buf then
    let l := fresh (dom (bufs s)) in
    Some (Some l, KState (<[l := zeroed_buf]> (bufs s)) (attachs s)
                         (klog s ++ [Kmalloc Kobj_buf true]))
  else Some (None, KState (bufs s) (attachs s) (klog s ++ [Kmalloc Kobj_buf false])).

(** [kfree(l)] of a [struct vb2_dc_buf] *)
Definition kfree_buf (l : loc) : K unit := λ s,
  _ ← bufs s !! l;
  Some (tt, KState (delete l (bufs s)) (attachs s) (klog s ++ [Kfree Kobj_buf])).

(** [kzalloc]/[kmalloc] of a [struct sg_table]; the table itself is kept
    by value in the field that points to it. *)
Definition kzalloc_sgt (k : kernel) : K bool :=
  h ← get_log;
  let ok := k_kzalloc k h Kobj_sgt in
  log (Kmalloc Kobj_sgt ok);; mret ok.

(** Modelled from the spec: [dma_buf_export] belongs to the dma-buf core,
    which is not part of this file.  It fails ([IS_ERR]) or returns a
    shareable handle for the buffer described by [exp_info]: the handle has
    the size of [exp_info] and its [priv] is the exported buffer, which is
    what the handle's release callback receives. *)
Definition dma_buf_export (k : kernel) (exp_info : dma_buf_export_info)
  : K (errptr dma_buf) :=
  h ← get_log;
  match k_dma_buf_export k h exp_info with
  | ERR_PTR e => log (Dma_buf_export false);; mret (ERR_PTR e)
  | Ptr _ =>
    log (Dma_buf_export true);;
    mret (Ptr {| dmabuf_size := exp_size exp_info; dmabuf_priv := exp_priv exp_info |})
  end.

(** An operation that faults when its operand is missing. *)
Definition lift {A} (o : option A) : K A := λ s, a ← o; Some (a, s).

(** [atomic_inc(&l->refcount)] *)
Definition atomic_inc (l : loc) : K unit :=
  assign l (λ b, set_refcount (int (refcount b + 1)) b).

(** [atomic_dec_and_test(&l->refcount)]: decrement, and tell whether the
    counter reached zero. *)
Definition atomic_dec_and_test (l : loc) : K bool :=
  assign l (λ b, set_refcount (int (refcount b - 1)) b);;
  b ← deref l;
  mret (bool_decide (refcount b = 0)).

Definition atomic_read (l : loc) : K Z :=
  b ← deref l; mret (refcount b).

Section Allocator.
Context (p : platform) (k : kernel).

(** [IS_ALIGNED(x, a)], the macro of the kernel headers, for an
    [unsigned long x]: [((x) & ((typeof(x))(a) - 1)) == 0]. *)
Definition IS_ALIGNED (x a : Z) : bool :=
  bool_decide (Z.land x (ulong p (ulong p a - 1)) = 0).

(** [PAGE_SIZE] is [1UL << PAGE_SHIFT] and [PAGE_MASK] is [~(PAGE_SIZE-1)]. *)
Definition PAGE_SIZE : Z := ulong p (Z.shiftl 1 (PAGE_SHIFT p)).
Definition PAGE_MASK : Z := ulong p (Z.lnot (PAGE_SIZE - 1)).

(** *** callbacks for all buffers *)

Definition vb2_dc_num_users (buf_priv : loc) : K Z := atomic_read buf_priv.

(** *** callbacks for MMAP buffers *)

Definition vb2_dc_put (buf_priv : loc) : K unit :=
  let buf := buf_priv in
  z ← atomic_dec_and_test buf;
  if negb z then mret tt
  else
    b ← deref buf;
    (if sgt_base b is Some _
     then log Sg_free_table;; log (Kfree Kobj_sgt)
     else mret tt);;
    log Dma_free_coherent;;
    log Put_device;;
    kfree_buf buf.

Definition vb2_dc_alloc (alloc_ctx : vb2_dc_conf) (size : Z)
    (dma_dir : dma_data_direction) (gfp_flags : Z) : K (errptr loc) :=
  let conf := alloc_ctx in
  let dev := conf_dev conf in
  buf ← kzalloc_buf k;
  match buf with
  | None => mret (ERR_PTR (- ENOMEM))
  | Some buf =>
    h ← get_log;
    let '(va, da) := k_dma_alloc_coherent k h dev size in
    log (Dma_alloc_coherent size (bool_decide (va ≠ 0)));;
    assign buf (set_vaddr va);;
    assign buf (set_dma_addr (dma_addr_t p da));;
    if bool_decide (va = 0) then
      log (Dev_err "dma_alloc_coherent of size %ld failed");;
      kfree_buf buf;;
      mret (ERR_PTR (- ENOMEM))
    else
      (* Prevent the device from being released while the buffer is used *)
      log (Get_device dev);;
      assign buf (set_dev (Some dev));;
      assign buf (set_size size);;
      assign buf (set_dma_dir dma_dir);;
      assign buf (set_handler (Some {| h_refcount := buf; h_arg := buf |}));;
      atomic_inc buf;;
      mret (Ptr buf)
  end.

(** *** DMABUF ops for exporters *)

Definition set_att_dma_dir (d : dma_data_direction) (a : vb2_dc_attachment) :=
  Vb2DcAttachment (att_sgt a) d.
Definition set_att_sgt (t : sg_table) (a : vb2_dc_attachment) :=
  Vb2DcAttachment t (att_dma_dir a).

Definition vb2_dc_dmabuf_ops_map (db_attach : dma_buf_attachment)
    (dma_dir : dma_data_direction) : K (errptr sg_table) :=
  log Mutex_lock;;
  match dba_priv db_attach with
  | None => fault
  | Some attach =>
    att ← deref_attach attach;
    (* return previously mapped sg table *)
    if bool_decide (att_dma_dir att = dma_dir) then
      log Mutex_unlock;;
      mret (Ptr (att_sgt att))
    else
      (* release any previous cache *)
      (if bool_decide (att_dma_dir att ≠ DMA_NONE) then
         log (Dma_unmap_sg (att_dma_dir att));;
         assign_attach attach (set_att_dma_dir DMA_NONE)
       else mret tt);;
      (* mapping to the client with new direction *)
      h ← get_log;
      let sgt := att_sgt att in
      let '(ret, sgl') := k_dma_map_sg k h (dba_dev db_attach) (sgl sgt) (orig_nents sgt) dma_dir in
      log (Dma_map_sg dma_dir ret);;
      let sgt := SgTable sgl' (uint ret) (orig_nents sgt) in
      assign_attach attach (set_att_sgt sgt);;
      if bool_decide (nents sgt = 0) then
        log (Pr_err "failed to map scatterlist");;
        log Mutex_unlock;;
        mret (ERR_PTR (- EIO))
      else
        assign_attach attach (set_att_dma_dir dma_dir);;
        log Mutex_unlock;;
        mret (Ptr sgt)
  end.

Definition vb2_dc_get_base_sgt (buf : loc) : K (option sg_table) :=
  ok ← kzalloc_sgt k;
  if negb ok then
    log (Dev_err "failed to alloc sg table");;
    mret None
  else
    b ← deref buf;
    h ← get_log;
    let '(ret, sgt) := k_dma_get_sgtable k h b in
    log (Dma_get_sgtable ret);;
    if bool_decide (int ret < 0) then
      log (Dev_err "failed to get scatterlist from DMA API");;
      log (Kfree Kobj_sgt);;
      mret None
    else mret (Some sgt).

Definition vb2_dc_get_dmabuf (buf_priv : loc) (flags : Z) : K (option dma_buf) :=
  let buf := buf_priv in
  b ← deref buf;
  let exp_info := {| exp_size := size b; exp_flags := int flags; exp_priv := buf |} in
  (if sgt_base b is None then
     sgt ← vb2_dc_get_base_sgt buf;
     assign buf (set_sgt_base sgt)
   else mret tt);;
  b ← deref buf;
  if sgt_base b is None then
    log Warn_on;;
    mret None
  else
    dbuf ← dma_buf_export k exp_info;
    match dbuf with
    | ERR_PTR _ => mret None
    | Ptr dbuf =>
      (* dmabuf keeps reference to vb2 buffer *)
      atomic_inc buf;;
      mret (Some dbuf)
    end.

Definition vb2_dc_dmabuf_ops_release (dbuf : dma_buf) : K unit :=
  (* drop reference obtained in vb2_dc_get_dmabuf *)
  vb2_dc_put (dmabuf_priv dbuf).


(** *** callbacks for USERPTR buffers *)

Definition vb2_dc_pfn_to_dma (dev : device) (pfn : Z) : Z :=
  match arch_pfn_macro p with
  | Arch_pfn_to_dma f => dma_addr_t p (f pfn)
  | Pfn_to_bus f => dma_addr_t p (f pfn)
  | Pfn_to_phys f => dma_addr_t p (f pfn)
  | No_pfn_macro =>
    (* really, we cannot do anything better at this point *)
    dma_addr_t p (Z.shiftl (dma_addr_t p pfn) (PAGE_SHIFT p))
  end.

(** The loop [for (i = 1; i < n_pages; i++) if (nums[i-1] + 1 != nums[i])
    goto fail_pfnvec;], entered at index [i] with [n] iterations left:
    [true] when it runs to its end, [false] when it jumps. *)
Fixpoint pfns_contiguous_loop (n : nat) (i : nat) (nums : list Z) : option bool :=
  match n with
  | O => Some true
  | S n' =>
    a ← nums !! (i - 1)%nat;
    b ← nums !! i;
    if bool_decide (ulong p (a + 1) ≠ b) then Some false
    else pfns_contiguous_loop n' (S i) nums
  end.

(** The error exits of [vb2_dc_get_userptr], from the last label up. *)
Definition fail_buf (buf : loc) (ret : Z) : K (errptr loc) :=
  kfree_buf buf;;
  mret (ERR_PTR ret).

Definition fail_pfnvec (buf : loc) (ret : Z) : K (errptr loc) :=
  log Vb2_destroy_framevec;;
  fail_buf buf ret.

Definition fail_sgt (buf : loc) (ret : Z) : K (errptr loc) :=
  log (Kfree Kobj_sgt);;
  fail_pfnvec buf ret.

Definition fail_sgt_init (buf : loc) (ret : Z) : K (errptr loc) :=
  log Sg_free_table;;
  fail_sgt buf ret.

Definition fail_map_sg (buf : loc) (dma_dir : dma_data_direction) (ret : Z)
  : K (errptr loc) :=
  log (Dma_unmap_sg dma_dir);;
  fail_sgt_init buf ret.

Definition vb2_dc_get_userptr (alloc_ctx : vb2_dc_conf) (vaddr size : Z)
    (dma_dir : dma_data_direction) : K (errptr loc) :=
  let conf := alloc_ctx in
  let dma_align := dma_get_cache_alignment p in
  (* Only cache aligned DMA transfers are reliable *)
  if negb (IS_ALIGNED (Z.lor vaddr size) dma_align) then
    log (Pr_debug "user data must be aligned to %lu bytes");;
    mret (ERR_PTR (- EINVAL))
  else if bool_decide (size = 0) then
    log (Pr_debug "size is zero");;
    mret (ERR_PTR (- EINVAL))
  else
    buf ← kzalloc_buf k;
    match buf with
    | None => mret (ERR_PTR (- ENOMEM))
    | Some buf =>
      assign buf (set_dev (Some (conf_dev conf)));;
      assign buf (set_dma_dir dma_dir);;
      let offset := Z.land vaddr (ulong p (Z.lnot PAGE_MASK)) in
      let write := bool_decide (dma_dir = DMA_FROM_DEVICE) in
      h ← get_log;
      match k_vb2_create_framevec k h vaddr size write with
      | ERR_PTR e =>
        log (Vb2_create_framevec vaddr size write false);;
        fail_buf buf (int e)
      | Ptr vec =>
        log (Vb2_create_framevec vaddr size write true);;
        assign buf (set_vec (Some vec));;
        let n_pages := int (frame_vector_count vec) in
        h ← get_log;
        let ret := int (k_frame_vector_to_pages k h vec) in
        log (Frame_vector_to_pages ret);;
        if bool_decide (ret < 0) then
          let nums := frame_vector_pfns vec in
          (* Failed to convert to pages... Check the memory is physically
             contiguous and use direct mapping *)
          contiguous ← lift (pfns_contiguous_loop (Z.to_nat (n_pages - 1)) 1 nums);
          if negb contiguous then fail_pfnvec buf ret
          else
            nums0 ← lift (nums !! 0%nat);
            assign buf (set_dma_addr (vb2_dc_pfn_to_dma (conf_dev conf) nums0));;
            (* out: *)
            assign buf (set_size size);;
            mret (Ptr buf)
        else
          ok ← kzalloc_sgt k;
          if negb ok then
            log (Pr_err "failed to allocate sg table");;
            fail_pfnvec buf (- ENOMEM)
          else
            h ← get_log;
            let '(ret, sgt) :=
              k_sg_alloc_table_from_pages k h (frame_vector_pages vec) n_pages offset size in
            let ret := int ret in
            log (Sg_alloc_table_from_pages ret);;
            if bool_decide (ret ≠ 0) then
              log (Pr_err "failed to initialize sg table");;
              fail_sgt buf ret
            else
              (* No need to sync to the device, this will happen later when
                 the prepare() memop is called. *)
              h ← get_log;
              let '(mapped, sgl') :=
                k_dma_map_sg k h (conf_dev conf) (sgl sgt) (orig_nents sgt) dma_dir in
              log (Dma_map_sg dma_dir mapped);;
              let sgt := SgTable sgl' (uint mapped) (orig_nents sgt) in
              if bool_decide (nents sgt ≤ 0) then
                log (Pr_err "failed to map scatterlist");;
                fail_sgt_init buf (- EIO)
              else
                contig_size ← lift (vb2_dc_get_contiguous_size p sgt);
                if bool_decide (contig_size < size) then
                  log (Pr_err "contiguous mapping is too small %lu/%lu");;
                  fail_map_sg buf dma_dir (- EFAULT)
                else
                  s0 ← lift (head (sgl sgt));
                  assign buf (set_dma_addr (sg_dma_address s0));;
                  assign buf (set_dma_sgt (Some sgt));;
                  (* out: *)
                  assign buf (set_size size);;
                  mret (Ptr buf)
      end
    end.

(** *** callbacks for DMABUF buffers *)

Definition vb2_dc_map_dmabuf (mem_priv : loc) : K Z :=
  let buf := mem_priv in
  b ← deref buf;
  match db_attach b with
  | None =>
    log Warn_on;;
    log (Pr_err "trying to pin a non attached buffer");;
    mret (- EINVAL)
  | Some dba =>
    if dma_sgt b is Some _ then
      log Warn_on;;
      log (Pr_err "dmabuf buffer is already pinned");;
      mret 0
    else
      (* get the associated scatterlist for this buffer *)
      h ← get_log;
      match k_dma_buf_map_attachment k h dba (dma_dir b) with
      | ERR_PTR _ =>
        log (Dma_buf_map_attachment (dma_dir b) false);;
        log (Pr_err "Error getting dmabuf scatterlist");;
        mret (- EINVAL)
      | Ptr sgt =>
        log (Dma_buf_map_attachment (dma_dir b) true);;
        (* checking if dmabuf is big enough to store contiguous chunk *)
        contig_size ← lift (vb2_dc_get_contiguous_size p sgt);
        if bool_decide (contig_size < size b) then
          log (Pr_err "contiguous chunk is too small %lu/%lu b");;
          log (Dma_buf_unmap_attachment (dma_dir b));;
          mret (- EFAULT)
        else
          s0 ← lift (head (sgl sgt));
          assign buf (set_dma_addr (sg_dma_address s0));;
          assign buf (set_dma_sgt (Some sgt));;
          assign buf (set_vaddr 0);;
          mret 0
      end
  end.

Definition vb2_dc_unmap_dmabuf (mem_priv : loc) : K unit :=
  let buf := mem_priv in
  b ← deref buf;
  match db_attach b with
  | None =>
    log Warn_on;;
    log (Pr_err "trying to unpin a not attached buffer")
  | Some dba =>
    match dma_sgt b with
    | None =>
      log Warn_on;;
      log (Pr_err "dmabuf buffer is already unpinned")
    | Some sgt =>
      (if bool_decide (vaddr b ≠ 0) then
         log Dma_buf_vunmap;;
         assign buf (set_vaddr 0)
       else mret tt);;
      log (Dma_buf_unmap_attachment (dma_dir b));;
      assign buf (set_dma_addr 0);;
      assign buf (set_dma_sgt None)
    end
  end.

Definition vb2_dc_detach_dmabuf (mem_priv : loc) : K unit :=
  let buf := mem_priv in
  b ← deref buf;
  (* if vb2 works correctly you should never detach mapped buffer *)
  (if bool_decide (dma_addr b ≠ 0) then
     log Warn_on;;
     vb2_dc_unmap_dmabuf buf
   else mret tt);;
  b ← deref buf;
  (* detach this attachment *)
  _ ← lift (db_attach b);
  log Dma_buf_detach;;
  kfree_buf buf.

Definition vb2_dc_attach_dmabuf (alloc_ctx : vb2_dc_conf) (dbuf : dma_buf)
    (size : Z) (dma_dir : dma_data_direction) : K (errptr loc) :=
  let conf := alloc_ctx in
  if bool_decide (dmabuf_size dbuf < size) then mret (ERR_PTR (- EFAULT))
  else
    buf ← kzalloc_buf k;
    match buf with
    | None => mret (ERR_PTR (- ENOMEM))
    | Some buf =>
      assign buf (set_dev (Some (conf_dev conf)));;
      (* create attachment for the dmabuf with the user device *)
      h ← get_log;
      match k_dma_buf_attach k h dbuf (conf_dev conf) with
      | ERR_PTR e =>
        log (Dma_buf_attach false);;
        log (Pr_err "failed to attach dmabuf");;
        kfree_buf buf;;
        mret (ERR_PTR e)
      | Ptr dba =>
        log (Dma_buf_attach true);;
        assign buf (set_dma_dir dma_dir);;
        assign buf (set_size size);;
        assign buf (set_db_attach (Some dba));;
        mret (Ptr buf)
      end
    end.

End Allocator.

(** ** Two targets and two kernels to evaluate the code on *)

Definition p64 : platform :=
  {| BITS_PER_LONG := Bits64; DMA_ADDR_BITS := Bits64; PAGE_SHIFT := 12;
     dma_get_cache_alignment := 64; arch_pfn_macro := No_pfn_macro |}.

Definition p32 : platform :=
  {| BITS_PER_LONG := Bits32; DMA_ADDR_BITS := Bits32; PAGE_SHIFT := 12;
     dma_get_cache_alignment := 8; arch_pfn_macro := No_pfn_macro |}.

(** ** The contiguous run, as the specification words it

    The run starts at the first segment's device address; a segment
    belongs to it when its address equals the end address of the segment
    before it (an address of the device's address space); the result is
    the sum of the lengths of the run. *)
Fixpoint run_length_from (p : platform) (expected : Z) (ss : list scatterlist) : Z :=
  match ss with
  | [] => 0
  | s :: rest =>
    if bool_decide (dma_address s = expected)
    then dma_length s + run_length_from p (dma_addr_t p (dma_address s + dma_length s)) rest
    else 0
  end.

Definition contiguous_run_length (p : platform) (ss : list scatterlist) : Z :=
  match ss with
  | [] => 0
  | s :: _ => run_length_from p (dma_address s) ss
  end.

(** The segments that are mapped for the device: the first [nents]. *)
Definition mapped_segments (t : sg_table) : list scatterlist :=
  take (Z.to_nat (nents t)) (sgl t).

Definition total_length (ss : list scatterlist) : Z :=
  foldr (λ s acc, dma_length s + acc) 0 ss.

(** A table as the mapping step produces it: a non-NULL list of which at
    most the whole is mapped, with lengths of type [unsigned int]. *)
Definition wf_table (t : sg_table) : Prop :=
  sgl t ≠ [] ∧ 0 ≤ nents t ≤ Z.of_nat (length (sgl t)).

Definition uint_lengths (ss : list scatterlist) : Prop :=
  Forall (λ s, is_uint (dma_length s)) ss.

(** A kernel in which every service succeeds: allocations return memory,
    every page of a user range resolves, [dma_map_sg] maps each entry at
    the bus address of its page, and a foreign exporter hands out one
    segment that covers its whole buffer. *)
Definition map_entry (s : scatterlist) : scatterlist :=
  {| sg_page := sg_page s; sg_offset := sg_offset s; sg_length := sg_length s;
     dma_address := sg_page s * 4096 + sg_offset s; dma_length := sg_length s |}.

Definition k_ok : kernel :=
  {| k_kzalloc := λ _ _, true;
     k_dma_alloc_coherent := λ _ _ _, (3221225472, 268435456);
     k_vb2_create_framevec := λ _ _ _ _, Ptr (FrameVector 2 [256; 257]);
     k_frame_vector_to_pages := λ _ _, 0;
     k_sg_alloc_table_from_pages := λ _ pages _ offset size,
       (0, SgTable [Scatterlist (default 0 (head pages)) offset size 0 0] 1 1);
     k_dma_map_sg := λ _ _ sgl _ _, (Z.of_nat (length sgl), map_entry <$> sgl);
     k_dma_get_sgtable := λ _ b,
       (0, SgTable [Scatterlist (dma_addr b / 4096) 0 (size b) 0 0] 1 1);
     k_dma_buf_export := λ _ _, Ptr tt;
     k_dma_buf_attach := λ _ dbuf dev, Ptr (DmaBufAttachment dbuf dev None);
     k_dma_buf_map_attachment := λ _ dba _,
       Ptr (mapped_table [seg 2097152 (dmabuf_size (dba_dmabuf dba))]) |}.

Definition s_empty : kstate := KState ∅ ∅ [].

Definition conf0 : vb2_dc_conf := {| conf_dev := 1%positive |}.

(** The state of a computation that returned, the state it started in
    when it faulted. *)
Definition state_after {A} (m : K A) (s : kstate) : kstate :=
  match m s with Some (_, s') => s' | None => s end.

Definition result_of {A} (m : K A) (s : kstate) : option A :=
  fst <$> m s.

(** A foreign 8192-byte shared buffer, an importer attached to it for
    4096 bytes, and that importer after [map_dmabuf]: the store holds one
    buffer, at address 1. *)
Definition dbuf0 : dma_buf := {| dmabuf_size := 8192; dmabuf_priv := 99%positive |}.

Definition s_attached : kstate :=
  state_after (vb2_dc_attach_dmabuf k_ok conf0 dbuf0 4096 DMA_FROM_DEVICE) s_empty.

Definition s_mapped : kstate :=
  state_after (vb2_dc_map_dmabuf p64 k_ok 1%positive) s_attached.

(** The buffer that [s_attached] holds at address 1. *)
Definition dba0 : dma_buf_attachment := DmaBufAttachment dbuf0 1%positive None.

Definition buf_attached : vb2_dc_buf :=
  {| dev := Some 1%positive; vaddr := 0; size := 4096; dma_addr := 0;
     dma_dir := DMA_FROM_DEVICE; dma_sgt := None; vec := None;
     handler := None; refcount := 0; sgt_base := None;
     db_attach := Some dba0 |}.

(** Variations of a kernel in one service. *)
Definition with_map_attachment f (k : kernel) : kernel :=
  Kernel (k_kzalloc k) (k_dma_alloc_coherent k) (k_vb2_create_framevec k)
    (k_frame_vector_to_pages k) (k_sg_alloc_table_from_pages k) (k_dma_map_sg k)
    (k_dma_get_sgtable k) (k_dma_buf_export k) (k_dma_buf_attach k) f.

Definition with_kzalloc f (k : kernel) : kernel :=
  Kernel f (k_dma_alloc_coherent k) (k_vb2_create_framevec k)
    (k_frame_vector_to_pages k) (k_sg_alloc_table_from_pages k) (k_dma_map_sg k)
    (k_dma_get_sgtable k) (k_dma_buf_export k) (k_dma_buf_attach k)
    (k_dma_buf_map_attachment k).


Definition with_create_framevec f (k : kernel) : kernel :=
  Kernel (k_kzalloc k) (k_dma_alloc_coherent k) f
    (k_frame_vector_to_pages k) (k_sg_alloc_table_from_pages k) (k_dma_map_sg k)
    (k_dma_get_sgtable k) (k_dma_buf_export k) (k_dma_buf_attach k)
    (k_dma_buf_map_attachment k).

Definition with_frame_vector_to_pages f (k : kernel) : kernel :=
  Kernel (k_kzalloc k) (k_dma_alloc_coherent k) (k_vb2_create_framevec k)
    f (k_sg_alloc_table_from_pages k) (k_dma_map_sg k)
    (k_dma_get_sgtable k) (k_dma_buf_export k) (k_dma_buf_attach k)
    (k_dma_buf_map_attachment k).

Definition with_dma_map_sg f (k : kernel) : kernel :=
  Kernel (k_kzalloc k) (k_dma_alloc_coherent k) (k_vb2_create_framevec k)
    (k_frame_vector_to_pages k) (k_sg_alloc_table_from_pages k) f
    (k_dma_get_sgtable k) (k_dma_buf_export k) (k_dma_buf_attach k)
    (k_dma_buf_map_attachment k).

(** A foreign exporter whose table is contiguous for 1024 bytes only. *)
Definition k_short_export : kernel :=
  with_map_attachment
    (λ _ _ _, Ptr (mapped_table [seg 2097152 1024; seg 4194304 7168])) k_ok.


(** The consumers of the export bridge: a run of exports of the buffer
    [buf] and of releases of handles still held.  [Op_release i] releases
    the [i]-th handle held (nothing when there is none); an export that
    fails adds no handle. *)
Variant bridge_op := Op_export (flags : Z) | Op_release (i : nat).

Fixpoint run_bridge (k : kernel) (buf : loc) (ops : list bridge_op)
    (held : list dma_buf) : K (list dma_buf) :=
  match ops with
  | [] => mret held
  | Op_export flags :: ops' =>
    dbuf ← vb2_dc_get_dmabuf k buf flags;
    run_bridge k buf ops' (if dbuf is Some d then d :: held else held)
  | Op_release i :: ops' =>
    match held !! i with
    | Some d => vb2_dc_dmabuf_ops_release d;; run_bridge k buf ops' (delete i held)
    | None => run_bridge k buf ops' held
    end
  end.

(** [n] rounds of an export followed by the release of its handle. *)
Definition export_release_rounds (n : nat) : list bridge_op :=
  mjoin (replicate n [Op_export 0; Op_release 0]).

(** The reference count of the buffer at [l], when there is one. *)
Definition refcount_at (s : kstate) (l : loc) : option Z :=
  refcount <$> bufs s !! l.

(** ** Resources in the call log

    What a logged call acquires and what it releases.  [unwind] replays a
    log against the stack of resources held: a release is in order when it
    gives back the resource acquired last among those still held. *)
Variant resource := R_buf | R_framevec | R_sgt | R_sg_entries | R_dma_mapping.

Global Instance resource_eq_dec : EqDecision resource.
Proof. solve_decision. Defined.

Definition acquired (e : kcall) : option resource :=
  match e with
  | Kmalloc Kobj_buf true => Some R_buf
  | Kmalloc Kobj_sgt true => Some R_sgt
  | Vb2_create_framevec _ _ _ true => Some R_framevec
  | Sg_alloc_table_from_pages ret =>
    if bool_decide (ret = 0) then Some R_sg_entries else None
  | Dma_map_sg _ ret =>
    if bool_decide (uint ret = 0) then None else Some R_dma_mapping
  | _ => None
  end.

Definition released (e : kcall) : option resource :=
  match e with
  | Kfree Kobj_buf => Some R_buf
  | Kfree Kobj_sgt => Some R_sgt
  | Vb2_destroy_framevec => Some R_framevec
  | Sg_free_table => Some R_sg_entries
  | Dma_unmap_sg _ => Some R_dma_mapping
  | _ => None
  end.

Fixpoint unwind (lg : list kcall) (held : list resource) : option (list resource) :=
  match lg with
  | [] => Some held
  | e :: lg' =>
    match acquired e, released e with
    | Some r, _ => unwind lg' (r :: held)
    | None, Some r =>
      match held with
      | r' :: held' => if bool_decide (r = r') then unwind lg' held' else None
      | [] => None
      end
    | None, None => unwind lg' held
    end
  end.

(** ** The exits of [vb2_dc_get_userptr]

    Past its argument checks the function leaves through one of nine
    exits; [ret] is what [frame_vector_to_pages] returned, [tret] what
    [sg_alloc_table_from_pages] returned and [mapped] what
    [dma_map_sg_attrs] returned. *)
Variant userptr_exit :=
  | Exit_no_buf                            (* no memory for the descriptor *)
  | Exit_no_framevec (e : Z)               (* the range could not be pinned *)
  | Exit_pfn_direct (ret : Z)              (* no pages, consecutive frames *)
  | Exit_pfn_gap (ret : Z)                 (* no pages, a gap in the frames *)
  | Exit_no_sgt (ret : Z)                  (* no memory for the table *)
  | Exit_no_table (ret tret : Z)           (* the table could not be built *)
  | Exit_not_mapped (ret mapped : Z)       (* nothing mapped for the device *)
  | Exit_not_contiguous (ret mapped : Z)   (* contiguous size below size *)
  | Exit_mapped (ret mapped : Z).          (* a contiguous mapping *)

Definition exit_log (vaddr size : Z) (dma_dir : dma_data_direction)
    (x : userptr_exit) : list kcall :=
  let write := bool_decide (dma_dir = DMA_FROM_DEVICE) in
  let pinned ret :=
    [Kmalloc Kobj_buf true; Vb2_create_framevec vaddr size write true;
     Frame_vector_to_pages ret] in
  match x with
  | Exit_no_buf => [Kmalloc Kobj_buf false]
  | Exit_no_framevec _ =>
    [Kmalloc Kobj_buf true; Vb2_create_framevec vaddr size write false;
     Kfree Kobj_buf]
  | Exit_pfn_direct ret => pinned ret
  | Exit_pfn_gap ret => pinned ret ++ [Vb2_destroy_framevec; Kfree Kobj_buf]
  | Exit_no_sgt ret =>
    pinned ret ++
    [Kmalloc Kobj_sgt false; Pr_err "failed to allocate sg table";
     Vb2_destroy_framevec; Kfree Kobj_buf]
  | Exit_no_table ret tret =>
    pinned ret ++
    [Kmalloc Kobj_sgt true; Sg_alloc_table_from_pages tret;
     Pr_err "failed to initialize sg table";
     Kfree Kobj_sgt; Vb2_destroy_framevec; Kfree Kobj_buf]
  | Exit_not_mapped ret mapped =>
    pinned ret ++
    [Kmalloc Kobj_sgt true; Sg_alloc_table_from_pages 0; Dma_map_sg dma_dir mapped;
     Pr_err "failed to map scatterlist";
     Sg_free_table; Kfree Kobj_sgt; Vb2_destroy_framevec; Kfree Kobj_buf]
  | Exit_not_contiguous ret mapped =>
    pinned ret ++
    [Kmalloc Kobj_sgt true; Sg_alloc_table_from_pages 0; Dma_map_sg dma_dir mapped;
     Pr_err "contiguous mapping is too small %lu/%lu";
     Dma_unmap_sg dma_dir; Sg_free_table; Kfree Kobj_sgt;
     Vb2_destroy_framevec; Kfree Kobj_buf]
  | Exit_mapped ret mapped =>
    pinned ret ++
    [Kmalloc Kobj_sgt true; Sg_alloc_table_from_pages 0; Dma_map_sg dma_dir mapped]
  end.

(** The resources a returned buffer holds, the last acquired first. *)
Definition exit_holds (x : userptr_exit) : list resource :=
  match x with
  | Exit_pfn_direct _ => [R_framevec; R_buf]
  | Exit_mapped _ _ => [R_dma_mapping; R_sg_entries; R_sgt; R_framevec; R_buf]
  | _ => []
  end.

(** The error of a failing exit. *)
Definition exit_errno (x : userptr_exit) : Z :=
  match x with
  | Exit_no_buf => - ENOMEM
  | Exit_no_framevec e => int e
  | Exit_pfn_gap ret => ret
  | Exit_no_sgt _ => - ENOMEM
  | Exit_no_table _ tret => tret
  | Exit_not_mapped _ _ => - EIO
  | Exit_not_contiguous _ _ => - EFAULT
  | Exit_pfn_direct _ | Exit_mapped _ _ => 0
  end.

(** The descriptor [vb2_dc_get_userptr] returns. *)
Definition userptr_buf (conf : vb2_dc_conf) (size : Z) (dma_dir : dma_data_direction)
    (fv : frame_vector) (da : Z) (sgt : option sg_table) : vb2_dc_buf :=
  {| dev := Some (conf_dev conf); vaddr := 0; size := size; dma_addr := da;
     dma_dir := dma_dir; dma_sgt := sgt; vec := Some fv; handler := None;
     refcount := 0; sgt_base := None; db_attach := None |}.

(** Frame numbers that go up by one from each frame to the next. *)
Definition consecutive_pfns (p : platform) (nums : list Z) : Prop :=
  ∀ i a b, nums !! i = Some a → nums !! S i = Some b → b = ulong p (a + 1).

(** What the frame-vector helpers and the DMA mapping layer guarantee: a
    frame vector has as many frames as it counts, at least one; the
    entries reported as mapped are entries of a list that is there. *)
Definition wf_frame_vector (fv : frame_vector) : Prop :=
  1 ≤ nr_frames fv ≤ INT_MAX ∧ Z.of_nat (length (frames fv)) = nr_frames fv.

Definition kernel_pins_well (k : kernel) : Prop :=
  ∀ h start len write fv,
    k_vb2_create_framevec k h start len write = Ptr fv → wf_frame_vector fv.

Definition kernel_maps_well (k : kernel) : Prop :=
  ∀ h dev sgl n dir mapped sgl',
    k_dma_map_sg k h dev sgl n dir = (mapped, sgl') →
    uint mapped ≠ 0 → wf_table (SgTable sgl' (uint mapped) n).

(** ** What the kernel answers in the course of a pin

    The steps of [vb2_dc_get_userptr] that the rest of the kernel
    answers, each from the calls made before it, for a pin that starts
    after the calls [h]. *)
Section Pin.
Context (p : platform) (k : kernel) (conf : vb2_dc_conf) (vaddr size : Z)
        (dma_dir : dma_data_direction) (h : list kcall).

(** The calls up to the page resolution, which returned [ret]. *)
Definition pinned_log (ret : Z) : list kcall :=
  [Kmalloc Kobj_buf true;
   Vb2_create_framevec vaddr size (bool_decide (dma_dir = DMA_FROM_DEVICE)) true;
   Frame_vector_to_pages ret].

(** The descriptor was allocated, the range was pinned as [fv], and
    [frame_vector_to_pages] returned [ret]. *)
Definition pinned_as (fv : frame_vector) (ret : Z) : Prop :=
  k_kzalloc k h Kobj_buf = true
  ∧ k_vb2_create_framevec k (h ++ [Kmalloc Kobj_buf true]) vaddr size
      (bool_decide (dma_dir = DMA_FROM_DEVICE)) = Ptr fv
  ∧ ret = int (k_frame_vector_to_pages k
                 (h ++ [Kmalloc Kobj_buf true;
                        Vb2_create_framevec vaddr size
                          (bool_decide (dma_dir = DMA_FROM_DEVICE)) true]) fv).

(** The pages resolved, the table was allocated, and
    [sg_alloc_table_from_pages] returned [tret] and left the table [sgt]. *)
Definition table_built (fv : frame_vector) (ret tret : Z) (sgt : sg_table) : Prop :=
  pinned_as fv ret ∧ 0 ≤ ret
  ∧ k_kzalloc k (h ++ pinned_log ret) Kobj_sgt = true
  ∧ ∃ tret0,
      k_sg_alloc_table_from_pages k (h ++ pinned_log ret ++ [Kmalloc Kobj_sgt true])
        (frame_vector_pages fv) (int (frame_vector_count fv))
        (Z.land vaddr (ulong p (Z.lnot (PAGE_MASK p)))) size
      = (tret0, sgt)
      ∧ tret = int tret0.

(** The table was built, and [dma_map_sg] returned [mapped] and left the
    table [t]: its list, with [mapped] entries mapped. *)
Definition table_mapped (fv : frame_vector) (ret mapped : Z) (t : sg_table) : Prop :=
  ∃ sgt sgl',
    table_built fv ret 0 sgt
    ∧ k_dma_map_sg k
        (h ++ pinned_log ret ++ [Kmalloc Kobj_sgt true; Sg_alloc_table_from_pages 0])
        (conf_dev conf) (sgl sgt) (orig_nents sgt) dma_dir
      = (mapped, sgl')
    ∧ t = SgTable sgl' (uint mapped) (orig_nents sgt).

(** The step that fails, at each exit taken before the contiguity test. *)
Definition early_failure (x : userptr_exit) : Prop :=
  match x with
  | Exit_no_buf => k_kzalloc k h Kobj_buf = false
  | Exit_no_framevec e =>
    k_kzalloc k h Kobj_buf = true
    ∧ k_vb2_create_framevec k (h ++ [Kmalloc Kobj_buf true]) vaddr size
        (bool_decide (dma_dir = DMA_FROM_DEVICE)) = ERR_PTR e
  | Exit_pfn_gap ret =>
    ∃ fv, pinned_as fv ret ∧ ret < 0 ∧ ¬ consecutive_pfns p (frames fv)
  | Exit_no_sgt ret =>
    ∃ fv, pinned_as fv ret ∧ 0 ≤ ret
          ∧ k_kzalloc k (h ++ pinned_log ret) Kobj_sgt = false
  | Exit_no_table ret tret =>
    ∃ fv sgt, table_built fv ret tret sgt ∧ tret ≠ 0
  | Exit_not_mapped ret mapped =>
    ∃ fv t, table_mapped fv ret mapped t ∧ uint mapped = 0
  | Exit_pfn_direct _ | Exit_not_contiguous _ _ | Exit_mapped _ _ => False
  end.

End Pin.

(** A kernel that has no page structures for the pinned frames, which lie
    apart: frames 256 and 300. *)
Definition k_pfn_gap : kernel :=
  with_frame_vector_to_pages (λ _ _, - EINVAL)
    (with_create_framevec (λ _ _ _ _, Ptr (FrameVector 2 [256; 300])) k_ok).

(** The same without the gap: frames 256 and 257. *)
Definition k_pfn_direct : kernel :=
  with_frame_vector_to_pages (λ _ _, - EINVAL) k_ok.

(** A device mapping in two pieces that do not touch. *)
Definition k_scattered : kernel :=
  with_dma_map_sg
    (λ _ _ _ _ _, (2, [seg 1048576 4096; seg 3145728 4096])) k_ok.

(** A driver-allocated 4096-byte buffer, at address 1, with its first
    reference. *)
Definition s_alloc : kstate :=
  state_after (vb2_dc_alloc p64 k_ok conf0 4096 DMA_FROM_DEVICE 0) s_empty.

(** An exporter with one attachment, at address 7, that has nothing
    mapped yet. *)
Definition att0 : vb2_dc_attachment :=
  Vb2DcAttachment (SgTable [Scatterlist 256 0 4096 0 0] 0 1) DMA_NONE.

Definition s_exporter : kstate := KState ∅ (<[7%positive := att0]> ∅) [].

Definition dba_exporter : dma_buf_attachment :=
  DmaBufAttachment dbuf0 1%positive (Some 7%positive).

(** The same exporter after a map for the device to read: the attachment
    caches that direction and the translated list. *)
Definition att_mapped : vb2_dc_attachment :=
  Vb2DcAttachment (SgTable [Scatterlist 256 0 4096 1048576 4096] 1 1) DMA_TO_DEVICE.

Definition s_exporter_mapped : kstate :=
  state_after (vb2_dc_dmabuf_ops_map k_ok dba_exporter DMA_TO_DEVICE) s_exporter.

(** Three segments of which the first two touch. *)
Definition table3 : sg_table :=
  mapped_table [seg 4096 10; seg 4106 20; seg 8192 5].

(** A kernel that is out of memory. *)
Definition k_no_memory : kernel := with_kzalloc (λ _ _, false) k_ok.

(** What [k_ok] pins for a two-page user range, and the table it maps. *)
Definition fv0 : frame_vector := FrameVector 2 [256; 257].

Definition sgt0 : sg_table := SgTable [Scatterlist 256 0 8192 1048576 8192] 1 1.

(** ** More of the segment scan

    Mapped segments that touch: each starts at the end address of the one
    before it. *)
Fixpoint touching_from (p : platform) (expected : Z) (ss : list scatterlist) : Prop :=
  match ss with
  | [] => True
  | s :: rest =>
    dma_address s = expected
    ∧ touching_from p (dma_addr_t p (dma_address s + dma_length s)) rest
  end.

Definition touching (p : platform) (ss : list scatterlist) : Prop :=
  match ss with
  | [] => True
  | s :: _ => touching_from p (dma_address s) ss
  end.

(** Two mapped segments followed by an entry that [dma_map_sg] left
    unmapped. *)
Definition table_coalesced : sg_table :=
  SgTable [seg 4096 4096; seg 8192 4096; Scatterlist 3 0 4096 0 0] 2 3.

(** The lengths that [dma_map_sg] reports are [unsigned int]s. *)
Definition kernel_maps_uint (k : kernel) : Prop :=
  ∀ h dev sgl n dir mapped sgl',
    k_dma_map_sg k h dev sgl n dir = (mapped, sgl') →
    uint_lengths (take (Z.to_nat (uint mapped)) sgl').

(** A kernel whose [dma_map_sg] maps nothing. *)
Definition k_unmappable : kernel :=
  with_dma_map_sg (λ _ _ sgl _ _, (0, sgl)) k_ok.

(** ** The calls of the remaining callbacks

    The callbacks below make kernel calls that the log above has no entry
    for.  Their log is a list of [xcall]: a call of the first kind
    ([Base]) or one of the new ones.  A state [xstate] carries the kernel
    state, this log, and the live allocation contexts; a [Base] call is
    entered in the log of the kernel state as well, which stays the
    history that the services of [kernel] answer from. *)
Inductive xcall :=
  | Base (e : kcall)
  | Dma_sync_sg_for_device (n : Z) (dir : dma_data_direction)
  | Dma_sync_sg_for_cpu (n : Z) (dir : dma_data_direction)
  | Dma_buf_vmap (ret : Z)
  | Set_page_dirty_lock (page : Z)
  | Kzalloc_attach (ok : bool)
  | Kfree_attach
  | Sg_alloc_table (n : Z) (ret : Z)
  | Kzalloc_conf (ok : bool)
  | Kfree_conf.

Record xkernel := XKernel {
  x_dma_buf_vmap : list xcall → dma_buf → Z;       (* the address, 0 is NULL *)
  x_kzalloc_attach : list xcall → bool;            (* non-NULL? *)
  x_sg_alloc_table : list xcall → Z → Z;           (* 0 or an error *)
  x_kzalloc_conf : list xcall → bool               (* non-NULL? *)
}.

Record xstate := XState {
  ks : kstate;
  xlog : list xcall;
  confs : gmap loc vb2_dc_conf            (* live struct vb2_dc_conf objects *)
}.

Definition X (A : Type) : Type := xstate → option (A * xstate).

Global Instance X_ret : MRet X := λ A a xs, Some (a, xs).
Global Instance X_bind : MBind X := λ A B f m xs,
  match m xs with
  | Some (a, xs') => f a xs'
  | None => None
  end.

Definition xlift {A} (o : option A) : X A := λ xs, a ← o; Some (a, xs).

Definition xget_log : X (list xcall) := λ xs, Some (xlog xs, xs).

(** A call of the new kind. *)
Definition xcall_log (e : xcall) : X unit := λ xs,
  Some (tt, XState (ks xs) (xlog xs ++ [e]) (confs xs)).

(** A call of the first kind. *)
Definition xbase (e : kcall) : X unit := λ xs,
  Some (tt, XState (KState (bufs (ks xs)) (attachs (ks xs)) (klog (ks xs) ++ [e]))
                   (xlog xs ++ [Base e]) (confs xs)).

Definition xderef (l : loc) : X vb2_dc_buf := λ xs,
  b ← bufs (ks xs) !! l; Some (b, xs).

Definition xassign (l : loc) (f : vb2_dc_buf → vb2_dc_buf) : X unit := λ xs,
  b ← bufs (ks xs) !! l;
  Some (tt, XState (KState (<[l := f b]> (bufs (ks xs))) (attachs (ks xs))
                           (klog (ks xs)))
                   (xlog xs) (confs xs)).

(** [kfree(l)] of a [struct vb2_dc_buf] *)
Definition xkfree_buf (l : loc) : X unit := λ xs,
  _ ← bufs (ks xs) !! l;
  Some (tt, XState (KState (delete l (bufs (ks xs))) (attachs (ks xs))
                           (klog (ks xs) ++ [Kfree Kobj_buf]))
                   (xlog xs ++ [Base (Kfree Kobj_buf)]) (confs xs)).

Definition xderef_attach (l : loc) : X vb2_dc_attachment := λ xs,
  a ← attachs (ks xs) !! l; Some (a, xs).

Definition xassign_attach (l : loc) (f : vb2_dc_attachment → vb2_dc_attachment)
  : X unit := λ xs,
  a ← attachs (ks xs) !! l;
  Some (tt, XState (KState (bufs (ks xs)) (<[l := f a]> (attachs (ks xs)))
                           (klog (ks xs)))
                   (xlog xs) (confs xs)).

(** What [kzalloc(sizeof(struct vb2_dc_attachment))] returns. *)
Definition zeroed_attachment : vb2_dc_attachment :=
  Vb2DcAttachment (SgTable [] 0 0) DMA_BIDIRECTIONAL.

Definition xkzalloc_attach (kx : xkernel) : X (option loc) := λ xs,
  if x_kzalloc_attach kx (xlog xs) then
    let l := fresh (dom (attachs (ks xs))) in
    Some (Some l,
          XState (KState (bufs (ks xs)) (<[l := zeroed_attachment]> (attachs (ks xs)))
                         (klog (ks xs)))
                 (xlog xs ++ [Kzalloc_attach true]) (confs xs))
  else Some (None, XState (ks xs) (xlog xs ++ [Kzalloc_attach false]) (confs xs)).

Definition xkfree_attach (l : loc) : X unit := λ xs,
  _ ← attachs (ks xs) !! l;
  Some (tt, XState (KState (bufs (ks xs)) (delete l (attachs (ks xs)))
                           (klog (ks xs)))
                   (xlog xs ++ [Kfree_attach]) (confs xs)).

(** [sg_set_page(sg, page, len, offset)] *)
Definition sg_set_page (sg : scatterlist) (page len offset : Z) : scatterlist :=
  {| sg_page := page; sg_offset := offset; sg_length := len;
     dma_address := dma_address sg; dma_length := dma_length sg |}.

(** What [sg_alloc_table(sgt, n, gfp)] leaves in [sgt] when it returns 0:
    [n] cleared entries, all of them counted. *)
Definition cleared_table (n : Z) : sg_table :=
  SgTable (replicate (Z.to_nat n) (Scatterlist 0 0 0 0 0)) n n.

Section Callbacks.
Context (p : platform) (kx : xkernel).

(** *** callbacks for all buffers, continued *)

Definition vb2_dc_vaddr (buf_priv : loc) : X Z :=
  let buf := buf_priv in
  b ← xderef buf;
  (if bool_decide (vaddr b = 0) then
     match db_attach b with
     | Some dba =>
       h ← xget_log;
       let va := x_dma_buf_vmap kx h (dba_dmabuf dba) in
       xcall_log (Dma_buf_vmap va);;
       xassign buf (set_vaddr va)
     | None => mret tt
     end
   else mret tt);;
  b ← xderef buf;
  mret (vaddr b).

Definition vb2_dc_prepare (buf_priv : loc) : X unit :=
  let buf := buf_priv in
  b ← xderef buf;
  match dma_sgt b with
  | None => mret tt
  | Some sgt =>
    (* DMABUF exporter will flush the cache for us *)
    if db_attach b is Some _ then mret tt
    else xcall_log (Dma_sync_sg_for_device (orig_nents sgt) (dma_dir b))
  end.

Definition vb2_dc_finish (buf_priv : loc) : X unit :=
  let buf := buf_priv in
  b ← xderef buf;
  match dma_sgt b with
  | None => mret tt
  | Some sgt =>
    (* DMABUF exporter will flush the cache for us *)
    if db_attach b is Some _ then mret tt
    else xcall_log (Dma_sync_sg_for_cpu (orig_nents sgt) (dma_dir b))
  end.

(** *** DMABUF ops for exporters, continued *)

(** The loop of [vb2_dc_dmabuf_ops_attach] that copies the pages of the
    base list [rd] into the cleared list [wr], with [n] entries to go.
    Reading an entry that [rd] does not have is a fault. *)
Fixpoint attach_copy_loop (n : nat) (rd wr : list scatterlist)
  : option (list scatterlist) :=
  match n with
  | O => Some wr
  | S n' =>
    match rd, wr with
    | r :: rd', w :: wr' =>
      (sg_set_page w (sg_page r) (sg_length r) (sg_offset r) ::.)
        <$> attach_copy_loop n' rd' wr'
    | _, _ => None
    end
  end.

Definition vb2_dc_dmabuf_ops_attach (dbuf : dma_buf) (dev : device)
    (dbuf_attach : dma_buf_attachment) : X (Z * dma_buf_attachment) :=
  let buf := dmabuf_priv dbuf in
  attach ← xkzalloc_attach kx;
  match attach with
  | None => mret (- ENOMEM, dbuf_attach)
  | Some attach =>
    (* Copy the buf->base_sgt scatter list to the attachment, as we can't
       map the same scatter list to multiple attachments at the same time. *)
    b ← xderef buf;
    base ← xlift (sgt_base b);
    h ← xget_log;
    let ret := int (x_sg_alloc_table kx h (orig_nents base)) in
    xcall_log (Sg_alloc_table (orig_nents base) ret);;
    if bool_decide (ret ≠ 0) then
      xkfree_attach attach;;
      mret (- ENOMEM, dbuf_attach)
    else
      let sgt := cleared_table (orig_nents base) in
      xassign_attach attach (set_att_sgt sgt);;
      wr ← xlift (attach_copy_loop (Z.to_nat (orig_nents sgt)) (sgl base) (sgl sgt));
      xassign_attach attach (set_att_sgt (SgTable wr (nents sgt) (orig_nents sgt)));;
      xassign_attach attach (set_att_dma_dir DMA_NONE);;
      mret (0, DmaBufAttachment (dba_dmabuf dbuf_attach) (dba_dev dbuf_attach)
                                (Some attach))
  end.

Definition vb2_dc_dmabuf_ops_detach (dbuf : dma_buf)
    (db_attach : dma_buf_attachment) : X dma_buf_attachment :=
  match dba_priv db_attach with
  | None => mret db_attach
  | Some attach =>
    att ← xderef_attach attach;
    (* release the scatterlist cache *)
    (if bool_decide (att_dma_dir att ≠ DMA_NONE)
     then xbase (Dma_unmap_sg (att_dma_dir att))
     else mret tt);;
    xbase Sg_free_table;;
    xkfree_attach attach;;
    mret (DmaBufAttachment (dba_dmabuf db_attach) (dba_dev db_attach) None)
  end.

(** *** callbacks for USERPTR buffers, continued *)

(** The loop [for (i = 0; i < frame_vector_count(buf->vec); i++)
    set_page_dirty_lock(pages[i]);], at index [i] with [n] pages to go. *)
Fixpoint set_dirty_loop (n : nat) (i : nat) (pages : list Z) : X unit :=
  match n with
  | O => mret tt
  | S n' =>
    page ← xlift (pages !! i);
    xcall_log (Set_page_dirty_lock page);;
    set_dirty_loop n' (S i) pages
  end.

Definition vb2_dc_put_userptr (buf_priv : loc) : X unit :=
  let buf := buf_priv in
  b ← xderef buf;
  (match dma_sgt b with
   | Some sgt =>
     (* No need to sync to CPU, it's already synced to the CPU since the
        finish() memop will have been called before this. *)
     xbase (Dma_unmap_sg (dma_dir b));;
     vec ← xlift (vec b);
     let pages := frame_vector_pages vec in
     (* sgt should exist only if vector contains pages... *)
     set_dirty_loop (Z.to_nat (uint (frame_vector_count vec))) 0 pages;;
     xbase Sg_free_table;;
     xbase (Kfree Kobj_sgt)
   | None => mret tt
   end);;
  _ ← xlift (vec b);
  xbase Vb2_destroy_framevec;;
  xkfree_buf buf.

(** *** DMA CONTIG exported functions *)

Definition vb2_dma_contig_init_ctx (dev : device) : X (errptr loc) := λ xs,
  if x_kzalloc_conf kx (xlog xs) then
    let conf := fresh (dom (confs xs)) in
    Some (Ptr conf,
          XState (ks xs) (xlog xs ++ [Kzalloc_conf true])
                 (<[conf := {| conf_dev := dev |}]> (confs xs)))
  else
    Some (ERR_PTR (- ENOMEM),
          XState (ks xs) (xlog xs ++ [Kzalloc_conf false]) (confs xs)).

(** [alloc_ctx] is NULL ([None]), an error pointer or a context. *)
Definition vb2_dma_contig_cleanup_ctx (alloc_ctx : option (errptr loc)) : X unit :=
  match alloc_ctx with
  | Some (Ptr conf) => λ xs,
    _ ← confs xs !! conf;
    Some (tt, XState (ks xs) (xlog xs ++ [Kfree_conf]) (delete conf (confs xs)))
  | _ => mret tt
  end.

End Callbacks.

(** A kernel for the calls of the second kind in which all of them
    succeed, and one in which [dma_buf_vmap] gives no mapping. *)
Definition kx_ok : xkernel :=
  {| x_dma_buf_vmap := λ _ _, 3489660928;
     x_kzalloc_attach := λ _, true;
     x_sg_alloc_table := λ _ _, 0;
     x_kzalloc_conf := λ _, true |}.

Definition kx_no_vmap : xkernel :=
  {| x_dma_buf_vmap := λ _ _, 0;
     x_kzalloc_attach := λ _, true;
     x_sg_alloc_table := λ _ _, 0;
     x_kzalloc_conf := λ _, true |}.

(** The importer of [s_mapped], the driver-allocated buffer of [s_alloc]
    after one export, and a pinned two-page user range. *)
Definition buf_mapped : vb2_dc_buf :=
  set_dma_sgt (Some (mapped_table [seg 2097152 8192]))
    (set_dma_addr 2097152 buf_attached).

Definition s_exported : kstate :=
  state_after (vb2_dc_get_dmabuf k_ok 1%positive 0) s_alloc.

Definition s_pinned : kstate :=
  state_after (vb2_dc_get_userptr p64 k_ok conf0 4096 8192 DMA_TO_DEVICE) s_empty.

(** An entry of a base list as an attachment gets it: the page, offset
    and length, and no device address. *)
Definition unmapped_copy (r : scatterlist) : scatterlist :=
  Scatterlist (sg_page r) (sg_offset r) (sg_length r) 0 0.

(** What [vb2_dc_put_userptr] logs for a buffer with frame vector [fv]:
    with a table, the unmap, a dirty mark on each page, and the release of
    the table; then the release of the pages and of the descriptor. *)
Definition put_userptr_log (dir : dma_data_direction) (fv : frame_vector)
    (tbl : option sg_table) : list xcall :=
  (if tbl is Some _
   then [Base (Dma_unmap_sg dir)] ++ (Set_page_dirty_lock <$> frames fv)
        ++ [Base Sg_free_table; Base (Kfree Kobj_sgt)]
   else [])
  ++ [Base Vb2_destroy_framevec; Base (Kfree Kobj_buf)].

(** * Properties *)

Section Arith.

Lemma pow2_bits_pos b : 0 < 2 ^ bits b.
Proof. destruct b; reflexivity. Qed.

Lemma wrap_idemp_add_l w a b : wrap w (wrap w a + b) = wrap w (a + b).
Proof. unfold wrap. apply Zplus_mod_idemp_l. Qed.

Lemma wrap_small w x : 0 ≤ x < 2 ^ w → wrap w x = x.
Proof. intros H. unfold wrap. apply Z.mod_small. exact H. Qed.

Lemma ulong_idemp_add_l p a b : ulong p (ulong p a + b) = ulong p (a + b).
Proof. apply wrap_idemp_add_l. Qed.

Lemma ulong_small p x : is_ulong p x → ulong p x = x.
Proof. apply wrap_small. Qed.

Lemma dma_addr_t_idemp_add_l p a b :
  dma_addr_t p (dma_addr_t p a + b) = dma_addr_t p (a + b).
Proof. apply wrap_idemp_add_l. Qed.

(** Two addresses that differ by a nonzero amount below 2^32 stay
    different after the cast to [dma_addr_t]. *)
Lemma dma_addr_t_apart p a d :
  0 < d < 2 ^ 32 → dma_addr_t p (a + d) ≠ dma_addr_t p a.
Proof.
  intros Hd Heq. unfold dma_addr_t, wrap in Heq.
  assert (Hm : 0 < 2 ^ bits (DMA_ADDR_BITS p)) by apply pow2_bits_pos.
  assert (H32 : 2 ^ 32 ≤ 2 ^ bits (DMA_ADDR_BITS p))
    by (destruct (DMA_ADDR_BITS p); simpl; lia).
  assert (Hz : (a + d - a) mod 2 ^ bits (DMA_ADDR_BITS p) = 0).
  { rewrite Zminus_mod, Heq, Z.sub_diag. apply Z.mod_0_l. lia. }
  replace (a + d - a) with d in Hz by lia.
  rewrite Z.mod_small in Hz by lia. lia.
Qed.

End Arith.

(** ** The contiguous size of a segment table *)

Section ContiguousSize.
Context (p : platform).

Lemma ulong_0 : ulong p 0 = 0.
Proof. unfold ulong, wrap. apply Z.mod_0_l. pose proof (pow2_bits_pos (BITS_PER_LONG p)). lia. Qed.

(** The loop computes the run of the specification, modulo the width of
    its [unsigned long] accumulator. *)
Lemma contiguous_size_loop_spec n ss expected acc :
  (n ≤ length ss)%nat →
  contiguous_size_loop p n ss expected (ulong p acc)
  = Some (ulong p (acc + run_length_from p expected (take n ss))).
Proof.
  revert ss expected acc. induction n as [|n IH]; intros ss expected acc Hn.
  - simpl. by rewrite Z.add_0_r.
  - destruct ss as [|s rest]; [simpl in Hn; lia|].
    simpl in Hn. cbn [contiguous_size_loop take run_length_from].
    unfold sg_dma_address, sg_dma_len.
    destruct (decide (dma_address s = expected)) as [Heq|Hne].
    + rewrite (bool_decide_eq_false_2 (dma_address s ≠ expected)) by tauto.
      rewrite (bool_decide_eq_true_2 (dma_address s = expected)) by done.
      rewrite ulong_idemp_add_l, IH by lia.
      by rewrite Z.add_assoc.
    + rewrite (bool_decide_eq_true_2 (dma_address s ≠ expected)) by done.
      rewrite (bool_decide_eq_false_2 (dma_address s = expected)) by done.
      by rewrite Z.add_0_r.
Qed.

Lemma vb2_dc_get_contiguous_size_spec t :
  wf_table t →
  vb2_dc_get_contiguous_size p t
  = Some (ulong p (contiguous_run_length p (mapped_segments t))).
Proof.
  intros [Hne Hn]. unfold vb2_dc_get_contiguous_size, mapped_segments.
  destruct (sgl t) as [|s0 rest] eqn:Hsgl; [done|].
  change (head (s0 :: rest)) with (Some s0). cbn [mbind option_bind].
  pose proof (contiguous_size_loop_spec (Z.to_nat (nents t)) (s0 :: rest)
                (sg_dma_address s0) 0) as Hloop.
  rewrite ulong_0, Z.add_0_l in Hloop. rewrite Hloop by lia.
  destruct (Z.to_nat (nents t)) as [|n]; reflexivity.
Qed.

Lemma run_length_from_bounds expected ss :
  Forall (λ s, 0 ≤ dma_length s) ss →
  0 ≤ run_length_from p expected ss ≤ total_length ss.
Proof.
  revert expected. induction ss as [|s rest IH]; intros expected Hall; simpl; [lia|].
  apply Forall_cons in Hall as [Hs Hrest].
  case_bool_decide.
  - specialize (IH (dma_addr_t p (dma_address s + dma_length s)) Hrest). lia.
  - assert (0 ≤ total_length rest).
    { specialize (IH 0 Hrest). lia. }
    lia.
Qed.

(** With a 64-bit [unsigned long] the byte count cannot wrap: there are
    fewer than 2^32 segments of fewer than 2^32 bytes each. *)
Lemma total_length_bound ss :
  uint_lengths ss → 0 ≤ total_length ss ≤ Z.of_nat (length ss) * (2 ^ 32 - 1).
Proof.
  induction 1 as [|s rest Hs _ IH]; simpl; [lia|].
  unfold is_uint in Hs. lia.
Qed.

Lemma total_length_fits_64 t :
  BITS_PER_LONG p = Bits64 → is_uint (nents t) →
  uint_lengths (mapped_segments t) →
  total_length (mapped_segments t) < 2 ^ bits (BITS_PER_LONG p).
Proof.
  intros -> [Hn0 Hn] Hall. pose proof (total_length_bound _ Hall) as Hb.
  assert (Z.of_nat (length (mapped_segments t)) ≤ nents t).
  { unfold mapped_segments. rewrite length_take. lia. }
  simpl. nia.
Qed.

End ContiguousSize.

Lemma wf_mapped_table ss : ss ≠ [] → wf_table (mapped_table ss).
Proof. intros H. split; [done|]. simpl. lia. Qed.

Lemma mapped_segments_mapped_table ss : mapped_segments (mapped_table ss) = ss.
Proof.
  unfold mapped_segments, mapped_table. simpl.
  rewrite Nat2Z.id. apply firstn_all.
Qed.

Lemma contiguous_size_mapped_table p ss :
  ss ≠ [] →
  vb2_dc_get_contiguous_size p (mapped_table ss)
  = Some (ulong p (contiguous_run_length p ss)).
Proof.
  intros H. rewrite vb2_dc_get_contiguous_size_spec by by apply wf_mapped_table.
  by rewrite mapped_segments_mapped_table.
Qed.

Lemma ulong_small_const p x : 0 ≤ x < 2 ^ 32 → ulong p x = x.
Proof.
  intros H. apply ulong_small. unfold is_ulong.
  destruct (BITS_PER_LONG p); simpl; lia.
Qed.

(** C4: the scan of [vb2_dc_get_contiguous_size] starts at the first
    segment's device address and sums the lengths of the mapped segments
    for as long as each segment starts where the one before it ended (the
    sum held in an [unsigned long]).  Over [(A,10),(A+10,20),(A+40,5)] it
    returns 30 and over the overlapping [(A,10),(A+5,20)] it returns 10,
    for every base address [A] and on every target. *)
Theorem contiguous_size_scans_first_run :
  (∀ p t, wf_table t →
     vb2_dc_get_contiguous_size p t
     = Some (ulong p (contiguous_run_length p (mapped_segments t))))
  ∧ (∀ p A,
       vb2_dc_get_contiguous_size p
         (mapped_table [seg (dma_addr_t p A) 10; seg (dma_addr_t p (A + 10)) 20;
                        seg (dma_addr_t p (A + 40)) 5]) = Some 30)
  ∧ (∀ p A,
       vb2_dc_get_contiguous_size p
         (mapped_table [seg (dma_addr_t p A) 10; seg (dma_addr_t p (A + 5)) 20])
       = Some 10).
Proof.
  split; [exact vb2_dc_get_contiguous_size_spec|]. split; intros p A.
  - rewrite contiguous_size_mapped_table by done.
    cbn [contiguous_run_length run_length_from seg dma_address dma_length].
    rewrite bool_decide_eq_true_2 by done.
    rewrite (dma_addr_t_idemp_add_l p A 10).
    rewrite bool_decide_eq_true_2 by done.
    rewrite (dma_addr_t_idemp_add_l p (A + 10) 20).
    rewrite bool_decide_eq_false_2.
    + rewrite ulong_small_const; [done|lia].
    + replace (A + 40) with (A + 10 + 20 + 10) by lia.
      apply dma_addr_t_apart. lia.
  - rewrite contiguous_size_mapped_table by done.
    cbn [contiguous_run_length run_length_from seg dma_address dma_length].
    rewrite bool_decide_eq_true_2 by done.
    rewrite (dma_addr_t_idemp_add_l p A 10).
    rewrite bool_decide_eq_false_2.
    + rewrite ulong_small_const; [done|lia].
    + intros Heq. symmetry in Heq. revert Heq.
      replace (A + 10) with (A + 5 + 5) by lia.
      apply dma_addr_t_apart. lia.
Qed.

(** C10, as amended: when the lengths of the mapped segments add up to a
    value that an [unsigned long] holds, the result is at least the length
    of the first segment, and it is not zero when that length is not. *)
Theorem contiguous_size_counts_first_segment p t :
  wf_table t → 1 ≤ nents t →
  uint_lengths (mapped_segments t) →
  total_length (mapped_segments t) < 2 ^ bits (BITS_PER_LONG p) →
  ∃ s0 c, head (sgl t) = Some s0
    ∧ vb2_dc_get_contiguous_size p t = Some c
    ∧ sg_dma_len s0 ≤ c
    ∧ (sg_dma_len s0 ≠ 0 → c ≠ 0).
Proof.
  intros Hwf Hn Hlen Hfit.
  rewrite (vb2_dc_get_contiguous_size_spec p t Hwf).
  destruct Hwf as [Hne Hb]. unfold mapped_segments in *.
  destruct (sgl t) as [|s0 rest]; [done|].
  destruct (Z.to_nat (nents t)) as [|n] eqn:Hnat; [lia|].
  cbn [take] in *. exists s0. eexists. split; [done|]. split; [done|].
  cbn [contiguous_run_length run_length_from] in *.
  rewrite bool_decide_eq_true_2 by done.
  apply Forall_cons in Hlen as [Hs0 Hrest]. unfold is_uint in Hs0.
  assert (Hnn : Forall (λ s, 0 ≤ dma_length s) (take n rest)).
  { eapply Forall_impl; [exact Hrest|]. intros s Hs. apply Hs. }
  pose proof (run_length_from_bounds p
    (dma_addr_t p (dma_address s0 + dma_length s0)) _ Hnn) as Hrun.
  simpl in Hfit. unfold sg_dma_len.
  rewrite ulong_small by (unfold is_ulong; lia). lia.
Qed.

(** ** Running kernel code *)

Section Run.
Context {A B : Type}.

Lemma bind_run (m : K A) (f : A → K B) s :
  (m ≫= f) s = match m s with Some (a, s') => f a s' | None => None end.
Proof. reflexivity. Qed.

Lemma ret_run (a : A) s : (mret a : K A) s = Some (a, s).
Proof. reflexivity. Qed.

Lemma log_run e s :
  log e s = Some (tt, KState (bufs s) (attachs s) (klog s ++ [e])).
Proof. reflexivity. Qed.

Lemma get_log_run s : get_log s = Some (klog s, s).
Proof. reflexivity. Qed.

Lemma deref_run l b s : bufs s !! l = Some b → deref l s = Some (b, s).
Proof. intros H. unfold deref. by rewrite H. Qed.

Lemma assign_run l f b s :
  bufs s !! l = Some b →
  assign l f s = Some (tt, KState (<[l := f b]> (bufs s)) (attachs s) (klog s)).
Proof. intros H. unfold assign. by rewrite H. Qed.

Lemma deref_attach_run l a s :
  attachs s !! l = Some a → deref_attach l s = Some (a, s).
Proof. intros H. unfold deref_attach. by rewrite H. Qed.

Lemma assign_attach_run l f a s :
  attachs s !! l = Some a →
  assign_attach l f s
  = Some (tt, KState (bufs s) (<[l := f a]> (attachs s)) (klog s)).
Proof. intros H. unfold assign_attach. by rewrite H. Qed.

Lemma kfree_buf_run l b s :
  bufs s !! l = Some b →
  kfree_buf l s
  = Some (tt, KState (delete l (bufs s)) (attachs s) (klog s ++ [Kfree Kobj_buf])).
Proof. intros H. unfold kfree_buf. by rewrite H. Qed.

Lemma lift_run (a : A) s : lift (Some a) s = Some (a, s).
Proof. reflexivity. Qed.

Lemma lift_head_run (a : A) l s : lift (head (a :: l)) s = Some (a, s).
Proof. reflexivity. Qed.

End Run.

(** Side conditions of the run lemmas: a lookup in the current store. *)
Ltac klookup :=
  cbn [bufs attachs klog];
  first [ eassumption
        | apply lookup_insert_eq
        | rewrite lookup_insert_eq; reflexivity ].

(** One step of symbolic execution of the code at the head of the goal. *)
Ltac kstep :=
  first
    [ rewrite bind_run
    | rewrite ret_run
    | rewrite log_run
    | rewrite get_log_run
    | rewrite lift_run
    | rewrite lift_head_run
    | erewrite deref_run by klookup
    | erewrite assign_run by klookup
    | erewrite deref_attach_run by klookup
    | erewrite assign_attach_run by klookup
    | erewrite kfree_buf_run by klookup ].

Ltac knorm := cbn beta iota; cbn [bufs attachs klog negb].

Ltac krun := knorm; repeat (kstep; knorm); rewrite <- ?app_assoc; cbn [app].

(** ** Importing a shared buffer *)

Section Importer.
Context (p : platform) (k : kernel).

(** C1, as amended: [map_dmabuf] on an imported buffer that is already
    mapped is flagged with a warning and an error message and returns 0,
    the value of a successful map; it is a no-op on the buffer, whose
    device address and segment table stay as they are, and on every other
    kernel object. *)
Theorem map_dmabuf_already_mapped l s b dba t :
  bufs s !! l = Some b → db_attach b = Some dba → dma_sgt b = Some t →
  vb2_dc_map_dmabuf p k l s
  = Some (0, KState (bufs s) (attachs s)
               (klog s ++ [Warn_on; Pr_err "dmabuf buffer is already pinned"])).
Proof.
  intros Hl Ha Ht. unfold vb2_dc_map_dmabuf.
  krun. rewrite Ha, Ht. by krun.
Qed.

(** C9: a [map_dmabuf] of an attached, unmapped buffer returns 0, -EINVAL
    (the exporter gave no table) or -EFAULT (the table's contiguous size is
    below the buffer's size, and the table is handed back); after either
    failure the store is the one before the call, so the buffer is still
    attached and unmapped and the call can be made again. *)
Theorem map_dmabuf_failure_keeps_buffer l s b dba :
  bufs s !! l = Some b → db_attach b = Some dba → dma_sgt b = None →
  (∀ h d t, k_dma_buf_map_attachment k h dba d = Ptr t → wf_table t) →
  ∃ r s', vb2_dc_map_dmabuf p k l s = Some (r, s')
    ∧ (r = 0 ∨ r = - EINVAL ∨ r = - EFAULT)
    ∧ (r = - EINVAL →
         s' = KState (bufs s) (attachs s)
                (klog s ++ [Dma_buf_map_attachment (dma_dir b) false;
                            Pr_err "Error getting dmabuf scatterlist"]))
    ∧ (r = - EFAULT →
         s' = KState (bufs s) (attachs s)
                (klog s ++ [Dma_buf_map_attachment (dma_dir b) true;
                            Pr_err "contiguous chunk is too small %lu/%lu b";
                            Dma_buf_unmap_attachment (dma_dir b)]))
    ∧ (r ≠ 0 →
         bufs s' = bufs s ∧ attachs s' = attachs s ∧ bufs s' !! l = Some b).
Proof.
  intros Hl Ha Ht Hwf. unfold vb2_dc_map_dmabuf.
  krun. rewrite Ha, Ht. krun.
  destruct (k_dma_buf_map_attachment k (klog s) dba (dma_dir b)) as [t|e] eqn:Hk.
  - specialize (Hwf _ _ _ Hk).
    rewrite (vb2_dc_get_contiguous_size_spec p t Hwf).
    destruct Hwf as [Hne _]. destruct (sgl t) as [|s0 rest] eqn:Hsgl; [done|].
    krun. case_bool_decide.
    + krun. eexists _, _. split; [reflexivity|].
      unfold EINVAL, EFAULT. repeat split; intros; first [done | lia | tauto].
    + krun. eexists _, _. split; [reflexivity|].
      unfold EINVAL, EFAULT. repeat split; intros; first [done | lia | tauto].
  - krun. eexists _, _. split; [reflexivity|].
    unfold EINVAL, EFAULT. repeat split; intros; first [done | lia | tauto].
Qed.

(** What [kzalloc(sizeof *buf)] returned and where: a fresh address. *)
Lemma fresh_buf_unused s : bufs s !! fresh (dom (bufs s)) = None.
Proof. apply not_elem_of_dom. apply is_fresh. Qed.


End Importer.

(** ** Driver-allocated buffers and their export *)

Section Mmap.
Context (p : platform) (k : kernel).



Lemma int_small x : is_int x → int x = x.
Proof.
  unfold is_int, INT_MIN, INT_MAX, int, swrap. intros H.
  rewrite Z.mod_small; lia.
Qed.

Lemma vb2_dc_get_base_sgt_run l b s :
  bufs s !! l = Some b →
  ∃ o lg, vb2_dc_get_base_sgt k l s = Some (o, KState (bufs s) (attachs s) lg).
Proof.
  intros Hl. unfold vb2_dc_get_base_sgt, kzalloc_sgt. krun.
  destruct (k_kzalloc k (klog s) Kobj_sgt); krun; [|by eexists _, _].
  destruct (k_dma_get_sgtable k _ b) as [ret sgt]. krun.
  case_bool_decide; krun; by eexists _, _.
Qed.

(** An export leaves every field of the buffer but [sgt_base] and
    [refcount] alone; it counts one more reference exactly when it
    returns a handle, and the handle is one for this buffer. *)
Lemma vb2_dc_get_dmabuf_run l b flags s :
  bufs s !! l = Some b →
  ∃ res sb lg,
    vb2_dc_get_dmabuf k l flags s
    = Some (res, KState (<[l := set_refcount
                                  (if res is Some _ then int (refcount b + 1)
                                   else refcount b)
                                  (set_sgt_base sb b)]> (bufs s))
                        (attachs s) lg)
    ∧ (∀ d, res = Some d → dmabuf_priv d = l ∧ dmabuf_size d = size b).
Proof.
  intros Hl. unfold vb2_dc_get_dmabuf. krun.
  assert (Hstep : ∃ sb lg,
    (if sgt_base b is None
     then vb2_dc_get_base_sgt k l ≫= λ sgt, assign l (set_sgt_base sgt)
     else mret ()) s
    = Some (tt, KState (<[l := set_sgt_base sb b]> (bufs s)) (attachs s) lg)
    ∧ (sgt_base b ≠ None → sb = sgt_base b)).
  { destruct (sgt_base b) as [t|] eqn:Hbase.
    - exists (Some t), (klog s). krun. split; [|done].
      do 2 f_equal. destruct s as [m a lg]. cbn in *. f_equal.
      symmetry. apply insert_id. rewrite Hl. f_equal.
      destruct b; cbn in *. by subst.
    - destruct (vb2_dc_get_base_sgt_run l b s Hl) as (o & lg & Hrun).
      exists o, lg. rewrite bind_run, Hrun. cbn beta iota. by krun. }
  destruct Hstep as (sb & lg & -> & Hsb). cbn beta iota. krun.
  destruct sb as [t|]; cbn [sgt_base set_sgt_base].
  - unfold dma_buf_export. krun.
    destruct (k_dma_buf_export k lg _) as [[]|e]; krun.
    + unfold atomic_inc. krun. eexists (Some _), (Some t), _.
      split; [by rewrite insert_insert_eq|]. by intros d [= <-].
    + eexists None, (Some t), _. split; [|done].
      do 3 f_equal.
  - krun. eexists None, None, _. split; [|done].
    do 3 f_equal.
Qed.

(** A release that is not the last: the count drops by one and nothing
    else happens. *)
Lemma vb2_dc_put_run l b s :
  bufs s !! l = Some b → int (refcount b - 1) ≠ 0 →
  vb2_dc_put l s
  = Some (tt, KState (<[l := set_refcount (int (refcount b - 1)) b]> (bufs s))
                     (attachs s) (klog s)).
Proof.
  intros Hl Hnz. unfold vb2_dc_put, atomic_dec_and_test. krun.
  cbn [refcount set_refcount]. rewrite bool_decide_eq_false_2 by done.
  by krun.
Qed.

(** The last release tears the buffer down and frees it. *)
Lemma vb2_dc_put_last_run l b s :
  bufs s !! l = Some b → int (refcount b - 1) = 0 →
  vb2_dc_put l s
  = Some (tt, KState (delete l (bufs s)) (attachs s)
                (klog s ++ (if sgt_base b is Some _
                            then [Sg_free_table; Kfree Kobj_sgt] else [])
                        ++ [Dma_free_coherent; Put_device; Kfree Kobj_buf])).
Proof.
  intros Hl Hz. unfold vb2_dc_put, atomic_dec_and_test. krun.
  cbn [refcount set_refcount]. rewrite bool_decide_eq_true_2 by done.
  krun. cbn [sgt_base set_refcount].
  destruct (sgt_base b); krun; by rewrite delete_insert_eq.
Qed.

(** The count of a live buffer is its base count plus the handles held,
    whatever the order of exports and releases. *)
Lemma run_bridge_refcount l ops :
  ∀ held s b,
    bufs s !! l = Some b →
    Forall (λ d, dmabuf_priv d = l) held →
    1 ≤ refcount b - Z.of_nat (length held) →
    refcount b + Z.of_nat (length ops) ≤ INT_MAX →
    ∃ held' s' b',
      run_bridge k l ops held s = Some (held', s')
      ∧ bufs s' !! l = Some b'
      ∧ refcount b' - Z.of_nat (length held')
        = refcount b - Z.of_nat (length held).
Proof.
  induction ops as [|[flags|i] ops IH]; intros held s b Hl Hheld Hbase Hmax.
  - exists held, s, b. by krun.
  - cbn [run_bridge length] in *. rewrite bind_run.
    destruct (vb2_dc_get_dmabuf_run l b flags s Hl) as (res & sb & lg & -> & Hres).
    cbn beta iota.
    assert (Hint : int (refcount b + 1) = refcount b + 1).
    { apply int_small. unfold is_int, INT_MIN, INT_MAX in *. lia. }
    destruct res as [d|].
    + destruct (Hres d eq_refl) as [Hpriv _].
      lazymatch goal with
      | |- context [run_bridge k l ops _ ?st] =>
        edestruct (IH (d :: held) st) as (held' & s' & b' & Hrun & Hl' & Hcount);
          [klookup | by constructor | | | ]
      end.
      * cbn [refcount set_refcount set_sgt_base length]. rewrite ?Hint. lia.
      * cbn [refcount set_refcount set_sgt_base]. rewrite ?Hint. lia.
      * exists held', s', b'. split; [exact Hrun|]. split; [done|].
        rewrite Hcount. cbn [refcount set_refcount set_sgt_base length]. rewrite ?Hint. lia.
    + lazymatch goal with
      | |- context [run_bridge k l ops _ ?st] =>
        edestruct (IH held st) as (held' & s' & b' & Hrun & Hl' & Hcount);
          [klookup | done | | | ]
      end.
      * cbn [refcount set_refcount set_sgt_base]. rewrite ?Hint. lia.
      * cbn [refcount set_refcount set_sgt_base]. rewrite ?Hint. lia.
      * exists held', s', b'. split; [exact Hrun|]. split; [done|].
        rewrite Hcount. cbn [refcount set_refcount set_sgt_base]. rewrite ?Hint. lia.
  - cbn [run_bridge length] in *.
    destruct (held !! i) as [d|] eqn:Hi.
    + pose proof (Forall_lookup_1 _ _ _ _ Hheld Hi) as Hpriv. cbn beta in Hpriv.
      pose proof (lookup_lt_Some _ _ _ Hi) as Hlt.
      assert (Hint : int (refcount b - 1) = refcount b - 1).
      { apply int_small. unfold is_int, INT_MIN, INT_MAX in *. lia. }
      rewrite bind_run. unfold vb2_dc_dmabuf_ops_release. rewrite Hpriv.
      rewrite (vb2_dc_put_run l b s Hl) by lia. cbn beta iota.
      lazymatch goal with
      | |- context [run_bridge k l ops _ ?st] =>
        edestruct (IH (delete i held) st) as (held' & s' & b' & Hrun & Hl' & Hcount);
          [klookup | by apply Forall_delete | | | ]
      end.
      * cbn [refcount set_refcount]. rewrite ?Hint, length_delete by eauto. lia.
      * cbn [refcount set_refcount set_sgt_base]. rewrite ?Hint. lia.
      * exists held', s', b'. split; [exact Hrun|]. split; [done|].
        rewrite Hcount. cbn [refcount set_refcount].
        rewrite ?Hint, length_delete by eauto. lia.
    + edestruct (IH held) as (held' & s' & b' & Hrun & Hl' & Hcount);
        [exact Hl | done | lia | lia | ].
      exists held', s', b'. by rewrite Hrun.
Qed.

Lemma export_release_rounds_refcount l n :
  ∀ s b,
    bufs s !! l = Some b → 1 ≤ refcount b → refcount b < INT_MAX →
    ∃ s' b',
      run_bridge k l (export_release_rounds n) [] s = Some ([], s')
      ∧ bufs s' !! l = Some b' ∧ refcount b' = refcount b.
Proof.
  induction n as [|n IH]; intros s b Hl Hlo Hhi.
  - exists s, b. by krun.
  - change (export_release_rounds (S n))
      with (Op_export 0 :: Op_release 0 :: export_release_rounds n).
    cbn [run_bridge]. rewrite bind_run.
    destruct (vb2_dc_get_dmabuf_run l b 0 s Hl) as (res & sb & lg & -> & Hres).
    cbn beta iota.
    assert (Hup : int (refcount b + 1) = refcount b + 1).
    { apply int_small. unfold is_int, INT_MIN, INT_MAX in *. lia. }
    assert (Hdown : int (refcount b + 1 - 1) = refcount b).
    { rewrite int_small; unfold is_int, INT_MIN, INT_MAX in *; lia. }
    destruct res as [d|].
    + destruct (Hres d eq_refl) as [Hpriv _].
      change ([d] !! 0%nat) with (Some d). cbn iota.
      rewrite bind_run. unfold vb2_dc_dmabuf_ops_release. rewrite Hpriv.
      erewrite vb2_dc_put_run by
        first [klookup | cbn [refcount set_refcount]; rewrite Hup, Hdown; lia].
      cbn beta iota. cbn [delete list_delete].
      lazymatch goal with
      | |- context [run_bridge k l _ _ ?st] =>
        edestruct (IH st) as (s' & b' & Hrun & Hl' & Hcount); [klookup | | | ]
      end.
      * cbn [refcount set_refcount]. rewrite Hup, Hdown. lia.
      * cbn [refcount set_refcount]. rewrite Hup, Hdown. lia.
      * exists s', b'. split; [exact Hrun|]. split; [done|].
        rewrite Hcount. cbn [refcount set_refcount]. by rewrite Hup, Hdown.
    + change (@nil dma_buf !! 0%nat) with (@None dma_buf). cbn iota.
      lazymatch goal with
      | |- context [run_bridge k l _ _ ?st] =>
        edestruct (IH st) as (s' & b' & Hrun & Hl' & Hcount); [klookup | | | ]
      end.
      * cbn [refcount set_refcount set_sgt_base]. lia.
      * cbn [refcount set_refcount set_sgt_base]. lia.
      * exists s', b'. split; [exact Hrun|]. split; [done|].
        by rewrite Hcount.
Qed.

(** An export returns a handle exactly when the buffer has, or gets, its
    base table and [dma_buf_export] gives a handle for it. *)
Lemma vb2_dc_get_dmabuf_handle l b flags s res s1 :
  bufs s !! l = Some b →
  vb2_dc_get_dmabuf k l flags s = Some (res, s1) →
  is_Some res ↔
    ∃ t lg u,
      (sgt_base b = Some t ∧ lg = klog s
       ∨ sgt_base b = None
         ∧ k_kzalloc k (klog s) Kobj_sgt = true
         ∧ ∃ ret, k_dma_get_sgtable k (klog s ++ [Kmalloc Kobj_sgt true]) b = (ret, t)
                  ∧ 0 ≤ int ret
                  ∧ lg = klog s ++ [Kmalloc Kobj_sgt true; Dma_get_sgtable ret])
      ∧ k_dma_buf_export k lg
          {| exp_size := size b; exp_flags := int flags; exp_priv := l |} = Ptr u.
Proof.
  intros Hl. unfold vb2_dc_get_dmabuf. krun.
  destruct (sgt_base b) as [t|] eqn:Hbase.
  - krun. rewrite Hbase. unfold dma_buf_export. krun.
    destruct (k_dma_buf_export k (klog s) _) as [u|e] eqn:Hexp; krun.
    + unfold atomic_inc. krun. intros [= <- <-]. split; [|by eexists].
      intros _. exists t, (klog s), u. split; [by left|done].
    + intros [= <- <-]. split; [by intros [? ?]|].
      intros (t' & lg & u & [[_ ->] | (? & _)] & Hu); congruence.
  - unfold vb2_dc_get_base_sgt, kzalloc_sgt. krun.
    destruct (k_kzalloc k (klog s) Kobj_sgt) eqn:Hkz; krun.
    2:{ intros [= <- <-]. split; [by intros [? ?]|].
        intros (t' & lg & u & [[? _] | (_ & ? & _)] & _); congruence. }
    destruct (k_dma_get_sgtable k _ b) as [ret sgt] eqn:Hget. krun.
    destruct (decide (int ret < 0)) as [Hneg|Hpos].
    { rewrite (bool_decide_eq_true_2 (int ret < 0)) by done. krun.
      intros [= <- <-]. split; [by intros [? ?]|].
      intros (t' & lg & u & [[? _] | (_ & _ & ret' & Hget' & ? & _)] & _);
        [congruence|].
      injection Hget' as <- _. lia. }
    rewrite (bool_decide_eq_false_2 (int ret < 0)) by done. krun.
    cbn [sgt_base set_sgt_base]. unfold dma_buf_export. krun.
    destruct (k_dma_buf_export k _ _) as [u|e] eqn:Hexp; krun.
    + unfold atomic_inc. krun. intros [= <- <-]. split; [|by eexists].
      intros _. eexists sgt, _, u. split; [|exact Hexp].
      right. split; [done|]. split; [done|]. exists ret.
      split; [done|]. split; [lia|done].
    + intros [= <- <-]. split; [by intros [? ?]|].
      intros (t' & lg & u & [[? _] | (_ & _ & ret' & Hget' & _ & ->)] & Hu);
        [congruence|].
      injection Hget' as <- <-. congruence.
Qed.

(** C6: an export returns a handle exactly when the buffer has, or gets,
    its base table and [dma_buf_export] gives a handle; such an export
    takes the reference count of the buffer from [r] to exactly [r + 1],
    and one that returns no handle leaves it at [r].  The release of the
    exported handle takes the count down by exactly one, and after any
    run of exports and releases the count is [r] plus the number of
    handles still held: it is [r] again once every handle is released,
    as after [n] rounds of an export followed by its release.  ([r] is
    the count of a buffer in use, at least 1, and below the top of the
    counter's range.) *)
Theorem export_release_refcount l s b :
  bufs s !! l = Some b → 1 ≤ refcount b → refcount b < INT_MAX →
  (∀ flags, ∃ res s1,
      vb2_dc_get_dmabuf k l flags s = Some (res, s1)
      ∧ (is_Some res ↔
           ∃ t lg u,
             (sgt_base b = Some t ∧ lg = klog s
              ∨ sgt_base b = None
                ∧ k_kzalloc k (klog s) Kobj_sgt = true
                ∧ ∃ ret,
                    k_dma_get_sgtable k (klog s ++ [Kmalloc Kobj_sgt true]) b
                    = (ret, t)
                    ∧ 0 ≤ int ret
                    ∧ lg = klog s ++ [Kmalloc Kobj_sgt true; Dma_get_sgtable ret])
             ∧ k_dma_buf_export k lg
                 {| exp_size := size b; exp_flags := int flags; exp_priv := l |}
               = Ptr u)
      ∧ (res = None → refcount_at s1 l = Some (refcount b))
      ∧ ∀ d, res = Some d →
          refcount_at s1 l = Some (refcount b + 1)
          ∧ ∃ s2, vb2_dc_dmabuf_ops_release d s1 = Some (tt, s2)
                  ∧ refcount_at s2 l = Some (refcount b))
  ∧ (∀ ops, refcount b + Z.of_nat (length ops) ≤ INT_MAX →
       ∃ held s', run_bridge k l ops [] s = Some (held, s')
         ∧ refcount_at s' l = Some (refcount b + Z.of_nat (length held)))
  ∧ (∀ n, ∃ s', run_bridge k l (export_release_rounds n) [] s = Some ([], s')
         ∧ refcount_at s' l = Some (refcount b)).
Proof.
  intros Hl Hlo Hhi.
  assert (Hup : int (refcount b + 1) = refcount b + 1).
  { apply int_small. unfold is_int, INT_MIN, INT_MAX in *. lia. }
  assert (Hdown : int (refcount b + 1 - 1) = refcount b).
  { rewrite int_small; unfold is_int, INT_MIN, INT_MAX in *; lia. }
  split; [|split].
  - intros flags.
    destruct (vb2_dc_get_dmabuf_run l b flags s Hl) as (res & sb & lg & Hrun & Hres).
    eexists res, _. split; [exact Hrun|].
    split; [exact (vb2_dc_get_dmabuf_handle l b flags s res _ Hl Hrun)|].
    split.
    { intros ->. unfold refcount_at. cbn [bufs]. rewrite lookup_insert_eq.
      reflexivity. }
    intros d ->.
    destruct (Hres d eq_refl) as [Hpriv _].
    unfold refcount_at. cbn [bufs]. rewrite lookup_insert_eq.
    cbn [fmap option_fmap option_map refcount set_refcount].
    split; [by rewrite Hup|].
    unfold vb2_dc_dmabuf_ops_release. rewrite Hpriv.
    erewrite vb2_dc_put_run by
      first [klookup | cbn [refcount set_refcount]; rewrite Hup, Hdown; lia].
    eexists. split; [reflexivity|]. cbn [bufs]. rewrite lookup_insert_eq.
    cbn [fmap option_fmap option_map refcount set_refcount].
    by rewrite Hup, Hdown.
  - intros ops Hmax.
    destruct (run_bridge_refcount l ops [] s b Hl) as (held & s' & b' & Hrun & Hl' & Hcount);
      [done | cbn [length]; lia | lia |].
    exists held, s'. split; [exact Hrun|]. unfold refcount_at. rewrite Hl'.
    cbn [fmap option_fmap option_map length] in *. f_equal. lia.
  - intros n.
    destruct (export_release_rounds_refcount l n s b Hl Hlo Hhi)
      as (s' & b' & Hrun & Hl' & Hcount).
    exists s'. split; [exact Hrun|]. unfold refcount_at. rewrite Hl'.
    cbn [fmap option_fmap option_map]. by rewrite Hcount.
Qed.

End Mmap.

(** ** The exporter's side of a shared buffer *)

Section Exporter.
Context (k : kernel).

(** A map in the cached direction: the cached table, no translation. *)
Lemma vb2_dc_dmabuf_ops_map_cached dba a att s :
  dba_priv dba = Some a → attachs s !! a = Some att →
  vb2_dc_dmabuf_ops_map k dba (att_dma_dir att) s
  = Some (Ptr (att_sgt att),
          KState (bufs s) (attachs s) (klog s ++ [Mutex_lock; Mutex_unlock])).
Proof.
  intros Hpriv Ha. unfold vb2_dc_dmabuf_ops_map. krun. rewrite Hpriv. krun.
  rewrite bool_decide_eq_true_2 by done. by krun.
Qed.

(** A map in another direction: the cached mapping, when there is one, is
    released and the cached direction reset; then the list is translated
    for the new direction, which the cache records when at least one
    entry was mapped. *)
Lemma vb2_dc_dmabuf_ops_map_fresh dba a att dma_dir s :
  dba_priv dba = Some a → attachs s !! a = Some att →
  att_dma_dir att ≠ dma_dir →
  let release :=
    if bool_decide (att_dma_dir att = DMA_NONE) then []
    else [Dma_unmap_sg (att_dma_dir att)] in
  let h := klog s ++ Mutex_lock :: release in
  let sgt := att_sgt att in
  let '(ret, sgl') := k_dma_map_sg k h (dba_dev dba) (sgl sgt) (orig_nents sgt) dma_dir in
  let sgt' := SgTable sgl' (uint ret) (orig_nents sgt) in
  vb2_dc_dmabuf_ops_map k dba dma_dir s
  = if bool_decide (uint ret = 0) then
      Some (ERR_PTR (- EIO),
            KState (bufs s) (<[a := Vb2DcAttachment sgt' DMA_NONE]> (attachs s))
              (h ++ [Dma_map_sg dma_dir ret; Pr_err "failed to map scatterlist";
                     Mutex_unlock]))
    else
      Some (Ptr sgt',
            KState (bufs s) (<[a := Vb2DcAttachment sgt' dma_dir]> (attachs s))
              (h ++ [Dma_map_sg dma_dir ret; Mutex_unlock])).
Proof.
  intros Hpriv Ha Hdir. cbn zeta.
  unfold vb2_dc_dmabuf_ops_map. krun. rewrite Hpriv. krun.
  rewrite (bool_decide_eq_false_2 (att_dma_dir att = dma_dir)) by done.
  destruct (decide (att_dma_dir att = DMA_NONE)) as [Hnone|Hsome].
  - rewrite (bool_decide_eq_false_2 (att_dma_dir att ≠ DMA_NONE)) by tauto.
    rewrite (bool_decide_eq_true_2 (att_dma_dir att = DMA_NONE)) by done.
    krun.
    destruct (k_dma_map_sg k _ (dba_dev dba) _ _ dma_dir) as [ret sgl'].
    krun. cbn [nents]. case_bool_decide; krun.
    + unfold set_att_sgt. by rewrite Hnone.
    + by rewrite insert_insert_eq.
  - rewrite (bool_decide_eq_true_2 (att_dma_dir att ≠ DMA_NONE)) by done.
    rewrite (bool_decide_eq_false_2 (att_dma_dir att = DMA_NONE)) by done.
    krun.
    destruct (k_dma_map_sg k _ (dba_dev dba) _ _ dma_dir) as [ret sgl'].
    krun. cbn [nents]. case_bool_decide; krun.
    + by rewrite insert_insert_eq.
    + by rewrite !insert_insert_eq.
Qed.

(** C5: a map in the cached direction returns the cached table and asks
    for no translation (the call only takes and drops the lock); a map in
    another direction first releases the cached device mapping, if one is
    cached, then asks [dma_map_sg] for a translation of the attachment's
    list for the new direction: the attachment's table becomes the list
    that [dma_map_sg] left, with as many mapped entries as it returned;
    when that is none the call fails with -EIO and no direction is cached,
    otherwise the call returns this table and caches the direction.  A
    map that returned a table, repeated with the same direction, returns
    the same table and leaves the cache alone. *)
Theorem dmabuf_ops_map_direction_cache dba a att dma_dir s :
  dba_priv dba = Some a → attachs s !! a = Some att →
  ∃ r s', vb2_dc_dmabuf_ops_map k dba dma_dir s = Some (r, s')
    ∧ bufs s' = bufs s
    ∧ (att_dma_dir att = dma_dir →
         r = Ptr (att_sgt att) ∧ attachs s' = attachs s
         ∧ klog s' = klog s ++ [Mutex_lock; Mutex_unlock])
    ∧ (att_dma_dir att ≠ dma_dir →
         ∃ ret sgl' att',
           k_dma_map_sg k
             (klog s ++ [Mutex_lock]
                     ++ (if bool_decide (att_dma_dir att = DMA_NONE) then []
                         else [Dma_unmap_sg (att_dma_dir att)]))
             (dba_dev dba) (sgl (att_sgt att)) (orig_nents (att_sgt att)) dma_dir
           = (ret, sgl')
           ∧ att_sgt att' = SgTable sgl' (uint ret) (orig_nents (att_sgt att))
           ∧ klog s' = klog s ++ [Mutex_lock]
                       ++ (if bool_decide (att_dma_dir att = DMA_NONE) then []
                           else [Dma_unmap_sg (att_dma_dir att)])
                       ++ [Dma_map_sg dma_dir ret]
                       ++ (if bool_decide (uint ret = 0)
                           then [Pr_err "failed to map scatterlist"] else [])
                       ++ [Mutex_unlock]
           ∧ attachs s' = <[a := att']> (attachs s)
           ∧ nents (att_sgt att') = uint ret
           ∧ (if bool_decide (uint ret = 0)
              then r = ERR_PTR (- EIO) ∧ att_dma_dir att' = DMA_NONE
              else r = Ptr (att_sgt att') ∧ att_dma_dir att' = dma_dir))
    ∧ (∀ t, r = Ptr t →
         vb2_dc_dmabuf_ops_map k dba dma_dir s'
         = Some (Ptr t, KState (bufs s') (attachs s')
                          (klog s' ++ [Mutex_lock; Mutex_unlock]))).
Proof.
  intros Hpriv Ha. destruct (decide (att_dma_dir att = dma_dir)) as [<-|Hdir].
  - rewrite (vb2_dc_dmabuf_ops_map_cached dba a att s Hpriv Ha).
    eexists _, _. split; [reflexivity|]. split; [done|].
    split; [done|]. split; [done|]. intros t [= <-].
    by rewrite (vb2_dc_dmabuf_ops_map_cached dba a att).
  - pose proof (vb2_dc_dmabuf_ops_map_fresh dba a att dma_dir s Hpriv Ha Hdir) as Hrun.
    cbn zeta in Hrun.
    destruct (k_dma_map_sg k _ (dba_dev dba) _ _ dma_dir) as [ret sgl'] eqn:Hk.
    rewrite Hrun. clear Hrun.
    destruct (decide (uint ret = 0)) as [Hret|Hret];
      [rewrite (bool_decide_eq_true_2 (uint ret = 0)) by done
      |rewrite (bool_decide_eq_false_2 (uint ret = 0)) by done].
    + eexists _, _. split; [reflexivity|]. split; [done|].
      split; [done|]. split; [|done]. intros _.
      eexists ret, sgl', (Vb2DcAttachment _ _). cbn [klog attachs]. split; [first [exact Hk | reflexivity]|].
      split; [reflexivity|]. split.
      { rewrite <- !app_assoc. cbn [app].
        by rewrite (bool_decide_eq_true_2 (uint ret = 0)). }
      split; [reflexivity|]. split; [reflexivity|].
      by rewrite (bool_decide_eq_true_2 (uint ret = 0)).
    + eexists _, _. split; [reflexivity|]. split; [done|].
      split; [done|]. split.
      { intros _. eexists ret, sgl', (Vb2DcAttachment _ _). cbn [klog attachs]. split; [first [exact Hk | reflexivity]|].
        split; [reflexivity|]. split.
        { rewrite <- !app_assoc. cbn [app].
          by rewrite (bool_decide_eq_false_2 (uint ret = 0)). }
        split; [reflexivity|]. split; [reflexivity|].
        by rewrite (bool_decide_eq_false_2 (uint ret = 0)). }
      intros t [= <-].
      apply (vb2_dc_dmabuf_ops_map_cached dba a
               (Vb2DcAttachment (SgTable sgl' (uint ret) (orig_nents (att_sgt att))) dma_dir));
        [done | klookup].
Qed.

End Exporter.

(** ** Pinned user memory *)

Section Userptr.
Context (p : platform) (k : kernel).

(** With the alignment a power of two that an [unsigned long] holds,
    [IS_ALIGNED(vaddr | size, align)] says that both [vaddr] and [size]
    are multiples of the alignment. *)
Lemma IS_ALIGNED_lor_spec vaddr size e :
  0 ≤ e < bits (BITS_PER_LONG p) →
  IS_ALIGNED p (Z.lor vaddr size) (2 ^ e) = true
  ↔ vaddr mod 2 ^ e = 0 ∧ size mod 2 ^ e = 0.
Proof.
  intros He. unfold IS_ALIGNED. rewrite bool_decide_eq_true.
  assert (Hpow : 0 < 2 ^ e < 2 ^ bits (BITS_PER_LONG p)).
  { split; [apply Z.pow_pos_nonneg; lia|]. apply Z.pow_lt_mono_r; lia. }
  rewrite (ulong_small p (2 ^ e)) by (unfold is_ulong; lia).
  rewrite (ulong_small p (2 ^ e - 1)) by (unfold is_ulong; lia).
  replace (2 ^ e - 1) with (Z.ones e) by (rewrite Z.ones_equiv; lia).
  rewrite Z.land_lor_distr_l, !Z.land_ones by lia.
  apply Z.lor_eq_0_iff.
Qed.

(** C7: a pin request whose address or size is not a multiple of the
    cache alignment, or whose size is zero, fails with -EINVAL; the store
    is untouched and the only call made is the debug message: no
    descriptor, no pinned pages and no table come to exist. *)
Theorem get_userptr_rejects_unaligned conf vaddr size dma_dir s e :
  dma_get_cache_alignment p = 2 ^ e → 0 ≤ e < bits (BITS_PER_LONG p) →
  vaddr mod 2 ^ e ≠ 0 ∨ size mod 2 ^ e ≠ 0 ∨ size = 0 →
  ∃ msg,
    vb2_dc_get_userptr p k conf vaddr size dma_dir s
    = Some (ERR_PTR (- EINVAL),
            KState (bufs s) (attachs s) (klog s ++ [Pr_debug msg])).
Proof.
  intros Halign He Hbad. unfold vb2_dc_get_userptr. rewrite Halign.
  destruct (IS_ALIGNED p (Z.lor vaddr size) (2 ^ e)) eqn:Hal.
  - apply IS_ALIGNED_lor_spec in Hal as [Hv Hs]; [|done].
    destruct Hbad as [?|[?| ->]]; [done..|].
    krun. rewrite bool_decide_eq_true_2 by done. krun. by eexists.
  - krun. by eexists.
Qed.

(** The frame check runs to its end or jumps; it does not read outside
    the frame array. *)
Lemma pfns_contiguous_loop_total n i nums :
  (1 ≤ i)%nat → (i + n ≤ length nums)%nat →
  ∃ c, pfns_contiguous_loop p n i nums = Some c.
Proof.
  revert i. induction n as [|n IH]; intros i Hi Hlen; [by eexists|].
  cbn [pfns_contiguous_loop].
  destruct (lookup_lt_is_Some_2 nums (i - 1)) as [a ->]; [lia|].
  destruct (lookup_lt_is_Some_2 nums i) as [b ->]; [lia|].
  cbn [mbind option_bind]. case_bool_decide; [by eexists|].
  apply IH; lia.
Qed.

(** It runs to its end exactly when the frames it looks at go up by one. *)
Lemma pfns_contiguous_loop_true n i nums :
  (1 ≤ i)%nat → (i + n ≤ length nums)%nat →
  pfns_contiguous_loop p n i nums = Some true
  ↔ ∀ j a b, (i ≤ S j < i + n)%nat →
      nums !! j = Some a → nums !! S j = Some b → b = ulong p (a + 1).
Proof.
  revert i. induction n as [|n IH]; intros i Hi Hlen.
  - split; [|done]. intros _ j a b Hj. lia.
  - cbn [pfns_contiguous_loop].
    destruct (lookup_lt_is_Some_2 nums (i - 1)) as [a Ha]; [lia|].
    destruct (lookup_lt_is_Some_2 nums i) as [b Hb]; [lia|].
    rewrite Ha, Hb. cbn [mbind option_bind]. case_bool_decide as Hne.
    + split; [done|]. intros Hall. exfalso. apply Hne. symmetry.
      apply (Hall (i - 1)%nat a b); [lia|done|].
      by replace (S (i - 1)) with i by lia.
    + rewrite IH by lia. split.
      * intros Hall j a' b' Hj Ha' Hb'.
        destruct (decide (S j = i)) as [<-|Hji].
        -- replace (S j - 1)%nat with j in Ha by lia.
           assert (ulong p (a + 1) = b) by (destruct (decide (ulong p (a + 1) = b)); tauto).
           congruence.
        -- apply (Hall j); [lia|done..].
      * intros Hall j a' b' Hj. apply Hall. lia.
Qed.

Lemma pfns_contiguous_loop_consecutive nums :
  nums ≠ [] →
  pfns_contiguous_loop p (length nums - 1) 1 nums = Some true
  ↔ consecutive_pfns p nums.
Proof.
  intros Hne. assert (0 < length nums)%nat by (destruct nums; [done|simpl; lia]).
  rewrite pfns_contiguous_loop_true by lia. unfold consecutive_pfns.
  split; intros Hall i a b.
  - intros Ha Hb. apply (Hall i); [|done..].
    apply lookup_lt_Some in Hb. lia.
  - intros _. apply Hall.
Qed.

(** The store after a failing exit: the descriptor is gone again. *)
Ltac kstore_restored Hfresh :=
  cbn [bufs]; rewrite ?insert_insert_eq; apply delete_insert_id; exact Hfresh.

(** Past the argument checks, [vb2_dc_get_userptr] leaves through one of
    its nine exits, with that exit's log, result and store; which exit is
    settled by what the kernel answers. *)
Lemma vb2_dc_get_userptr_exits conf vaddr size dma_dir s :
  kernel_pins_well k → kernel_maps_well k →
  IS_ALIGNED p (Z.lor vaddr size) (dma_get_cache_alignment p) = true →
  size ≠ 0 →
  ∃ x r s',
    vb2_dc_get_userptr p k conf vaddr size dma_dir s = Some (r, s')
    ∧ attachs s' = attachs s
    ∧ klog s' = klog s ++ exit_log vaddr size dma_dir x
    ∧ unwind (exit_log vaddr size dma_dir x) [] = Some (exit_holds x)
    ∧ match x with
      | Exit_pfn_direct ret =>
        ∃ l fv n0,
          pinned_as k vaddr size dma_dir (klog s) fv ret ∧ ret < 0
          ∧ r = Ptr l ∧ bufs s !! l = None
          ∧ consecutive_pfns p (frames fv) ∧ head (frames fv) = Some n0
          ∧ bufs s' =
              <[l := userptr_buf conf size dma_dir fv
                       (vb2_dc_pfn_to_dma p (conf_dev conf) n0) None]> (bufs s)
      | Exit_mapped ret mapped =>
        ∃ l fv t c s0,
          table_mapped p k conf vaddr size dma_dir (klog s) fv ret mapped t
          ∧ uint mapped ≠ 0
          ∧ c = ulong p (contiguous_run_length p (mapped_segments t))
          ∧ r = Ptr l ∧ bufs s !! l = None
          ∧ head (sgl t) = Some s0
          ∧ vb2_dc_get_contiguous_size p t = Some c ∧ size ≤ c
          ∧ bufs s' =
              <[l := userptr_buf conf size dma_dir fv (sg_dma_address s0)
                       (Some t)]> (bufs s)
      | Exit_not_contiguous ret mapped =>
        r = ERR_PTR (- EFAULT) ∧ bufs s' = bufs s
        ∧ ∃ fv t c,
            table_mapped p k conf vaddr size dma_dir (klog s) fv ret mapped t
            ∧ uint mapped ≠ 0
            ∧ c = ulong p (contiguous_run_length p (mapped_segments t))
            ∧ vb2_dc_get_contiguous_size p t = Some c ∧ c < size
      | _ =>
        r = ERR_PTR (exit_errno x) ∧ bufs s' = bufs s
        ∧ early_failure p k conf vaddr size dma_dir (klog s) x
      end.
Proof.
  intros Hpins Hmaps Hal Hsz. unfold vb2_dc_get_userptr. rewrite Hal.
  cbn [negb]. rewrite (bool_decide_eq_false_2 (size = 0)) by done.
  rewrite bind_run. unfold kzalloc_buf.
  pose proof (fresh_buf_unused s) as Hfresh.
  set (l := fresh (dom (bufs s))) in *.
  destruct (k_kzalloc k (klog s) Kobj_buf) eqn:Hkbuf; cbn beta iota.
  2:{ krun. eexists Exit_no_buf, _, _. by repeat split. }
  krun.
  destruct (k_vb2_create_framevec k _ vaddr size _) as [fv|e] eqn:Hfv.
  2:{ unfold fail_buf. krun. eexists (Exit_no_framevec e), _, _.
      split; [reflexivity|]. split; [done|]. split; [done|]. split; [done|].
      split; [done|]. split; [kstore_restored Hfresh|]. by split. }
  destruct (Hpins _ _ _ _ _ Hfv) as [Hnr Hlen].
  assert (Hne : frames fv ≠ []).
  { intros Heq. rewrite Heq in Hlen. simpl in Hlen. lia. }
  krun. unfold frame_vector_count, frame_vector_pfns, frame_vector_pages.
  rewrite (int_small (nr_frames fv)) by (unfold is_int, INT_MIN, INT_MAX in *; lia).
  match goal with |- context [Frame_vector_to_pages ?r] => set (ret := r) end.
  assert (Hpinned : pinned_as k vaddr size dma_dir (klog s) fv ret)
    by (split; [done|]; split; done).
  set (write := bool_decide (dma_dir = DMA_FROM_DEVICE)) in *.
  assert (Hfuel : Z.to_nat (nr_frames fv - 1) = (length (frames fv) - 1)%nat) by lia.
  rewrite Hfuel.
  destruct (decide (ret < 0)) as [Hret|Hret].
  { rewrite (bool_decide_eq_true_2 (ret < 0)) by done.
    destruct (pfns_contiguous_loop_total (length (frames fv) - 1) 1 (frames fv))
      as [c Hc]; [lia | lia |].
    rewrite bind_run, Hc, lift_run. cbn beta iota.
    destruct c; cbn [negb].
    - apply pfns_contiguous_loop_consecutive in Hc; [|done].
      destruct (frames fv) as [|n0 nums] eqn:Hframes; [done|].
      change ((n0 :: nums) !! 0%nat) with (Some n0). krun.
      eexists (Exit_pfn_direct ret), _, _. split; [reflexivity|].
      split; [done|]. split; [done|]. split; [done|].
      exists l, fv, n0. rewrite Hframes. repeat split; try done.
      cbn [bufs]. by rewrite !insert_insert_eq.
    - unfold fail_pfnvec, fail_buf. krun.
      eexists (Exit_pfn_gap ret), _, _. split; [reflexivity|].
      split; [done|]. split; [done|]. split; [done|]. split; [done|].
      split; [kstore_restored Hfresh|]. exists fv.
      split; [done|]. split; [done|].
      rewrite <- pfns_contiguous_loop_consecutive by done. by rewrite Hc. }
  rewrite (bool_decide_eq_false_2 (ret < 0)) by done.
  unfold kzalloc_sgt. krun.
  destruct (k_kzalloc k _ Kobj_sgt) eqn:Hksgt; krun.
  2:{ unfold fail_pfnvec, fail_buf. krun.
      eexists (Exit_no_sgt ret), _, _. split; [reflexivity|].
      split; [done|]. split; [done|]. split; [done|]. split; [done|].
      split; [kstore_restored Hfresh|]. exists fv.
      split; [done|]. split; [lia|done]. }
  destruct (k_sg_alloc_table_from_pages k _ (frames fv) (nr_frames fv) _ size)
    as [tret sgt] eqn:Htable.
  assert (Hbuilt : table_built p k vaddr size dma_dir (klog s) fv ret (int tret) sgt).
  { split; [done|]. split; [lia|]. split; [done|]. exists tret. split; [|done].
    unfold frame_vector_count, frame_vector_pages.
    rewrite (int_small (nr_frames fv)) by (unfold is_int, INT_MIN, INT_MAX in *; lia).
    exact Htable. }
  krun. destruct (decide (int tret = 0)) as [Htret|Htret].
  2:{ rewrite (bool_decide_eq_true_2 (int tret ≠ 0)) by done.
      unfold fail_sgt, fail_pfnvec, fail_buf. krun.
      eexists (Exit_no_table ret (int tret)), _, _. split; [reflexivity|].
      split; [done|]. split; [done|]. split.
      { cbn [exit_log app unwind acquired released].
        by rewrite (bool_decide_eq_false_2 (int tret = 0)). }
      split; [done|]. split; [kstore_restored Hfresh|].
      by exists fv, sgt. }
  rewrite (bool_decide_eq_false_2 (int tret ≠ 0)) by tauto. rewrite Htret in *.
  krun.
  destruct (k_dma_map_sg k _ (conf_dev conf) (sgl sgt) (orig_nents sgt) dma_dir)
    as [mapped sgl'] eqn:Hmap.
  krun. cbn [nents].
  set (t := SgTable sgl' (uint mapped) (orig_nents sgt)) in *.
  assert (Hmapped : table_mapped p k conf vaddr size dma_dir (klog s) fv ret mapped t)
    by (exists sgt, sgl'; split; [done|]; split; done).
  assert (Huint : 0 ≤ uint mapped).
  { unfold uint, wrap. apply Z.mod_pos_bound. lia. }
  destruct (decide (uint mapped = 0)) as [Hzero|Hnz].
  { rewrite (bool_decide_eq_true_2 (uint mapped ≤ 0)) by lia.
    unfold fail_sgt_init, fail_sgt, fail_pfnvec, fail_buf. krun.
    eexists (Exit_not_mapped ret mapped), _, _. split; [reflexivity|].
    split; [done|]. split; [done|]. split.
    { cbn [exit_log app unwind acquired released].
      by rewrite (bool_decide_eq_true_2 (uint mapped = 0)). }
    split; [done|]. split; [kstore_restored Hfresh|]. by exists fv, t. }
  rewrite (bool_decide_eq_false_2 (uint mapped ≤ 0)) by lia.
  pose proof (Hmaps _ _ _ _ _ _ _ Hmap Hnz) as Hwf.
  pose proof (vb2_dc_get_contiguous_size_spec p t Hwf) as Hc.
  set (c := ulong p (contiguous_run_length p (mapped_segments t))) in *.
  rewrite bind_run, Hc, lift_run. cbn beta iota.
  destruct (decide (c < size)) as [Hshort|Hlong].
  { rewrite (bool_decide_eq_true_2 (c < size)) by done.
    unfold fail_map_sg, fail_sgt_init, fail_sgt, fail_pfnvec, fail_buf. krun.
    eexists (Exit_not_contiguous ret mapped), _, _. split; [reflexivity|].
    split; [done|]. split; [done|]. split.
    { cbn [exit_log app unwind acquired released].
      by rewrite (bool_decide_eq_false_2 (uint mapped = 0)). }
    split; [done|]. split; [kstore_restored Hfresh|]. by exists fv, t, c. }
  rewrite (bool_decide_eq_false_2 (c < size)) by done.
  destruct Hwf as [Hsgl _]. cbn [sgl t] in Hsgl |- *.
  destruct sgl' as [|s0 rest]; [done|]. krun.
  eexists (Exit_mapped ret mapped), _, _. split; [reflexivity|].
  split; [done|]. split; [done|]. split.
  { cbn [exit_log app unwind acquired released].
    by rewrite (bool_decide_eq_false_2 (uint mapped = 0)). }
  exists l, fv, t, c, s0.
  split; [done|]. split; [done|]. split; [done|].
  repeat split; try done; try lia.
  cbn [bufs]. by rewrite !insert_insert_eq.
Qed.

(** C3, as amended: a pin request that passes the argument checks ends in
    one of four ways, and which one is settled by what the kernel answers
    to the calls of the pin.  (1) The range is pinned, its frames have no
    page structures and their numbers go up by one: a buffer with one
    synthesized device address and no table.  (2) The pages resolve, a
    table is built and [dma_map_sg] maps it, and the contiguous size of
    the mapped table is at least [size]: a buffer that carries that table
    and the address of its first segment.  (3) The contiguous size of the
    mapped table is below [size]: -EFAULT, after the table is unmapped and
    freed, the pages unpinned and the descriptor freed.  (4) An earlier
    step fails (no memory for the descriptor or the table, the range not
    pinned, no pages and a gap in the frames, the table not built,
    nothing mapped): that step's error.  Every failure gives back what
    was acquired, the last acquired first, and leaves the store as it
    was; a returned buffer holds exactly what it was built from. *)
Theorem get_userptr_outcomes conf vaddr size dma_dir s :
  kernel_pins_well k → kernel_maps_well k →
  IS_ALIGNED p (Z.lor vaddr size) (dma_get_cache_alignment p) = true →
  size ≠ 0 →
  ∃ r s' new,
    vb2_dc_get_userptr p k conf vaddr size dma_dir s = Some (r, s')
    ∧ attachs s' = attachs s
    ∧ klog s' = klog s ++ new
    ∧ ((∃ l fv ret n0,
          pinned_as k vaddr size dma_dir (klog s) fv ret ∧ ret < 0
          ∧ new = exit_log vaddr size dma_dir (Exit_pfn_direct ret)
          ∧ r = Ptr l ∧ bufs s !! l = None
          ∧ consecutive_pfns p (frames fv) ∧ head (frames fv) = Some n0
          ∧ bufs s' =
              <[l := userptr_buf conf size dma_dir fv
                       (vb2_dc_pfn_to_dma p (conf_dev conf) n0) None]> (bufs s)
          ∧ unwind new [] = Some [R_framevec; R_buf])
       ∨ (∃ l fv ret mapped t c s0,
            table_mapped p k conf vaddr size dma_dir (klog s) fv ret mapped t
            ∧ uint mapped ≠ 0
            ∧ c = ulong p (contiguous_run_length p (mapped_segments t))
            ∧ new = exit_log vaddr size dma_dir (Exit_mapped ret mapped)
            ∧ r = Ptr l ∧ bufs s !! l = None
            ∧ head (sgl t) = Some s0
            ∧ vb2_dc_get_contiguous_size p t = Some c ∧ size ≤ c
            ∧ bufs s' =
                <[l := userptr_buf conf size dma_dir fv (sg_dma_address s0)
                         (Some t)]> (bufs s)
            ∧ unwind new []
              = Some [R_dma_mapping; R_sg_entries; R_sgt; R_framevec; R_buf])
       ∨ (r = ERR_PTR (- EFAULT) ∧ bufs s' = bufs s
          ∧ (∃ fv ret mapped t c,
               table_mapped p k conf vaddr size dma_dir (klog s) fv ret mapped t
               ∧ uint mapped ≠ 0
               ∧ c = ulong p (contiguous_run_length p (mapped_segments t))
               ∧ new = exit_log vaddr size dma_dir (Exit_not_contiguous ret mapped)
               ∧ vb2_dc_get_contiguous_size p t = Some c ∧ c < size)
          ∧ (∃ before,
               new = before ++
                     [Pr_err "contiguous mapping is too small %lu/%lu";
                      Dma_unmap_sg dma_dir; Sg_free_table; Kfree Kobj_sgt;
                      Vb2_destroy_framevec; Kfree Kobj_buf])
          ∧ unwind new [] = Some [])
       ∨ (∃ x, r = ERR_PTR (exit_errno x) ∧ bufs s' = bufs s
            ∧ new = exit_log vaddr size dma_dir x
            ∧ early_failure p k conf vaddr size dma_dir (klog s) x
            ∧ unwind new [] = Some [])).
Proof.
  intros Hpins Hmaps Hal Hsz.
  destruct (vb2_dc_get_userptr_exits conf vaddr size dma_dir s Hpins Hmaps Hal Hsz)
    as (x & r & s' & Hrun & Hatt & Hlog & Hunwind & Hx).
  exists r, s', (exit_log vaddr size dma_dir x).
  split; [done|]. split; [done|]. split; [done|].
  destruct x as [|e|ret|ret|ret|ret tret|ret mapped|ret mapped|ret mapped];
    cbn [exit_holds] in Hunwind.
  - right; right; right. exists Exit_no_buf. by destruct Hx as (? & ? & ?).
  - right; right; right. exists (Exit_no_framevec e). by destruct Hx as (? & ? & ?).
  - left. destruct Hx as (l & fv & n0 & ? & ? & ? & ? & ? & ? & ?).
    by exists l, fv, ret, n0.
  - right; right; right. exists (Exit_pfn_gap ret).
    by destruct Hx as (? & ? & ?).
  - right; right; right. exists (Exit_no_sgt ret). by destruct Hx as (? & ? & ?).
  - right; right; right. exists (Exit_no_table ret tret).
    by destruct Hx as (? & ? & ?).
  - right; right; right. exists (Exit_not_mapped ret mapped).
    by destruct Hx as (? & ? & ?).
  - right; right; left. destruct Hx as (? & ? & fv & t & c & ? & ? & ? & ? & ?).
    split; [done|]. split; [done|]. split; [by exists fv, ret, mapped, t, c|].
    split; [|done]. eexists. cbn [exit_log]. rewrite <- app_assoc.
    f_equal.
    change [Kmalloc Kobj_sgt true; Sg_alloc_table_from_pages 0;
            Dma_map_sg dma_dir mapped;
            Pr_err "contiguous mapping is too small %lu/%lu";
            Dma_unmap_sg dma_dir; Sg_free_table; Kfree Kobj_sgt;
            Vb2_destroy_framevec; Kfree Kobj_buf]
      with ([Kmalloc Kobj_sgt true; Sg_alloc_table_from_pages 0;
             Dma_map_sg dma_dir mapped] ++
            [Pr_err "contiguous mapping is too small %lu/%lu";
             Dma_unmap_sg dma_dir; Sg_free_table; Kfree Kobj_sgt;
             Vb2_destroy_framevec; Kfree Kobj_buf]).
    reflexivity.
  - right; left.
    destruct Hx as (l & fv & t & c & s0 & ? & ? & ? & ? & ? & ? & ? & ? & ?).
    by exists l, fv, ret, mapped, t, c, s0.
Qed.

End Userptr.

(** ** The code at concrete inputs *)

Lemma k_ok_pins_well : kernel_pins_well k_ok.
Proof.
  intros h start len write fv [= <-]. split; [vm_compute|reflexivity].
  split; discriminate.
Qed.

Lemma k_ok_maps_well : kernel_maps_well k_ok.
Proof.
  intros h d l n dir mapped sgl' [= <- <-] Hnz.
  assert (Hle : uint (Z.of_nat (length l)) ≤ Z.of_nat (length l)).
  { unfold uint, wrap. apply Z.mod_le; lia. }
  assert (H0 : 0 ≤ uint (Z.of_nat (length l))).
  { unfold uint, wrap. apply Z.mod_pos_bound. lia. }
  split; cbn [sgl nents].
  - destruct l; [done|discriminate].
  - rewrite length_fmap. lia.
Qed.

(** The exits of [vb2_dc_get_userptr] that the kernels above lead to. *)
Example get_userptr_mapped_example :
  vb2_dc_get_userptr p64 k_ok conf0 4096 8192 DMA_TO_DEVICE s_empty
  = Some (Ptr 1%positive,
          KState (<[1%positive := userptr_buf conf0 8192 DMA_TO_DEVICE fv0
                                     1048576 (Some sgt0)]> ∅) ∅
            (exit_log 4096 8192 DMA_TO_DEVICE (Exit_mapped 0 1))).
Proof. vm_compute. reflexivity. Qed.

Example get_userptr_direct_example :
  vb2_dc_get_userptr p64 k_pfn_direct conf0 4096 8192 DMA_TO_DEVICE s_empty
  = Some (Ptr 1%positive,
          KState (<[1%positive := userptr_buf conf0 8192 DMA_TO_DEVICE fv0
                                     1048576 None]> ∅) ∅
            (exit_log 4096 8192 DMA_TO_DEVICE (Exit_pfn_direct (- EINVAL)))).
Proof. vm_compute. reflexivity. Qed.

Example get_userptr_scattered_example :
  vb2_dc_get_userptr p64 k_scattered conf0 4096 8192 DMA_TO_DEVICE s_empty
  = Some (ERR_PTR (- EFAULT),
          KState ∅ ∅ (exit_log 4096 8192 DMA_TO_DEVICE (Exit_not_contiguous 0 2))).
Proof. vm_compute. reflexivity. Qed.

Example get_userptr_no_memory_example :
  vb2_dc_get_userptr p64 k_no_memory conf0 4096 8192 DMA_TO_DEVICE s_empty
  = Some (ERR_PTR (- ENOMEM), KState ∅ ∅ [Kmalloc Kobj_buf false]).
Proof. vm_compute. reflexivity. Qed.

(** A map for the device to read, then one for the device to write: the
    second unmaps the first before it asks for its own translation. *)
Example dmabuf_ops_map_redirect_example :
  klog (state_after (vb2_dc_dmabuf_ops_map k_ok dba_exporter DMA_FROM_DEVICE)
          (state_after (vb2_dc_dmabuf_ops_map k_ok dba_exporter DMA_TO_DEVICE)
             s_exporter))
  = [Mutex_lock; Dma_map_sg DMA_TO_DEVICE 1; Mutex_unlock;
     Mutex_lock; Dma_unmap_sg DMA_TO_DEVICE; Dma_map_sg DMA_FROM_DEVICE 1;
     Mutex_unlock].
Proof. vm_compute. reflexivity. Qed.

(** The last [put] of a driver-allocated buffer frees it. *)
Example put_last_example :
  vb2_dc_put 1%positive s_alloc
  = Some (tt, KState ∅ ∅
                [Kmalloc Kobj_buf true; Dma_alloc_coherent 4096 true;
                 Get_device 1%positive;
                 Dma_free_coherent; Put_device; Kfree Kobj_buf]).
Proof. vm_compute. reflexivity. Qed.

Lemma map_dmabuf_already_mapped_witness :
  vb2_dc_map_dmabuf p64 k_ok 1%positive s_mapped
  = Some (0, KState (bufs s_mapped) (attachs s_mapped)
               (klog s_mapped ++ [Warn_on; Pr_err "dmabuf buffer is already pinned"])).
Proof.
  eapply (map_dmabuf_already_mapped p64 k_ok 1%positive s_mapped);
    vm_compute; reflexivity.
Defined.

(** A second [map_dmabuf] of a mapped buffer returns 0, as the first one
    did: the caller is given no error. *)
Lemma map_dmabuf_twice_returns_zero :
  (∃ b t, bufs s_mapped !! 1%positive = Some b
          ∧ db_attach b = Some dba0 ∧ dma_sgt b = Some t)
  ∧ result_of (vb2_dc_map_dmabuf p64 k_ok 1%positive) s_attached = Some 0
  ∧ result_of (vb2_dc_map_dmabuf p64 k_ok 1%positive) s_mapped = Some 0.
Proof.
  split; [eexists _, _; vm_compute; repeat split|].
  split; vm_compute; reflexivity.
Qed.


(** A pin whose mapped table is contiguous for exactly the requested
    8192 bytes: of the four outcomes only the second is open, and the
    buffer carries the table that [dma_map_sg] left. *)
Lemma get_userptr_outcomes_witness :
  ∃ l s' t,
    vb2_dc_get_userptr p64 k_ok conf0 4096 8192 DMA_TO_DEVICE s_empty
    = Some (Ptr l, s')
    ∧ table_mapped p64 k_ok conf0 4096 8192 DMA_TO_DEVICE (klog s_empty) fv0 0 1 t
    ∧ vb2_dc_get_contiguous_size p64 t = Some 8192
    ∧ ∃ b, bufs s' !! l = Some b ∧ dma_sgt b = Some t ∧ size b = 8192.
Proof.
  destruct (get_userptr_outcomes p64 k_ok conf0 4096 8192 DMA_TO_DEVICE s_empty)
    as (r & s' & new & Hrun & _ & _ & Hcases);
    [exact k_ok_pins_well | exact k_ok_maps_well | vm_compute; reflexivity
    | lia |].
  destruct Hcases as [H1 | [H2 | [H3 | H4]]].
  - destruct H1 as (l & fv & ret & n0 & (_ & _ & ->) & Hneg & _).
    vm_compute in Hneg. discriminate Hneg.
  - destruct H2 as (l & fv & ret & mapped & t & c & s0 & Hmapped & _ & Hc & _
                      & -> & _ & _ & Hsize & _ & Hbufs & _).
    pose proof Hmapped as (sgt & sgl' & ((_ & Hfv & Hret) & _ & _ & tret0 & Htab & _)
                             & Hmap & Ht).
    injection Hfv as <-. vm_compute in Hret. subst ret.
    vm_compute in Htab. injection Htab as <- <-.
    vm_compute in Hmap. injection Hmap as <- <-.
    subst t. vm_compute in Hc. subst c.
    eexists l, s', _. split; [exact Hrun|]. split; [exact Hmapped|].
    split; [exact Hsize|].
    rewrite Hbufs. eexists. split; [apply lookup_insert_eq|]. split; reflexivity.
  - destruct H3 as (_ & _ & (fv & ret & mapped & t & c & Hmapped & _ & Hc & _ & _ & Hlt)
                      & _).
    destruct Hmapped as (sgt & sgl' & ((_ & Hfv & Hret) & _ & _ & tret0 & Htab & _)
                           & Hmap & Ht).
    injection Hfv as <-. vm_compute in Htab. injection Htab as <- <-.
    vm_compute in Hmap. injection Hmap as <- <-.
    subst t. vm_compute in Hc. subst c. vm_compute in Hlt. discriminate Hlt.
  - destruct H4 as (x & _ & _ & _ & Hearly & _).
    destruct x as [|e|ret|ret|ret|ret tret|ret mapped|ret mapped|ret mapped];
      cbn [early_failure] in Hearly; try (exfalso; exact Hearly).
    + discriminate Hearly.
    + destruct Hearly as (_ & Hfv). discriminate Hfv.
    + destruct Hearly as (fv & (_ & _ & ->) & Hneg & _).
      vm_compute in Hneg. discriminate Hneg.
    + destruct Hearly as (fv & _ & _ & Hsgt). discriminate Hsgt.
    + destruct Hearly as (fv & sgt & (_ & _ & _ & tret0 & Htab & ->) & Hnz).
      vm_compute in Htab. injection Htab as <- <-. exfalso. apply Hnz. reflexivity.
    + destruct Hearly as (fv & t & (sgt & sgl' & ((_ & Hfv & _) & _ & _ & tret0 & Htab & _)
                                     & Hmap & _) & Hzero).
      injection Hfv as <-. vm_compute in Htab. injection Htab as <- <-.
      vm_compute in Hmap. injection Hmap as <- <-.
      vm_compute in Hzero. discriminate Hzero.
Defined.

(** An aligned pin of 8192 bytes whose frames, 256 and 300, have no page
    structures and lie apart: the call fails with the error of the page
    resolution, -EINVAL; it returns no buffer and not -EFAULT. *)
Lemma get_userptr_gap_counterexample :
  IS_ALIGNED p64 (Z.lor 4096 8192) (dma_get_cache_alignment p64) = true
  ∧ vb2_dc_get_userptr p64 k_pfn_gap conf0 4096 8192 DMA_TO_DEVICE s_empty
    = Some (ERR_PTR (- EINVAL),
            KState ∅ ∅
              [Kmalloc Kobj_buf true; Vb2_create_framevec 4096 8192 false true;
               Frame_vector_to_pages (- EINVAL);
               Vb2_destroy_framevec; Kfree Kobj_buf])
  ∧ - EINVAL ≠ - EFAULT.
Proof. split; [|split]; vm_compute; [reflexivity| reflexivity | discriminate]. Qed.

Lemma contiguous_size_scans_first_run_witness :
  wf_table table3
  ∧ vb2_dc_get_contiguous_size p32 table3
    = Some (ulong p32 (contiguous_run_length p32 (mapped_segments table3))).
Proof.
  assert (H : wf_table table3) by (split; [discriminate | simpl; lia]).
  split; [exact H|].
  exact (proj1 contiguous_size_scans_first_run p32 table3 H).
Defined.

Lemma contiguous_size_counts_first_segment_witness :
  ∃ s0 c, head (sgl table3) = Some s0
    ∧ vb2_dc_get_contiguous_size p32 table3 = Some c
    ∧ sg_dma_len s0 ≤ c ∧ (sg_dma_len s0 ≠ 0 → c ≠ 0).
Proof.
  apply (contiguous_size_counts_first_segment p32 table3).
  - split; [discriminate | simpl; lia].
  - simpl; lia.
  - repeat constructor; simpl; lia.
  - vm_compute; reflexivity.
Defined.

(** A first segment of length 0 makes the result 0; and with a 32-bit
    [unsigned long] two touching segments of 2^31 bytes add up to 0. *)
Lemma contiguous_size_zero_counterexample :
  vb2_dc_get_contiguous_size p64 (mapped_table [seg 4096 0; seg 8192 16]) = Some 0
  ∧ vb2_dc_get_contiguous_size p32
      (mapped_table [seg 268435456 2147483648; seg 2415919104 2147483648])
    = Some 0.
Proof. split; vm_compute; reflexivity. Qed.

Lemma dmabuf_ops_map_direction_cache_witness :
  ∃ s',
    vb2_dc_dmabuf_ops_map k_ok dba_exporter DMA_FROM_DEVICE s_exporter_mapped
    = Some (Ptr (SgTable [Scatterlist 256 0 4096 1048576 4096] 1 1), s')
    ∧ klog s' = klog s_exporter_mapped
                ++ [Mutex_lock; Dma_unmap_sg DMA_TO_DEVICE;
                    Dma_map_sg DMA_FROM_DEVICE 1; Mutex_unlock]
    ∧ attachs s'
      = <[7%positive :=
            Vb2DcAttachment (SgTable [Scatterlist 256 0 4096 1048576 4096] 1 1)
              DMA_FROM_DEVICE]> (attachs s_exporter_mapped)
    ∧ vb2_dc_dmabuf_ops_map k_ok dba_exporter DMA_FROM_DEVICE s'
      = Some (Ptr (SgTable [Scatterlist 256 0 4096 1048576 4096] 1 1),
              KState (bufs s') (attachs s')
                (klog s' ++ [Mutex_lock; Mutex_unlock])).
Proof.
  destruct (dmabuf_ops_map_direction_cache k_ok dba_exporter 7%positive att_mapped
              DMA_FROM_DEVICE s_exporter_mapped)
    as (r & s' & Hrun & _ & _ & Hfresh & Hagain);
    [reflexivity | vm_compute; reflexivity |].
  destruct Hfresh as (ret & sgl' & [t' d'] & Hk & Hsgt & Hlog & Hatt & _ & Hres);
    [discriminate|].
  injection Hk as <- <-. cbn [att_sgt att_dma_dir] in Hsgt, Hres.
  destruct Hres as [-> ->]. subst t'.
  exists s'. split; [exact Hrun|]. split; [exact Hlog|]. split; [exact Hatt|].
  exact (Hagain _ eq_refl).
Defined.

Lemma export_release_refcount_witness :
  ∃ d s1 s2,
    vb2_dc_get_dmabuf k_ok 1%positive 0 s_alloc = Some (Some d, s1)
    ∧ refcount_at s_alloc 1%positive = Some 1
    ∧ refcount_at s1 1%positive = Some 2
    ∧ vb2_dc_dmabuf_ops_release d s1 = Some (tt, s2)
    ∧ refcount_at s2 1%positive = Some 1
    ∧ ∃ s', run_bridge k_ok 1%positive (export_release_rounds 3) [] s_alloc
            = Some ([], s')
        ∧ refcount_at s' 1%positive = Some 1.
Proof.
  edestruct (export_release_refcount k_ok 1%positive s_alloc)
    as (Hexport & _ & Hrounds).
  - vm_compute; reflexivity.
  - simpl; lia.
  - vm_compute; reflexivity.
  - destruct (Hexport 0) as (res & s1 & Hrun & Hhandle & _ & Hcount).
    destruct (proj2 Hhandle) as [d ->].
    { eexists _, _, tt. split; [|reflexivity].
      right. split; [reflexivity|]. split; [reflexivity|].
      eexists. split; [reflexivity|]. split; [vm_compute; discriminate|].
      reflexivity. }
    destruct (Hcount d eq_refl) as (Hup & s2 & Hrelease & Hdown).
    exists d, s1, s2. split; [exact Hrun|]. split; [reflexivity|].
    split; [exact Hup|]. split; [exact Hrelease|]. split; [exact Hdown|].
    exact (Hrounds 3%nat).
Defined.

Lemma get_userptr_rejects_unaligned_witness :
  ∃ msg,
    vb2_dc_get_userptr p32 k_ok conf0 3 16 DMA_TO_DEVICE s_empty
    = Some (ERR_PTR (- EINVAL), KState ∅ ∅ [Pr_debug msg]).
Proof.
  apply (get_userptr_rejects_unaligned p32 k_ok conf0 3 16 DMA_TO_DEVICE s_empty 3).
  - reflexivity.
  - simpl; lia.
  - left. vm_compute. discriminate.
Defined.



Lemma map_dmabuf_failure_keeps_buffer_witness :
  ∃ r s', vb2_dc_map_dmabuf p64 k_short_export 1%positive s_attached = Some (r, s')
    ∧ (r = 0 ∨ r = - EINVAL ∨ r = - EFAULT)
    ∧ (r ≠ 0 → bufs s' = bufs s_attached ∧ attachs s' = attachs s_attached
               ∧ bufs s' !! 1%positive = Some buf_attached).
Proof.
  destruct (map_dmabuf_failure_keeps_buffer p64 k_short_export 1%positive
              s_attached buf_attached dba0)
    as (r & s' & Hrun & Hr & _ & _ & Hkeep).
  - vm_compute; reflexivity.
  - reflexivity.
  - reflexivity.
  - intros h d t [= <-]. split; [discriminate | simpl; lia].
  - exists r, s'. split; [exact Hrun|]. split; [exact Hr | exact Hkeep].
Defined.

(** * More of the allocator *)

(** ** The segment scan and the device range of a buffer *)

Section Coverage.
Context (p : platform).

(** Every offset below the run lies in a segment of the run, at the
    address that far from the start. *)
Lemma run_length_from_covers ss :
  Forall (λ s, 0 ≤ dma_length s) ss →
  ∀ expected o,
    0 ≤ o < run_length_from p expected ss →
    ∃ j s off,
      ss !! j = Some s ∧ 0 ≤ off < dma_length s
      ∧ dma_addr_t p (dma_address s + off) = dma_addr_t p (expected + o).
Proof.
  induction 1 as [|s rest Hs Hrest IH]; intros expected o Ho; simpl in Ho; [lia|].
  case_bool_decide as Heq; [|lia].
  destruct (decide (o < dma_length s)) as [Hin|Hout].
  - exists 0%nat, s, o. rewrite Heq. repeat split; [lia..|done].
  - destruct (IH (dma_addr_t p (dma_address s + dma_length s)) (o - dma_length s))
      as (j & s' & off & Hj & Hoff & Haddr); [lia|].
    exists (S j), s', off. split; [done|]. split; [done|].
    rewrite Haddr, dma_addr_t_idemp_add_l, <- Heq. f_equal. lia.
Qed.

Lemma uint_lengths_nonneg ss :
  uint_lengths ss → Forall (λ s, 0 ≤ dma_length s) ss.
Proof. intros Hu. eapply Forall_impl; [exact Hu|]. intros s Hs. apply Hs. Qed.

Lemma run_length_nonneg ss :
  uint_lengths ss → 0 ≤ contiguous_run_length p ss ≤ total_length ss.
Proof.
  intros Hu. destruct ss as [|s rest]; [simpl; lia|].
  apply run_length_from_bounds. by apply uint_lengths_nonneg.
Qed.

Lemma ulong_le x : 0 ≤ x → 0 ≤ ulong p x ≤ x.
Proof.
  intros Hx. unfold ulong, wrap.
  pose proof (pow2_bits_pos (BITS_PER_LONG p)).
  split; [apply Z.mod_pos_bound; lia | apply Z.mod_le; lia].
Qed.

Lemma vb2_dc_get_contiguous_size_covers t s0 c :
  wf_table t → uint_lengths (mapped_segments t) →
  head (sgl t) = Some s0 →
  vb2_dc_get_contiguous_size p t = Some c →
  ∀ o, 0 ≤ o < c →
    ∃ j s off,
      mapped_segments t !! j = Some s ∧ 0 ≤ off < sg_dma_len s
      ∧ dma_addr_t p (sg_dma_address s + off)
        = dma_addr_t p (sg_dma_address s0 + o).
Proof.
  intros Hwf Hu Hhd Hc o Ho.
  rewrite (vb2_dc_get_contiguous_size_spec p t Hwf) in Hc.
  injection Hc as <-.
  pose proof (run_length_nonneg _ Hu) as Hrun.
  pose proof (ulong_le (contiguous_run_length p (mapped_segments t)) (proj1 Hrun)).
  unfold contiguous_run_length in *.
  destruct (mapped_segments t) as [|s1 rest] eqn:Hms;
    [exfalso; cbn iota in *; lia|].
  assert (s1 = s0) as ->.
  { unfold mapped_segments in Hms. destruct (sgl t) as [|s' ss]; [done|].
    injection Hhd as ->. destruct (Z.to_nat (nents t)); [done|].
    by injection Hms as -> _. }
  unfold sg_dma_address, sg_dma_len.
  apply run_length_from_covers; [by apply uint_lengths_nonneg|].
  cbn iota in *. lia.
Qed.

(** X1: the bytes that [vb2_dc_get_contiguous_size] counts are there: each
    offset below the result lies inside one of the mapped segments, at the
    device address that far from the address of the first segment. *)
Theorem contiguous_size_is_covered t s0 c :
  wf_table t → uint_lengths (mapped_segments t) →
  head (sgl t) = Some s0 →
  vb2_dc_get_contiguous_size p t = Some c →
  ∀ o, 0 ≤ o < c →
    ∃ j s off,
      mapped_segments t !! j = Some s ∧ 0 ≤ off < sg_dma_len s
      ∧ dma_addr_t p (sg_dma_address s + off)
        = dma_addr_t p (sg_dma_address s0 + o).
Proof. exact (vb2_dc_get_contiguous_size_covers t s0 c). Qed.

Lemma run_length_from_touching ss :
  ∀ expected, touching_from p expected ss →
    run_length_from p expected ss = total_length ss.
Proof.
  induction ss as [|s rest IH]; intros expected Ht; [done|].
  destruct Ht as [Heq Hrest]. simpl.
  rewrite bool_decide_eq_true_2 by done. by rewrite IH.
Qed.

(** X2: the contiguous size is never more than the mapped segments have
    bytes, and is all of them when the segments touch and the total fits
    an [unsigned long]. *)
Theorem contiguous_size_at_most_total t :
  wf_table t → uint_lengths (mapped_segments t) →
  ∃ c, vb2_dc_get_contiguous_size p t = Some c
    ∧ 0 ≤ c ≤ total_length (mapped_segments t)
    ∧ (touching p (mapped_segments t) →
       total_length (mapped_segments t) < 2 ^ bits (BITS_PER_LONG p) →
       c = total_length (mapped_segments t)).
Proof.
  intros Hwf Hu. rewrite (vb2_dc_get_contiguous_size_spec p t Hwf).
  eexists. split; [reflexivity|].
  pose proof (run_length_nonneg _ Hu) as Hrun.
  pose proof (ulong_le _ (proj1 Hrun)) as Hle.
  split; [lia|]. intros Ht Hfit.
  assert (Heq : contiguous_run_length p (mapped_segments t)
                = total_length (mapped_segments t)).
  { unfold contiguous_run_length, touching in *.
    destruct (mapped_segments t) as [|s rest]; [done|].
    by apply run_length_from_touching. }
  rewrite Heq. apply ulong_small. unfold is_ulong. lia.
Qed.

(** X3: entries of the list past the first [nents] play no part: the scan
    of a table is the scan of its mapped entries alone. *)
Theorem contiguous_size_ignores_unmapped t extra n :
  wf_table t →
  vb2_dc_get_contiguous_size p (SgTable (sgl t ++ extra) (nents t) n)
  = vb2_dc_get_contiguous_size p t.
Proof.
  intros Hwf. pose proof Hwf as [Hne Hn].
  assert (Hwf' : wf_table (SgTable (sgl t ++ extra) (nents t) n)).
  { split; cbn [sgl nents].
    - destruct (sgl t); [done|discriminate].
    - rewrite length_app. lia. }
  rewrite (vb2_dc_get_contiguous_size_spec p _ Hwf'),
          (vb2_dc_get_contiguous_size_spec p t Hwf).
  unfold mapped_segments. cbn [sgl nents].
  rewrite take_app_le by lia. reflexivity.
Qed.

End Coverage.

(** ** The importer: map, unmap, detach *)

Section ImportCycle.
Context (p : platform) (k : kernel).

(** The run of a [map_dmabuf] that finds the exporter's table large
    enough. *)
Lemma vb2_dc_map_dmabuf_ok_run l s b dba t s0 c :
  bufs s !! l = Some b → db_attach b = Some dba → dma_sgt b = None →
  k_dma_buf_map_attachment k (klog s) dba (dma_dir b) = Ptr t →
  head (sgl t) = Some s0 →
  vb2_dc_get_contiguous_size p t = Some c → size b ≤ c →
  vb2_dc_map_dmabuf p k l s
  = Some (0, KState
               (<[l := set_vaddr 0 (set_dma_sgt (Some t)
                         (set_dma_addr (sg_dma_address s0) b))]> (bufs s))
               (attachs s)
               (klog s ++ [Dma_buf_map_attachment (dma_dir b) true])).
Proof.
  intros Hl Ha Ht Hk Hhd Hc Hsz. unfold vb2_dc_map_dmabuf.
  krun. rewrite Ha, Ht. krun. rewrite Hk. krun. rewrite Hc. krun.
  rewrite (bool_decide_eq_false_2 (c < size b)) by lia.
  krun. rewrite Hhd. krun. by rewrite !insert_insert_eq.
Qed.

(** A [map_dmabuf] that returns 0 on an unmapped buffer went through the
    exporter's table. *)
Lemma vb2_dc_map_dmabuf_ok_inv l s b dba s1 :
  bufs s !! l = Some b → db_attach b = Some dba → dma_sgt b = None →
  vb2_dc_map_dmabuf p k l s = Some (0, s1) →
  ∃ t s0 c,
    k_dma_buf_map_attachment k (klog s) dba (dma_dir b) = Ptr t
    ∧ head (sgl t) = Some s0
    ∧ vb2_dc_get_contiguous_size p t = Some c ∧ size b ≤ c
    ∧ s1 = KState
             (<[l := set_vaddr 0 (set_dma_sgt (Some t)
                       (set_dma_addr (sg_dma_address s0) b))]> (bufs s))
             (attachs s)
             (klog s ++ [Dma_buf_map_attachment (dma_dir b) true]).
Proof.
  intros Hl Ha Ht. unfold vb2_dc_map_dmabuf.
  krun. rewrite Ha, Ht. krun.
  destruct (k_dma_buf_map_attachment k (klog s) dba (dma_dir b)) as [t|e] eqn:Hk;
    krun; [|unfold EINVAL; intros [= ?]; lia].
  destruct (vb2_dc_get_contiguous_size p t) as [c|] eqn:Hc; [|done].
  krun.
  case_bool_decide as Hsz; krun; [unfold EFAULT; intros [= ?]; lia|].
  destruct (head (sgl t)) as [s0|] eqn:Hhd; [|done].
  krun. intros [= <-].
  exists t, s0, c. split; [done|]. split; [done|]. split; [done|].
  split; [lia|]. by rewrite !insert_insert_eq.
Qed.

(** X4: after a [map_dmabuf] that returns 0 the buffer carries the
    exporter's table, the one [dma_buf_map_attachment] answered with, and
    the address of that table's first segment; it has no CPU mapping, its
    other fields are as before, and every byte of it is mapped: each
    offset below the buffer's size lies in a mapped segment of the table,
    at the device address that far from the buffer's. *)
Theorem map_dmabuf_success_covers_buffer l s b dba s1 :
  bufs s !! l = Some b → db_attach b = Some dba → dma_sgt b = None →
  (∀ h d t, k_dma_buf_map_attachment k h dba d = Ptr t →
            wf_table t ∧ uint_lengths (mapped_segments t)) →
  vb2_dc_map_dmabuf p k l s = Some (0, s1) →
  ∃ b1 t s0,
    k_dma_buf_map_attachment k (klog s) dba (dma_dir b) = Ptr t
    ∧ head (sgl t) = Some s0
    ∧ bufs s1 = <[l := b1]> (bufs s)
    ∧ b1 = set_vaddr 0 (set_dma_sgt (Some t) (set_dma_addr (sg_dma_address s0) b))
    ∧ dma_sgt b1 = Some t ∧ dma_addr b1 = sg_dma_address s0
    ∧ vaddr b1 = 0 ∧ size b1 = size b
    ∧ db_attach b1 = Some dba
    ∧ ∀ o, 0 ≤ o < size b1 →
        ∃ j sg off,
          mapped_segments t !! j = Some sg ∧ 0 ≤ off < sg_dma_len sg
          ∧ dma_addr_t p (sg_dma_address sg + off)
            = dma_addr_t p (dma_addr b1 + o).
Proof.
  intros Hl Ha Ht Hk Hrun.
  destruct (vb2_dc_map_dmabuf_ok_inv l s b dba s1 Hl Ha Ht Hrun)
    as (t & s0 & c & Hkt & Hhd & Hc & Hsz & ->).
  destruct (Hk _ _ _ Hkt) as [Hwf Hu].
  eexists _, t, s0. split; [exact Hkt|]. split; [exact Hhd|].
  split; [reflexivity|]. split; [reflexivity|].
  cbn [dma_sgt vaddr size db_attach dma_addr set_vaddr set_dma_sgt set_dma_addr].
  repeat split; [done|]. intros o Ho.
  apply (vb2_dc_get_contiguous_size_covers p t s0 c); [done..|lia].
Qed.

(** X5: [map_dmabuf] of a buffer that has no attachment is refused with
    -EINVAL, after a warning; nothing is asked of any exporter and the
    store is untouched. *)
Theorem map_dmabuf_not_attached l s b :
  bufs s !! l = Some b → db_attach b = None →
  vb2_dc_map_dmabuf p k l s
  = Some (- EINVAL,
          KState (bufs s) (attachs s)
            (klog s ++ [Warn_on; Pr_err "trying to pin a non attached buffer"])).
Proof.
  intros Hl Ha. unfold vb2_dc_map_dmabuf. krun. rewrite Ha. by krun.
Qed.

(** The run of an [unmap_dmabuf] of a mapped buffer. *)
Lemma vb2_dc_unmap_dmabuf_run l s b dba t :
  bufs s !! l = Some b → db_attach b = Some dba → dma_sgt b = Some t →
  vb2_dc_unmap_dmabuf l s
  = Some (tt, KState
                (<[l := set_dma_sgt None (set_dma_addr 0 (set_vaddr 0 b))]> (bufs s))
                (attachs s)
                (klog s ++ (if bool_decide (vaddr b ≠ 0) then [Dma_buf_vunmap] else [])
                        ++ [Dma_buf_unmap_attachment (dma_dir b)])).
Proof.
  intros Hl Ha Ht. unfold vb2_dc_unmap_dmabuf. krun. rewrite Ha, Ht.
  case_bool_decide as Hv; krun.
  - by rewrite !insert_insert_eq.
  - rewrite !insert_insert_eq. do 3 f_equal.
    assert (vaddr b = 0) as Hv0 by (destruct (decide (vaddr b = 0)); tauto).
    destruct b; cbn in *. by subst.
Qed.

(** X6: [unmap_dmabuf] undoes [map_dmabuf].  From an attached buffer
    with nothing mapped, a map that returns 0 followed by an unmap gives
    the store before the map back; the exporter was asked for its table
    once and was handed it back once. *)
Theorem unmap_dmabuf_undoes_map l s b dba s1 :
  bufs s !! l = Some b → db_attach b = Some dba → dma_sgt b = None →
  dma_addr b = 0 → vaddr b = 0 →
  vb2_dc_map_dmabuf p k l s = Some (0, s1) →
  vb2_dc_unmap_dmabuf l s1
  = Some (tt, KState (bufs s) (attachs s)
                (klog s ++ [Dma_buf_map_attachment (dma_dir b) true;
                            Dma_buf_unmap_attachment (dma_dir b)])).
Proof.
  intros Hl Ha Ht Hda Hva Hrun.
  destruct (vb2_dc_map_dmabuf_ok_inv l s b dba s1 Hl Ha Ht Hrun)
    as (t & s0 & c & _ & _ & _ & _ & ->).
  erewrite vb2_dc_unmap_dmabuf_run by first [klookup | done].
  cbn [bufs attachs klog vaddr dma_dir set_vaddr set_dma_sgt set_dma_addr].
  rewrite (bool_decide_eq_false_2 (0 ≠ 0)) by lia.
  rewrite <- app_assoc. cbn [app]. do 3 f_equal.
  rewrite insert_insert_eq. apply insert_id. rewrite Hl. f_equal.
  destruct b; cbn in *. by subst.
Qed.

(** X7: [unmap_dmabuf] of a buffer that is not attached, or is attached
    but not mapped, only warns: the exporter is not called and the store
    is untouched. *)
Theorem unmap_dmabuf_not_mapped l s b :
  bufs s !! l = Some b → db_attach b = None ∨ dma_sgt b = None →
  ∃ msg,
    vb2_dc_unmap_dmabuf l s
    = Some (tt, KState (bufs s) (attachs s) (klog s ++ [Warn_on; Pr_err msg])).
Proof.
  intros Hl Hno. unfold vb2_dc_unmap_dmabuf. krun.
  destruct (db_attach b) as [dba|]; [|krun; by eexists].
  destruct Hno as [?| ->]; [done|]. krun. by eexists.
Qed.

(** X8: [detach_dmabuf] of an attached buffer releases the attachment and
    frees the descriptor.  It forces an unmap first exactly when the
    device address is not 0: a buffer with device address 0 is detached as
    it is, and one with another address is unmapped under a warning (its
    CPU mapping first, when it has one). *)
Theorem detach_dmabuf_frees l s b dba :
  bufs s !! l = Some b → db_attach b = Some dba →
  ∃ forced,
    vb2_dc_detach_dmabuf l s
    = Some (tt, KState (delete l (bufs s)) (attachs s)
                  (klog s ++ forced ++ [Dma_buf_detach; Kfree Kobj_buf]))
    ∧ (dma_addr b = 0 → forced = [])
    ∧ (dma_addr b ≠ 0 → ∀ t, dma_sgt b = Some t →
         forced = [Warn_on]
                  ++ (if bool_decide (vaddr b ≠ 0) then [Dma_buf_vunmap] else [])
                  ++ [Dma_buf_unmap_attachment (dma_dir b)]).
Proof.
  intros Hl Ha. unfold vb2_dc_detach_dmabuf. krun.
  destruct (decide (dma_addr b = 0)) as [Hz|Hnz].
  - rewrite (bool_decide_eq_false_2 (dma_addr b ≠ 0)) by tauto.
    krun. rewrite Ha. krun. exists []. by repeat split.
  - rewrite (bool_decide_eq_true_2 (dma_addr b ≠ 0)) by done.
    krun. destruct (dma_sgt b) as [t|] eqn:Ht.
    + erewrite vb2_dc_unmap_dmabuf_run by first [klookup | done].
      krun. cbn [db_attach set_dma_sgt set_dma_addr set_vaddr]. rewrite Ha.
      krun. rewrite delete_insert_eq.
      exists ([Warn_on]
              ++ (if bool_decide (vaddr b ≠ 0) then [Dma_buf_vunmap] else [])
              ++ [Dma_buf_unmap_attachment (dma_dir b)]).
      split; [|split; [done | by intros _ t' [= <-]]].
      reflexivity.
    + unfold vb2_dc_unmap_dmabuf. krun. rewrite Ha, Ht. krun. rewrite Ha. krun.
      eexists [_; _; _]. split; [reflexivity|]. by split.
Qed.

(** X9: [detach_dmabuf] of a buffer that was never attached reads through
    its NULL attachment: the call has no result. *)
Theorem detach_dmabuf_not_attached_faults l s b :
  bufs s !! l = Some b → db_attach b = None →
  vb2_dc_detach_dmabuf l s = None.
Proof.
  intros Hl Ha. unfold vb2_dc_detach_dmabuf. krun.
  case_bool_decide; krun.
  - unfold vb2_dc_unmap_dmabuf. krun. rewrite Ha. krun. by rewrite Ha.
  - by rewrite Ha.
Qed.

End ImportCycle.

(** ** Driver-allocated buffers: the life of a reference *)

Section MmapLife.
Context (p : platform) (k : kernel).

(** The three runs of [vb2_dc_alloc], with their logs. *)
Lemma vb2_dc_alloc_runs conf size dma_dir gfp_flags s :
  ∃ r s', vb2_dc_alloc p k conf size dma_dir gfp_flags s = Some (r, s')
    ∧ ((r = ERR_PTR (- ENOMEM)
        ∧ s' = KState (bufs s) (attachs s) (klog s ++ [Kmalloc Kobj_buf false]))
       ∨ (r = ERR_PTR (- ENOMEM)
          ∧ s' = KState (bufs s) (attachs s)
                   (klog s ++ [Kmalloc Kobj_buf true; Dma_alloc_coherent size false;
                               Dev_err "dma_alloc_coherent of size %ld failed";
                               Kfree Kobj_buf]))
       ∨ (∃ l va da,
            r = Ptr l ∧ bufs s !! l = None ∧ va ≠ 0
            ∧ s' = KState
                     (<[l := {| dev := Some (conf_dev conf); vaddr := va;
                                size := size; dma_addr := da; dma_dir := dma_dir;
                                dma_sgt := None; vec := None;
                                handler := Some {| h_refcount := l; h_arg := l |};
                                refcount := 1; sgt_base := None;
                                db_attach := None |}]> (bufs s))
                     (attachs s)
                     (klog s ++ [Kmalloc Kobj_buf true; Dma_alloc_coherent size true;
                                 Get_device (conf_dev conf)]))).
Proof.
  unfold vb2_dc_alloc. rewrite bind_run. unfold kzalloc_buf.
  pose proof (fresh_buf_unused s) as Hfresh.
  destruct (k_kzalloc k (klog s) Kobj_buf); cbn beta iota.
  - krun.
    destruct (k_dma_alloc_coherent k _ (conf_dev conf) size) as [va da].
    krun. destruct (decide (va = 0)) as [Hva|Hva].
    + rewrite (bool_decide_eq_true_2 (va = 0)) by done.
      rewrite (bool_decide_eq_false_2 (va ≠ 0)) by tauto.
      krun. eexists _, _. split; [reflexivity|]. right; left.
      split; [done|]. do 2 f_equal. cbn [bufs].
      rewrite !insert_insert_eq. by apply delete_insert_id.
    + rewrite (bool_decide_eq_false_2 (va = 0)) by done.
      rewrite (bool_decide_eq_true_2 (va ≠ 0)) by done.
      unfold atomic_inc. krun. eexists _, _. split; [reflexivity|].
      right; right. eexists _, va, _. split; [done|]. split; [done|].
      split; [done|]. f_equal. by rewrite !insert_insert_eq.
  - krun. eexists _, _. split; [reflexivity|]. by left.
Qed.

(** X10: [alloc] takes its reference on the device exactly when it
    returns a buffer, after the descriptor and the coherent memory were
    obtained; that buffer has one user.  When it fails, with -ENOMEM, no
    reference on the device was taken and the store is as before. *)
Theorem alloc_takes_device_reference conf size dma_dir gfp_flags s :
  ∃ r s' new,
    vb2_dc_alloc p k conf size dma_dir gfp_flags s = Some (r, s')
    ∧ klog s' = klog s ++ new
    ∧ match r with
      | Ptr l =>
        new = [Kmalloc Kobj_buf true; Dma_alloc_coherent size true;
               Get_device (conf_dev conf)]
        ∧ vb2_dc_num_users l s' = Some (1, s')
      | ERR_PTR e =>
        e = - ENOMEM ∧ bufs s' = bufs s
        ∧ Get_device (conf_dev conf) ∉ new
      end.
Proof.
  destruct (vb2_dc_alloc_runs conf size dma_dir gfp_flags s)
    as (r & s' & Hrun & [[-> ->] | [[-> ->] | (l & va & da & -> & Hl & Hva & ->)]]).
  - eexists _, _, _. split; [exact Hrun|]. split; [reflexivity|].
    repeat split. rewrite list_elem_of_In. cbn. intros [?|[]]; done.
  - eexists _, _, _. split; [exact Hrun|]. split; [reflexivity|].
    repeat split. rewrite list_elem_of_In. cbn. intros [?|[?|[?|[?|[]]]]]; done.
  - eexists _, _, _. split; [exact Hrun|]. split; [reflexivity|]. split; [done|].
    unfold vb2_dc_num_users, atomic_read. by krun.
Qed.

(** X11: [put] right after [alloc] undoes it: the coherent memory is
    freed, the reference on the device dropped and the descriptor freed,
    each once, and the store is the one before the [alloc]. *)
Theorem put_undoes_alloc conf size dma_dir gfp_flags s l s1 :
  vb2_dc_alloc p k conf size dma_dir gfp_flags s = Some (Ptr l, s1) →
  vb2_dc_put l s1
  = Some (tt, KState (bufs s) (attachs s)
                (klog s ++ [Kmalloc Kobj_buf true; Dma_alloc_coherent size true;
                            Get_device (conf_dev conf);
                            Dma_free_coherent; Put_device; Kfree Kobj_buf])).
Proof.
  intros Hrun.
  destruct (vb2_dc_alloc_runs conf size dma_dir gfp_flags s)
    as (r & s' & Hrun' & Hcases).
  rewrite Hrun in Hrun'. injection Hrun' as <- <-.
  destruct Hcases as [[? _] | [[? _] | (l' & va & da & [= <-] & Hl & Hva & ->)]];
    [done..|].
  erewrite vb2_dc_put_last_run by first [klookup | reflexivity].
  cbn [bufs attachs klog sgt_base]. rewrite <- app_assoc. cbn [app].
  do 3 f_equal. by apply delete_insert_id.
Qed.

(** X12: [put] destroys the buffer exactly when it drops the last
    reference.  With a count of 1 the buffer is torn down (its cached
    base table, when one was built, included) and leaves the store; with
    a larger count the count goes down by one and no call is made. *)
Theorem put_destroys_at_last_reference l s b :
  bufs s !! l = Some b → 1 ≤ refcount b ≤ INT_MAX →
  ∃ s', vb2_dc_put l s = Some (tt, s')
    ∧ attachs s' = attachs s
    ∧ (refcount b = 1 →
         bufs s' = delete l (bufs s)
         ∧ klog s' = klog s
                     ++ (if sgt_base b is Some _
                         then [Sg_free_table; Kfree Kobj_sgt] else [])
                     ++ [Dma_free_coherent; Put_device; Kfree Kobj_buf])
    ∧ (refcount b ≠ 1 →
         bufs s' = <[l := set_refcount (refcount b - 1) b]> (bufs s)
         ∧ klog s' = klog s).
Proof.
  intros Hl Hr.
  assert (Hint : int (refcount b - 1) = refcount b - 1).
  { apply int_small. unfold is_int, INT_MIN, INT_MAX in *. lia. }
  destruct (decide (refcount b = 1)) as [H1|H1].
  - rewrite (vb2_dc_put_last_run l b s Hl) by (rewrite Hint; lia).
    eexists. split; [reflexivity|]. by repeat split.
  - rewrite (vb2_dc_put_run l b s Hl) by (rewrite Hint; lia).
    eexists. split; [reflexivity|]. rewrite Hint. by repeat split.
Qed.

(** X13: the base table of a buffer is built once.  An export of a
    buffer that has its base table calls neither the allocator nor
    [dma_get_sgtable]: [dma_buf_export] is its only call, and the table
    stays the cached one. *)
Theorem get_dmabuf_reuses_base_table l s b t flags :
  bufs s !! l = Some b → sgt_base b = Some t →
  ∃ res ok b',
    vb2_dc_get_dmabuf k l flags s
    = Some (res, KState (<[l := b']> (bufs s)) (attachs s)
                   (klog s ++ [Dma_buf_export ok]))
    ∧ sgt_base b' = Some t
    ∧ (ok = true ↔ is_Some res).
Proof.
  intros Hl Hbase. unfold vb2_dc_get_dmabuf. krun. rewrite Hbase. krun.
  rewrite Hbase. unfold dma_buf_export. krun.
  destruct (k_dma_buf_export k (klog s) _) as [[]|e]; krun.
  - unfold atomic_inc. krun. eexists (Some _), true, _.
    split; [reflexivity|]. cbn [sgt_base set_refcount]. split; [done|].
    split; eauto.
  - eexists None, false, b. split.
    + do 3 f_equal. symmetry. by apply insert_id.
    + split; [done|]. split; [done|]. by intros [??].
Qed.

(** X14: an export that returns no handle takes no reference: the count
    is what it was, whether the base table could not be built or
    [dma_buf_export] failed. *)
Theorem get_dmabuf_null_takes_no_reference l s b flags s' :
  bufs s !! l = Some b →
  vb2_dc_get_dmabuf k l flags s = Some (None, s') →
  refcount_at s' l = Some (refcount b) ∧ attachs s' = attachs s
  ∧ ∃ b', bufs s' = <[l := b']> (bufs s)
          ∧ set_sgt_base (sgt_base b) b' = b.
Proof.
  intros Hl Hrun.
  destruct (vb2_dc_get_dmabuf_run k l b flags s Hl) as (res & sb & lg & Hrun' & _).
  rewrite Hrun in Hrun'. injection Hrun' as <- ->.
  unfold refcount_at. cbn [bufs attachs]. rewrite lookup_insert_eq.
  split; [done|]. split; [done|]. eexists. split; [reflexivity|].
  by destruct b.
Qed.

(** An export that returns a handle has counted one more reference and
    has a base table. *)
Lemma vb2_dc_get_dmabuf_ok_inv l s b flags d s' :
  bufs s !! l = Some b →
  vb2_dc_get_dmabuf k l flags s = Some (Some d, s') →
  ∃ t lg,
    s' = KState (<[l := set_refcount (int (refcount b + 1))
                          (set_sgt_base (Some t) b)]> (bufs s))
                (attachs s) lg
    ∧ dmabuf_priv d = l ∧ dmabuf_size d = size b.
Proof.
  intros Hl. unfold vb2_dc_get_dmabuf. krun.
  assert (Hstep : ∃ sb lg,
    (if sgt_base b is None
     then vb2_dc_get_base_sgt k l ≫= λ sgt, assign l (set_sgt_base sgt)
     else mret ()) s
    = Some (tt, KState (<[l := set_sgt_base sb b]> (bufs s)) (attachs s) lg)).
  { destruct (sgt_base b) as [t|] eqn:Hbase.
    - exists (Some t), (klog s). krun.
      do 2 f_equal. destruct s as [m a lg]. cbn in *. f_equal.
      symmetry. apply insert_id. rewrite Hl. f_equal.
      destruct b; cbn in *. by subst.
    - destruct (vb2_dc_get_base_sgt_run k l b s Hl) as (o & lg & Hrun).
      exists o, lg. rewrite bind_run, Hrun. cbn beta iota. by krun. }
  destruct Hstep as (sb & lg & ->). cbn beta iota. krun.
  destruct sb as [t|]; cbn [sgt_base set_sgt_base]; [|by krun].
  unfold dma_buf_export. krun.
  destruct (k_dma_buf_export k lg _) as [[]|e]; krun; [|done].
  unfold atomic_inc. krun. intros [= <- <-].
  exists t, (lg ++ [Dma_buf_export true]). by rewrite insert_insert_eq.
Qed.

(** X15: a buffer that was exported once lives until both its holders
    have let go.  After [alloc] and an export that returned a handle, the
    first of the two releases only takes the count from 2 to 1; the
    second tears the buffer down, frees the base table that the export
    built, and leaves the store as it was before the [alloc]. *)
Theorem exported_buffer_freed_by_last_holder
    conf size dma_dir gfp_flags flags s l s1 d s2 :
  vb2_dc_alloc p k conf size dma_dir gfp_flags s = Some (Ptr l, s1) →
  vb2_dc_get_dmabuf k l flags s1 = Some (Some d, s2) →
  ∃ s3,
    vb2_dc_dmabuf_ops_release d s2 = Some (tt, s3)
    ∧ refcount_at s3 l = Some 1 ∧ klog s3 = klog s2
    ∧ vb2_dc_put l s3
      = Some (tt, KState (bufs s) (attachs s)
                    (klog s2 ++ [Sg_free_table; Kfree Kobj_sgt;
                                 Dma_free_coherent; Put_device; Kfree Kobj_buf])).
Proof.
  intros Halloc Hexp.
  destruct (vb2_dc_alloc_runs conf size dma_dir gfp_flags s)
    as (r & s' & Hrun' & Hcases).
  rewrite Halloc in Hrun'. injection Hrun' as <- <-.
  destruct Hcases as [[? _] | [[? _] | (l' & va & da & [= <-] & Hl & Hva & ->)]];
    [done..|].
  eapply vb2_dc_get_dmabuf_ok_inv in Hexp as (t & lg & -> & Hpriv & _);
    [|klookup].
  cbn [bufs attachs klog refcount] in *.
  unfold vb2_dc_dmabuf_ops_release. rewrite Hpriv.
  erewrite vb2_dc_put_run by first [klookup | cbn; vm_compute; discriminate].
  eexists. split; [reflexivity|]. cbn [bufs attachs klog].
  split; [unfold refcount_at; cbn [bufs]; by rewrite lookup_insert_eq|].
  split; [done|].
  erewrite vb2_dc_put_last_run by first [klookup | reflexivity].
  cbn [bufs attachs klog sgt_base set_refcount set_sgt_base].
  do 3 f_equal. rewrite !insert_insert_eq. by apply delete_insert_id.
Qed.

End MmapLife.

(** ** A whole import, and what a pinned buffer covers *)

Section Cycles.
Context (p : platform) (k : kernel).

(** An [attach_dmabuf] that returns a buffer. *)
Lemma vb2_dc_attach_dmabuf_ok_inv conf dbuf size dma_dir s l s1 :
  vb2_dc_attach_dmabuf k conf dbuf size dma_dir s = Some (Ptr l, s1) →
  bufs s !! l = None
  ∧ ∃ dba,
      s1 = KState
             (<[l := {| dev := Some (conf_dev conf); vaddr := 0; size := size;
                        dma_addr := 0; dma_dir := dma_dir; dma_sgt := None;
                        vec := None; handler := None; refcount := 0;
                        sgt_base := None; db_attach := Some dba |}]> (bufs s))
             (attachs s)
             (klog s ++ [Kmalloc Kobj_buf true; Dma_buf_attach true]).
Proof.
  unfold vb2_dc_attach_dmabuf. case_bool_decide; [by krun|].
  rewrite bind_run. unfold kzalloc_buf.
  pose proof (fresh_buf_unused s) as Hfresh.
  destruct (k_kzalloc k (klog s) Kobj_buf); cbn beta iota; [|by krun].
  krun. destruct (k_dma_buf_attach k _ dbuf (conf_dev conf)) as [dba|e]; krun;
    [|done].
  intros [= <- <-]. split; [done|]. exists dba. by rewrite !insert_insert_eq.
Qed.

(** X16: a whole import leaves nothing behind.  When [attach_dmabuf]
    returns a buffer and [map_dmabuf] of it returns 0, the [unmap_dmabuf]
    and [detach_dmabuf] that follow run without a warning and give the
    store before the attach back; the calls made are, in this order, the
    allocation of the descriptor, the attach, the request for the
    exporter's table, its return, the detach and the free. *)
Theorem import_cycle_restores_store conf dbuf sz dir s l s1 s2 :
  vb2_dc_attach_dmabuf k conf dbuf sz dir s = Some (Ptr l, s1) →
  vb2_dc_map_dmabuf p k l s1 = Some (0, s2) →
  ∃ s3,
    vb2_dc_unmap_dmabuf l s2 = Some (tt, s3)
    ∧ vb2_dc_detach_dmabuf l s3
      = Some (tt, KState (bufs s) (attachs s)
                    (klog s ++ [Kmalloc Kobj_buf true; Dma_buf_attach true;
                                Dma_buf_map_attachment dir true;
                                Dma_buf_unmap_attachment dir;
                                Dma_buf_detach; Kfree Kobj_buf])).
Proof.
  intros Hatt Hmap.
  apply vb2_dc_attach_dmabuf_ok_inv in Hatt as (Hl & dba & ->).
  eapply vb2_dc_map_dmabuf_ok_inv in Hmap
    as (t & s0 & c & _ & _ & _ & _ & ->); [|klookup|reflexivity..].
  erewrite vb2_dc_unmap_dmabuf_run by first [klookup | reflexivity].
  eexists. split; [reflexivity|].
  unfold vb2_dc_detach_dmabuf. krun.
  cbn [vaddr dma_addr dma_dir db_attach set_vaddr set_dma_sgt set_dma_addr].
  rewrite (bool_decide_eq_false_2 (0 ≠ 0)) by lia. krun.
  cbn [vaddr dma_addr dma_dir db_attach set_vaddr set_dma_sgt set_dma_addr].
  krun. do 3 f_equal. rewrite !insert_insert_eq. by apply delete_insert_id.
Qed.

(** X17: a failed map on the exporter's side leaves the cache empty: the
    error is -EIO, the attachment has no mapped entries and no cached
    direction, so that nothing will be unmapped for it later. *)
Theorem dmabuf_ops_map_failure_leaves_cache_empty dba a att dma_dir s e s1 :
  dba_priv dba = Some a → attachs s !! a = Some att →
  vb2_dc_dmabuf_ops_map k dba dma_dir s = Some (ERR_PTR e, s1) →
  e = - EIO
  ∧ bufs s1 = bufs s
  ∧ ∃ att1, attachs s1 = <[a := att1]> (attachs s)
      ∧ att_dma_dir att1 = DMA_NONE ∧ nents (att_sgt att1) = 0
      ∧ orig_nents (att_sgt att1) = orig_nents (att_sgt att).
Proof.
  intros Hpriv Ha Hrun.
  destruct (decide (att_dma_dir att = dma_dir)) as [<-|Hdir].
  - by rewrite (vb2_dc_dmabuf_ops_map_cached k dba a att s Hpriv Ha) in Hrun.
  - pose proof (vb2_dc_dmabuf_ops_map_fresh k dba a att dma_dir s Hpriv Ha Hdir)
      as Hfresh.
    cbn zeta in Hfresh.
    destruct (k_dma_map_sg k _ (dba_dev dba) _ _ dma_dir) as [ret sgl'].
    rewrite Hfresh in Hrun. clear Hfresh.
    case_bool_decide as Hret; [|done]. injection Hrun as <- <-.
    split; [done|]. split; [done|]. eexists. split; [reflexivity|].
    by repeat split.
Qed.

(** X18: without an architecture macro, [vb2_dc_pfn_to_dma] is the frame
    number times the page size in the device's address space, so that
    frame [pfn + i] lies [i] pages after frame [pfn]: the one address that
    the pin of consecutive frames records stands for the whole range. *)
Theorem pfn_to_dma_is_linear dev pfn i :
  arch_pfn_macro p = No_pfn_macro → 0 ≤ PAGE_SHIFT p →
  vb2_dc_pfn_to_dma p dev pfn = dma_addr_t p (pfn * 2 ^ PAGE_SHIFT p)
  ∧ vb2_dc_pfn_to_dma p dev (pfn + i)
    = dma_addr_t p (vb2_dc_pfn_to_dma p dev pfn + i * 2 ^ PAGE_SHIFT p).
Proof.
  intros Hm Hs. unfold vb2_dc_pfn_to_dma. rewrite Hm.
  assert (Heq : ∀ x, dma_addr_t p (Z.shiftl (dma_addr_t p x) (PAGE_SHIFT p))
                     = dma_addr_t p (x * 2 ^ PAGE_SHIFT p)).
  { intros x. rewrite Z.shiftl_mul_pow2 by done.
    unfold dma_addr_t, wrap. by rewrite Zmult_mod_idemp_l. }
  rewrite !Heq. split; [done|].
  rewrite dma_addr_t_idemp_add_l. f_equal. lia.
Qed.

(** A run that ends in a result other than the one assumed. *)
Ltac kfail := krun; let H := fresh in intros H; discriminate H.

(** A [get_userptr] that returns a buffer: the descriptor is new, and
    either it has no table, or its table is what [dma_map_sg] made of
    the list. *)
Lemma vb2_dc_get_userptr_ok_inv conf va sz dir s l s' :
  kernel_pins_well k →
  vb2_dc_get_userptr p k conf va sz dir s = Some (Ptr l, s') →
  ∃ fv da tbl x,
    bufs s !! l = None ∧ wf_frame_vector fv
    ∧ s' = KState (<[l := userptr_buf conf sz dir fv da tbl]> (bufs s))
                  (attachs s) (klog s ++ exit_log va sz dir x)
    ∧ ((tbl = None ∧ ∃ ret, x = Exit_pfn_direct ret)
       ∨ ∃ h t0 mapped sgl' s0 c ret,
           x = Exit_mapped ret mapped
           ∧ k_dma_map_sg k h (conf_dev conf) (sgl t0) (orig_nents t0) dir
             = (mapped, sgl')
           ∧ uint mapped ≠ 0
           ∧ tbl = Some (SgTable sgl' (uint mapped) (orig_nents t0))
           ∧ head sgl' = Some s0 ∧ da = sg_dma_address s0
           ∧ vb2_dc_get_contiguous_size p
               (SgTable sgl' (uint mapped) (orig_nents t0)) = Some c
           ∧ sz ≤ c).
Proof.
  intros Hpins. unfold vb2_dc_get_userptr.
  destruct (IS_ALIGNED p (Z.lor va sz) (dma_get_cache_alignment p));
    cbn [negb]; [|kfail].
  case_bool_decide as Hsz; [kfail|].
  rewrite bind_run. unfold kzalloc_buf.
  pose proof (fresh_buf_unused s) as Hfresh.
  destruct (k_kzalloc k (klog s) Kobj_buf); cbn beta iota; [|kfail].
  krun.
  destruct (k_vb2_create_framevec k _ va sz _) as [fv|e] eqn:Hfv;
    [|unfold fail_buf; kfail].
  pose proof (Hpins _ _ _ _ _ Hfv) as Hwf.
  krun. unfold frame_vector_count, frame_vector_pfns, frame_vector_pages.
  match goal with |- context [Frame_vector_to_pages ?r] => set (ret := r) end.
  set (write := bool_decide (dir = DMA_FROM_DEVICE)).
  destruct (decide (ret < 0)) as [Hret|Hret].
  { rewrite (bool_decide_eq_true_2 (ret < 0)) by done.
    destruct (pfns_contiguous_loop p _ 1 (frames fv)) as [[]|]; krun;
      [|unfold fail_pfnvec, fail_buf; kfail|done].
    destruct (frames fv !! 0%nat) as [n0|]; [|done]. krun.
    intros [= <- <-]. eexists fv, _, None, (Exit_pfn_direct ret).
    split; [done|]. split; [done|]. split; [|left; eauto].
    f_equal. by rewrite !insert_insert_eq. }
  rewrite (bool_decide_eq_false_2 (ret < 0)) by done.
  unfold kzalloc_sgt. krun.
  destruct (k_kzalloc k _ Kobj_sgt); krun;
    [|unfold fail_pfnvec, fail_buf; kfail].
  destruct (k_sg_alloc_table_from_pages k _ (frames fv) _ _ sz) as [tret tbl].
  krun. destruct (decide (int tret = 0)) as [Htret|Htret].
  2:{ rewrite (bool_decide_eq_true_2 (int tret ≠ 0)) by done.
      unfold fail_sgt, fail_pfnvec, fail_buf. kfail. }
  rewrite (bool_decide_eq_false_2 (int tret ≠ 0)) by tauto. rewrite Htret.
  krun.
  destruct (k_dma_map_sg k _ (conf_dev conf) (sgl tbl) (orig_nents tbl) dir)
    as [mapped sgl'] eqn:Hmap.
  krun. cbn [nents]. destruct (decide (uint mapped ≤ 0)) as [Hz|Hnz].
  { rewrite (bool_decide_eq_true_2 (uint mapped ≤ 0)) by done.
    unfold fail_sgt_init, fail_sgt, fail_pfnvec, fail_buf. kfail. }
  rewrite (bool_decide_eq_false_2 (uint mapped ≤ 0)) by done.
  destruct (vb2_dc_get_contiguous_size p _) as [c|] eqn:Hc; [|done].
  krun. destruct (decide (c < sz)) as [Hshort|Hlong].
  { rewrite (bool_decide_eq_true_2 (c < sz)) by done.
    unfold fail_map_sg, fail_sgt_init, fail_sgt, fail_pfnvec, fail_buf.
    kfail. }
  rewrite (bool_decide_eq_false_2 (c < sz)) by done. cbn [sgl].
  destruct (head sgl') as [s0|] eqn:Hhd; [|done]. krun.
  intros [= <- <-].
  eexists fv, _, (Some _), (Exit_mapped ret mapped).
  split; [done|]. split; [done|]. split.
  { f_equal. by rewrite !insert_insert_eq. }
  right. eexists _, tbl, mapped, sgl', s0, c, ret. split; [done|].
  split; [exact Hmap|]. split; [lia|]. split; [done|]. split; [done|].
  split; [done|]. split; [done|]. lia.
Qed.

(** X19: a pinned buffer is all there for the device.  When
    [get_userptr] returns a buffer that carries a table, the buffer has
    the requested size and each offset below it lies in a mapped segment
    of the table, at the device address that far from the buffer's. *)
Theorem get_userptr_buffer_is_covered conf va sz dir s l s' :
  kernel_pins_well k → kernel_maps_well k → kernel_maps_uint k →
  vb2_dc_get_userptr p k conf va sz dir s = Some (Ptr l, s') →
  ∃ b, bufs s' !! l = Some b ∧ size b = sz
    ∧ ∀ t, dma_sgt b = Some t →
        ∀ o, 0 ≤ o < sz →
          ∃ j sg off,
            mapped_segments t !! j = Some sg ∧ 0 ≤ off < sg_dma_len sg
            ∧ dma_addr_t p (sg_dma_address sg + off)
              = dma_addr_t p (dma_addr b + o).
Proof.
  intros Hpins Hmaps Huint Hrun.
  destruct (vb2_dc_get_userptr_ok_inv conf va sz dir s l s' Hpins Hrun)
    as (fv & da & tbl & x & Hl & _ & -> & Htable).
  eexists. split; [klookup|]. split; [done|]. cbn [dma_sgt dma_addr userptr_buf].
  intros t Ht o Ho.
  destruct Htable as [[-> _] | (h & t0 & mapped & sgl' & s0 & c & ret & _ & Hmap
                                  & Hnz & -> & Hhd & -> & Hc & Hle)];
    [done|].
  injection Ht as <-.
  apply (vb2_dc_get_contiguous_size_covers p _ s0 c); [| |done|done|lia].
  - exact (Hmaps _ _ _ _ _ _ _ Hmap Hnz).
  - exact (Huint _ _ _ _ _ _ _ Hmap).
Qed.

End Cycles.

(** ** Running the remaining callbacks *)

Section XRun.
Context {A B : Type}.

Lemma xbind_run (m : X A) (f : A → X B) xs :
  (m ≫= f) xs = match m xs with Some (a, xs') => f a xs' | None => None end.
Proof. reflexivity. Qed.

Lemma xret_run (a : A) xs : (mret a : X A) xs = Some (a, xs).
Proof. reflexivity. Qed.

Lemma xcall_log_run e xs :
  xcall_log e xs = Some (tt, XState (ks xs) (xlog xs ++ [e]) (confs xs)).
Proof. reflexivity. Qed.

Lemma xbase_run e xs :
  xbase e xs
  = Some (tt, XState (KState (bufs (ks xs)) (attachs (ks xs)) (klog (ks xs) ++ [e]))
                     (xlog xs ++ [Base e]) (confs xs)).
Proof. reflexivity. Qed.

Lemma xget_log_run xs : xget_log xs = Some (xlog xs, xs).
Proof. reflexivity. Qed.

Lemma xlift_run (a : A) xs : xlift (Some a) xs = Some (a, xs).
Proof. reflexivity. Qed.

Lemma xderef_run l b xs : bufs (ks xs) !! l = Some b → xderef l xs = Some (b, xs).
Proof. intros H. unfold xderef. by rewrite H. Qed.

Lemma xassign_run l f b xs :
  bufs (ks xs) !! l = Some b →
  xassign l f xs
  = Some (tt, XState (KState (<[l := f b]> (bufs (ks xs))) (attachs (ks xs))
                             (klog (ks xs)))
                     (xlog xs) (confs xs)).
Proof. intros H. unfold xassign. by rewrite H. Qed.

Lemma xkfree_buf_run l b xs :
  bufs (ks xs) !! l = Some b →
  xkfree_buf l xs
  = Some (tt, XState (KState (delete l (bufs (ks xs))) (attachs (ks xs))
                             (klog (ks xs) ++ [Kfree Kobj_buf]))
                     (xlog xs ++ [Base (Kfree Kobj_buf)]) (confs xs)).
Proof. intros H. unfold xkfree_buf. by rewrite H. Qed.

Lemma xderef_attach_run l a xs :
  attachs (ks xs) !! l = Some a → xderef_attach l xs = Some (a, xs).
Proof. intros H. unfold xderef_attach. by rewrite H. Qed.

Lemma xassign_attach_run l f a xs :
  attachs (ks xs) !! l = Some a →
  xassign_attach l f xs
  = Some (tt, XState (KState (bufs (ks xs)) (<[l := f a]> (attachs (ks xs)))
                             (klog (ks xs)))
                     (xlog xs) (confs xs)).
Proof. intros H. unfold xassign_attach. by rewrite H. Qed.

Lemma xkfree_attach_run l a xs :
  attachs (ks xs) !! l = Some a →
  xkfree_attach l xs
  = Some (tt, XState (KState (bufs (ks xs)) (delete l (attachs (ks xs)))
                             (klog (ks xs)))
                     (xlog xs ++ [Kfree_attach]) (confs xs)).
Proof. intros H. unfold xkfree_attach. by rewrite H. Qed.

End XRun.

Ltac xlookup :=
  cbn [ks xlog confs bufs attachs klog];
  first [ eassumption
        | apply lookup_insert_eq
        | rewrite lookup_insert_eq; reflexivity ].

Ltac xstep :=
  first
    [ rewrite xbind_run
    | rewrite xret_run
    | rewrite xcall_log_run
    | rewrite xbase_run
    | rewrite xget_log_run
    | rewrite xlift_run
    | erewrite xderef_run by xlookup
    | erewrite xassign_run by xlookup
    | erewrite xkfree_buf_run by xlookup
    | erewrite xderef_attach_run by xlookup
    | erewrite xassign_attach_run by xlookup
    | erewrite xkfree_attach_run by xlookup ].

Ltac xnorm := cbn beta iota; cbn [ks xlog confs bufs attachs klog negb].

Ltac xrun := xnorm; repeat (xstep; xnorm); rewrite <- ?app_assoc; cbn [app].

(** ** Synchronisation and the CPU view *)

Section Sync.
Context (p : platform) (k : kernel) (kx : xkernel).

(** X20: [prepare] and [finish] leave coherent and imported memory to
    others.  For a buffer that [alloc] returned, and for an imported
    buffer, mapped or not, neither makes a call or changes the state. *)
Theorem prepare_finish_skip_coherent_and_imported :
  (∀ conf sz dir gfp s l s1 xl cf,
     vb2_dc_alloc p k conf sz dir gfp s = Some (Ptr l, s1) →
     vb2_dc_prepare l (XState s1 xl cf) = Some (tt, XState s1 xl cf)
     ∧ vb2_dc_finish l (XState s1 xl cf) = Some (tt, XState s1 xl cf))
  ∧ (∀ l s b dba xl cf,
       bufs s !! l = Some b → db_attach b = Some dba →
       vb2_dc_prepare l (XState s xl cf) = Some (tt, XState s xl cf)
       ∧ vb2_dc_finish l (XState s xl cf) = Some (tt, XState s xl cf)).
Proof.
  split.
  - intros conf sz dir gfp s l s1 xl cf Hrun.
    destruct (vb2_dc_alloc_runs p k conf sz dir gfp s) as (r & s' & Hrun' & Hcases).
    rewrite Hrun in Hrun'. injection Hrun' as <- <-.
    destruct Hcases as [[? _] | [[? _] | (l' & va & da & [= <-] & Hl & Hva & ->)]];
      [done..|].
    unfold vb2_dc_prepare, vb2_dc_finish. split; by xrun.
  - intros l s b dba xl cf Hl Ha.
    unfold vb2_dc_prepare, vb2_dc_finish. split; xrun; rewrite Ha;
      by destruct (dma_sgt b).
Qed.

(** X21: for pinned memory [prepare] and [finish] synchronise the table
    the pin built.  On a buffer that [get_userptr] returned, [prepare]
    makes one call of [dma_sync_sg_for_device] and [finish] one of
    [dma_sync_sg_for_cpu], over the original entries of the buffer's
    table, not the mapped ones, and in the direction of the pin; when the
    buffer has no table they make no call.  The buffers are not
    changed. *)
Theorem prepare_finish_sync_pinned conf va sz dir s l s1 xl cf :
  kernel_pins_well k →
  vb2_dc_get_userptr p k conf va sz dir s = Some (Ptr l, s1) →
  ∃ b, bufs s1 !! l = Some b
    ∧ vb2_dc_prepare l (XState s1 xl cf)
      = Some (tt, XState s1
                    (xl ++ (if dma_sgt b is Some t
                            then [Dma_sync_sg_for_device (orig_nents t) dir]
                            else [])) cf)
    ∧ vb2_dc_finish l (XState s1 xl cf)
      = Some (tt, XState s1
                    (xl ++ (if dma_sgt b is Some t
                            then [Dma_sync_sg_for_cpu (orig_nents t) dir]
                            else [])) cf).
Proof.
  intros Hpins Hrun.
  destruct (vb2_dc_get_userptr_ok_inv p k conf va sz dir s l s1 Hpins Hrun)
    as (fv & da & tbl & x & Hl & _ & -> & _).
  eexists. split; [klookup|]. unfold vb2_dc_prepare, vb2_dc_finish.
  cbn [dma_sgt userptr_buf].
  split; xrun; cbn [dma_sgt db_attach dma_dir userptr_buf];
    destruct tbl; xrun; by rewrite ?app_nil_r.
Qed.

(** The first [vaddr] of an imported buffer without a CPU address. *)
Lemma vaddr_run_first l s b dba xl cf :
  bufs s !! l = Some b → db_attach b = Some dba → vaddr b = 0 →
  vb2_dc_vaddr kx l (XState s xl cf)
  = Some (x_dma_buf_vmap kx xl (dba_dmabuf dba),
          XState (KState (<[l := set_vaddr (x_dma_buf_vmap kx xl (dba_dmabuf dba)) b]>
                            (bufs s)) (attachs s) (klog s))
                 (xl ++ [Dma_buf_vmap (x_dma_buf_vmap kx xl (dba_dmabuf dba))]) cf).
Proof.
  intros Hl Ha Hv. unfold vb2_dc_vaddr.
  xrun. rewrite Ha, (bool_decide_eq_true_2 (vaddr b = 0)) by done. by xrun.
Qed.

(** X22: the CPU view of an imported buffer is made on demand and kept.
    The first [vaddr] of an imported buffer that has none asks the
    exporter once, with [dma_buf_vmap], and records the answer; when the
    answer is an address a further [vaddr] returns it without a call.
    When the exporter has no mapping to give, [vaddr] returns NULL and
    the next call asks again. *)
Theorem vaddr_maps_imported_buffer_once l s b dba xl cf :
  bufs s !! l = Some b → db_attach b = Some dba → vaddr b = 0 →
  let va := x_dma_buf_vmap kx xl (dba_dmabuf dba) in
  let xs1 := XState (KState (<[l := set_vaddr va b]> (bufs s)) (attachs s) (klog s))
                    (xl ++ [Dma_buf_vmap va]) cf in
  vb2_dc_vaddr kx l (XState s xl cf) = Some (va, xs1)
  ∧ (va ≠ 0 → vb2_dc_vaddr kx l xs1 = Some (va, xs1))
  ∧ (va = 0 →
     ∃ va', vb2_dc_vaddr kx l xs1
            = Some (va', XState (KState (<[l := set_vaddr va' b]> (bufs s))
                                        (attachs s) (klog s))
                                (xl ++ [Dma_buf_vmap 0; Dma_buf_vmap va']) cf)).
Proof.
  intros Hl Ha Hv. cbn zeta. unfold vb2_dc_vaddr. split; [|split].
  - xrun. rewrite Ha, (bool_decide_eq_true_2 (vaddr b = 0)) by done. by xrun.
  - intros Hnz. xrun. cbn [vaddr set_vaddr].
    rewrite (bool_decide_eq_false_2 (_ = 0)) by done. by xrun.
  - intros Hz. rewrite Hz. xrun. cbn [vaddr db_attach set_vaddr].
    rewrite Ha, (bool_decide_eq_true_2 (0 = 0)) by done. xrun.
    eexists. rewrite insert_insert_eq. reflexivity.
Qed.

(** X23: the CPU view never outlives the device mapping.  When [vaddr]
    recorded an address for a mapped imported buffer, [unmap_dmabuf]
    releases it with [dma_buf_vunmap] before it hands the table back,
    and the buffer is left with no CPU address, no device address and no
    table. *)
Theorem unmap_dmabuf_releases_cpu_view l s b dba t xl cf va xs1 :
  bufs s !! l = Some b → db_attach b = Some dba → dma_sgt b = Some t →
  vaddr b = 0 →
  vb2_dc_vaddr kx l (XState s xl cf) = Some (va, xs1) → va ≠ 0 →
  vb2_dc_unmap_dmabuf l (ks xs1)
  = Some (tt, KState (<[l := set_dma_sgt None (set_dma_addr 0 b)]> (bufs s))
                (attachs s)
                (klog s ++ [Dma_buf_vunmap; Dma_buf_unmap_attachment (dma_dir b)])).
Proof.
  intros Hl Ha Ht Hv Hrun Hnz.
  rewrite (vaddr_run_first l s b dba xl cf Hl Ha Hv) in Hrun.
  injection Hrun as <- <-. cbn [ks].
  erewrite vb2_dc_unmap_dmabuf_run by first [klookup | done].
  cbn [bufs attachs klog vaddr dma_dir set_vaddr].
  rewrite (bool_decide_eq_true_2 (_ ≠ 0)) by done. cbn [app].
  do 3 f_equal. rewrite insert_insert_eq. f_equal.
  destruct b; cbn in *. by subst.
Qed.

End Sync.

(** ** Unpinning, the exporter's attachments, and the contexts *)

Section Teardown.
Context (p : platform) (k : kernel) (kx : xkernel).

(** The dirty loop marks the pages it is given, in order. *)
Lemma set_dirty_loop_run n :
  ∀ i pages xs,
    (i + n ≤ length pages)%nat →
    set_dirty_loop n i pages xs
    = Some (tt, XState (ks xs)
                  (xlog xs ++ (Set_page_dirty_lock <$> take n (drop i pages)))
                  (confs xs)).
Proof.
  induction n as [|n IH]; intros i pages xs Hlen.
  - cbn. rewrite app_nil_r. by destruct xs.
  - cbn [set_dirty_loop].
    destruct (lookup_lt_is_Some_2 pages i) as [pg Hpg]; [lia|].
    rewrite xbind_run, Hpg, xlift_run. cbn beta iota. xrun.
    rewrite IH by lia. cbn [ks xlog confs]. do 3 f_equal.
    rewrite <- app_assoc. f_equal.
    rewrite (drop_S _ _ _ Hpg). cbn [take fmap list_fmap]. reflexivity.
Qed.

(** X24: [put_userptr] undoes [get_userptr].  On a buffer that
    [get_userptr] returned it unmaps the table, marks every pinned page
    dirty, whatever the direction of the transfer was, and frees the
    table, when the buffer has one; then it unpins the pages and frees
    the descriptor.  The store is the one before the pin, and over the
    pin and the unpin together every resource was given back, the last
    acquired first. *)
Theorem put_userptr_undoes_get_userptr conf va sz dir s l s1 xl cf :
  kernel_pins_well k →
  vb2_dc_get_userptr p k conf va sz dir s = Some (Ptr l, s1) →
  ∃ b fv new,
    bufs s1 !! l = Some b ∧ vec b = Some fv
    ∧ vb2_dc_put_userptr l (XState s1 xl cf)
      = Some (tt, XState (KState (bufs s) (attachs s) (klog s ++ new))
                    (xl ++ put_userptr_log dir fv (dma_sgt b)) cf)
    ∧ unwind new [] = Some [].
Proof.
  intros Hpins Hrun.
  destruct (vb2_dc_get_userptr_ok_inv p k conf va sz dir s l s1 Hpins Hrun)
    as (fv & da & tbl & x & Hl & [Hnr Hlen] & -> & Htable).
  assert (Hcount : Z.to_nat (uint (frame_vector_count fv)) = length (frames fv)).
  { unfold frame_vector_count, uint. rewrite wrap_small; [lia|].
    unfold INT_MAX in Hnr. lia. }
  destruct Htable as [[-> [ret ->]] | (h & t0 & mapped & sgl' & s0 & c & ret & ->
                                        & _ & Hnz & -> & _)].
  - eexists _, fv, _. split; [klookup|]. split; [reflexivity|].
    unfold vb2_dc_put_userptr, put_userptr_log. xrun.
    cbn [dma_sgt vec dma_dir userptr_buf]. xrun.
    rewrite delete_insert_id by done. split; reflexivity.
  - eexists _, fv, _. split; [klookup|]. split; [reflexivity|].
    unfold vb2_dc_put_userptr, put_userptr_log. xrun.
    cbn [dma_sgt vec dma_dir userptr_buf]. xrun. unfold frame_vector_pages.
    rewrite Hcount, set_dirty_loop_run by (cbn; lia).
    xrun. rewrite drop_0, firstn_all.
    rewrite delete_insert_id by done. split; [reflexivity|].
    cbn [exit_log app unwind acquired released].
    by rewrite (bool_decide_eq_false_2 (uint mapped = 0)).
Qed.

(** Into a cleared list of the same length, the copy loop writes the
    pages, lengths and offsets of the base list and no device address. *)
Lemma attach_copy_loop_run rd :
  attach_copy_loop (length rd) rd (replicate (length rd) (Scatterlist 0 0 0 0 0))
  = Some (unmapped_copy <$> rd).
Proof.
  induction rd as [|r rd IH]; [done|].
  cbn [length replicate attach_copy_loop]. by rewrite IH.
Qed.

Lemma fresh_attach_unused (m : gmap loc vb2_dc_attachment) :
  m !! fresh (dom m) = None.
Proof. apply not_elem_of_dom. apply is_fresh. Qed.

(** The runs of [vb2_dc_dmabuf_ops_attach] on a buffer with a base table
    that has the entries it counts. *)
Lemma vb2_dc_dmabuf_ops_attach_runs dbuf dev dba xs b base :
  bufs (ks xs) !! dmabuf_priv dbuf = Some b → sgt_base b = Some base →
  Z.of_nat (length (sgl base)) = orig_nents base →
  ∃ r dba' xs',
    vb2_dc_dmabuf_ops_attach kx dbuf dev dba xs = Some ((r, dba'), xs')
    ∧ bufs (ks xs') = bufs (ks xs) ∧ klog (ks xs') = klog (ks xs)
    ∧ confs xs' = confs xs
    ∧ ((r = - ENOMEM ∧ dba' = dba ∧ attachs (ks xs') = attachs (ks xs)
        ∧ (xlog xs' = xlog xs ++ [Kzalloc_attach false]
           ∨ ∃ ret, ret ≠ 0
               ∧ xlog xs' = xlog xs ++ [Kzalloc_attach true;
                                        Sg_alloc_table (orig_nents base) ret;
                                        Kfree_attach]))
       ∨ (r = 0
          ∧ ∃ a, attachs (ks xs) !! a = None
              ∧ dba' = DmaBufAttachment (dba_dmabuf dba) (dba_dev dba) (Some a)
              ∧ attachs (ks xs')
                = <[a := Vb2DcAttachment
                           (SgTable (unmapped_copy <$> sgl base)
                                    (orig_nents base) (orig_nents base))
                           DMA_NONE]> (attachs (ks xs))
              ∧ xlog xs' = xlog xs ++ [Kzalloc_attach true;
                                       Sg_alloc_table (orig_nents base) 0])).
Proof.
  intros Hb Hbase Hlen. unfold vb2_dc_dmabuf_ops_attach.
  rewrite xbind_run. unfold xkzalloc_attach.
  pose proof (fresh_attach_unused (attachs (ks xs))) as Hfresh.
  set (a := fresh (dom (attachs (ks xs)))) in *.
  destruct (x_kzalloc_attach kx (xlog xs)); cbn beta iota.
  2:{ xrun. eexists _, _, _. split; [reflexivity|]. cbn [ks xlog confs].
      repeat split. left. repeat split. by left. }
  xrun. rewrite Hbase. xrun.
  match goal with |- context [Sg_alloc_table _ ?r] => set (ret := r) end.
  destruct (decide (ret = 0)) as [Hret|Hret].
  - rewrite (bool_decide_eq_false_2 (ret ≠ 0)) by tauto. xrun.
    cbn [cleared_table orig_nents sgl nents].
    replace (Z.to_nat (orig_nents base)) with (length (sgl base)) by lia.
    rewrite attach_copy_loop_run. xrun.
    eexists _, _, _. split; [reflexivity|]. cbn [ks xlog confs bufs klog attachs].
    repeat split. right. split; [done|]. exists a. split; [done|].
    split; [done|]. split; [|by rewrite Hret].
    by rewrite !insert_insert_eq.
  - rewrite (bool_decide_eq_true_2 (ret ≠ 0)) by done. xrun.
    eexists _, _, _. split; [reflexivity|]. cbn [ks xlog confs bufs klog attachs].
    repeat split. left. split; [done|]. split; [done|].
    split; [by apply delete_insert_id|]. right. by exists ret.
Qed.

(** X25: an attachment gets a copy of the buffer's base table.  An
    attach to an exported buffer either fails with -ENOMEM, leaving the
    attachment handle and the store as they were, or returns 0 with a
    new attachment whose list has, entry for entry, the pages, offsets
    and lengths of the base table, no device address, and no cached
    direction, so that the first map translates.  The buffer and its
    base table are not touched. *)
Theorem dmabuf_ops_attach_copies_base_table dbuf dev dba xs b base :
  bufs (ks xs) !! dmabuf_priv dbuf = Some b → sgt_base b = Some base →
  Z.of_nat (length (sgl base)) = orig_nents base →
  ∃ r dba' xs',
    vb2_dc_dmabuf_ops_attach kx dbuf dev dba xs = Some ((r, dba'), xs')
    ∧ bufs (ks xs') = bufs (ks xs) ∧ klog (ks xs') = klog (ks xs)
    ∧ confs xs' = confs xs
    ∧ ((r = - ENOMEM ∧ dba' = dba ∧ attachs (ks xs') = attachs (ks xs)
        ∧ (xlog xs' = xlog xs ++ [Kzalloc_attach false]
           ∨ ∃ ret, ret ≠ 0
               ∧ xlog xs' = xlog xs ++ [Kzalloc_attach true;
                                        Sg_alloc_table (orig_nents base) ret;
                                        Kfree_attach]))
       ∨ (r = 0
          ∧ ∃ a, attachs (ks xs) !! a = None
              ∧ dba' = DmaBufAttachment (dba_dmabuf dba) (dba_dev dba) (Some a)
              ∧ attachs (ks xs')
                = <[a := Vb2DcAttachment
                           (SgTable (unmapped_copy <$> sgl base)
                                    (orig_nents base) (orig_nents base))
                           DMA_NONE]> (attachs (ks xs))
              ∧ xlog xs' = xlog xs ++ [Kzalloc_attach true;
                                       Sg_alloc_table (orig_nents base) 0])).
Proof. exact (vb2_dc_dmabuf_ops_attach_runs dbuf dev dba xs b base). Qed.

(** The run of [vb2_dc_dmabuf_ops_detach] on a live attachment. *)
Lemma vb2_dc_dmabuf_ops_detach_run dbuf dba a att xs :
  dba_priv dba = Some a → attachs (ks xs) !! a = Some att →
  vb2_dc_dmabuf_ops_detach dbuf dba xs
  = Some (DmaBufAttachment (dba_dmabuf dba) (dba_dev dba) None,
          XState (KState (bufs (ks xs)) (delete a (attachs (ks xs)))
                    (klog (ks xs)
                     ++ (if bool_decide (att_dma_dir att ≠ DMA_NONE)
                         then [Dma_unmap_sg (att_dma_dir att)] else [])
                     ++ [Sg_free_table]))
                 (xlog xs
                  ++ (if bool_decide (att_dma_dir att ≠ DMA_NONE)
                      then [Base (Dma_unmap_sg (att_dma_dir att))] else [])
                  ++ [Base Sg_free_table; Kfree_attach])
                 (confs xs)).
Proof.
  intros Hpriv Ha. unfold vb2_dc_dmabuf_ops_detach. rewrite Hpriv. xrun.
  case_bool_decide; by xrun.
Qed.

(** X26: a detach on the exporter's side releases what the attachment
    holds: the device mapping, in the direction it was made for, exactly
    when one is cached; then the list and the attachment itself.  The
    handle is left without private data, and a detach of such a handle
    does nothing, so that a second detach is harmless. *)
Theorem dmabuf_ops_detach_releases dbuf dba a att xs :
  dba_priv dba = Some a → attachs (ks xs) !! a = Some att →
  ∃ dba' xs',
    vb2_dc_dmabuf_ops_detach dbuf dba xs = Some (dba', xs')
    ∧ dba_priv dba' = None
    ∧ attachs (ks xs') = delete a (attachs (ks xs))
    ∧ bufs (ks xs') = bufs (ks xs)
    ∧ xlog xs' = xlog xs
                 ++ (if bool_decide (att_dma_dir att = DMA_NONE) then []
                     else [Base (Dma_unmap_sg (att_dma_dir att))])
                 ++ [Base Sg_free_table; Kfree_attach]
    ∧ vb2_dc_dmabuf_ops_detach dbuf dba' xs' = Some (dba', xs').
Proof.
  intros Hpriv Ha.
  rewrite (vb2_dc_dmabuf_ops_detach_run dbuf dba a att xs Hpriv Ha).
  eexists _, _. split; [reflexivity|]. cbn [dba_priv ks xlog attachs bufs].
  repeat split. do 2 f_equal.
  destruct (decide (att_dma_dir att = DMA_NONE)).
  - rewrite bool_decide_eq_false_2 by tauto. by rewrite bool_decide_eq_true_2.
  - rewrite bool_decide_eq_true_2 by done. by rewrite bool_decide_eq_false_2.
Qed.

(** X27: an attachment's whole life leaves the exporter as it was.
    After an attach that returned 0 and a map, for a direction other than
    [DMA_NONE], that returned a table, the detach unmaps in the direction
    of that map, frees the list and the attachment, and the store of
    attachments is the one before the attach. *)
Theorem exporter_attachment_cycle dbuf dev dba xs b base dba1 xs1 dir t s2 xl cf :
  bufs (ks xs) !! dmabuf_priv dbuf = Some b → sgt_base b = Some base →
  Z.of_nat (length (sgl base)) = orig_nents base →
  vb2_dc_dmabuf_ops_attach kx dbuf dev dba xs = Some ((0, dba1), xs1) →
  dir ≠ DMA_NONE →
  vb2_dc_dmabuf_ops_map k dba1 dir (ks xs1) = Some (Ptr t, s2) →
  vb2_dc_dmabuf_ops_detach dbuf dba1 (XState s2 xl cf)
  = Some (DmaBufAttachment (dba_dmabuf dba1) (dba_dev dba1) None,
          XState (KState (bufs (ks xs)) (attachs (ks xs))
                    (klog s2 ++ [Dma_unmap_sg dir; Sg_free_table]))
                 (xl ++ [Base (Dma_unmap_sg dir); Base Sg_free_table;
                         Kfree_attach]) cf).
Proof.
  intros Hb Hbase Hlen Hatt Hdir Hmap.
  destruct (vb2_dc_dmabuf_ops_attach_runs dbuf dev dba xs b base Hb Hbase Hlen)
    as (r & dba' & xs' & Hrun & Hbufs & Hklog & _ & Hcases).
  rewrite Hatt in Hrun. injection Hrun as <- <- <-.
  destruct Hcases as [[Hr _] | (_ & a & Hfresh & -> & Hattachs & _)];
    [unfold ENOMEM in Hr; lia|].
  pose proof (vb2_dc_dmabuf_ops_map_fresh k
                (DmaBufAttachment (dba_dmabuf dba) (dba_dev dba) (Some a))
                a _ dir (ks xs1) eq_refl
                ltac:(rewrite Hattachs; apply lookup_insert_eq)) as Hfr.
  cbn [att_dma_dir att_sgt] in Hfr. specialize (Hfr ltac:(done)).
  cbn zeta in Hfr.
  destruct (k_dma_map_sg k _ _ _ _ dir) as [ret sgl'].
  rewrite Hfr in Hmap. clear Hfr.
  case_bool_decide as Hret; [done|]. injection Hmap as <- <-.
  erewrite vb2_dc_dmabuf_ops_detach_run by first [reflexivity | xlookup].
  cbn [att_dma_dir ks xlog confs bufs attachs klog dba_dmabuf dba_dev].
  rewrite (bool_decide_eq_true_2 (dir ≠ DMA_NONE)) by done.
  cbn [app].
  rewrite Hbufs, Hattachs, delete_insert_eq, delete_insert_id by done.
  reflexivity.
Qed.

(** X28: [cleanup_ctx] takes whatever [init_ctx] returned.  A context
    that [init_ctx] made records the device, and cleaning it up frees
    it; the error pointer that [init_ctx] returns when there is no
    memory, and NULL, are left alone.  Either way no context is left
    behind. *)
Theorem cleanup_ctx_undoes_init_ctx dev xs :
  ∃ r xs1 xs2,
    vb2_dma_contig_init_ctx kx dev xs = Some (r, xs1)
    ∧ vb2_dma_contig_cleanup_ctx (Some r) xs1 = Some (tt, xs2)
    ∧ ks xs2 = ks xs ∧ confs xs2 = confs xs
    ∧ match r with
      | Ptr conf =>
        confs xs !! conf = None
        ∧ confs xs1 !! conf = Some {| conf_dev := dev |}
        ∧ xlog xs2 = xlog xs ++ [Kzalloc_conf true; Kfree_conf]
      | ERR_PTR e =>
        e = - ENOMEM ∧ xs2 = xs1
        ∧ xlog xs2 = xlog xs ++ [Kzalloc_conf false]
      end
    ∧ vb2_dma_contig_cleanup_ctx None xs = Some (tt, xs).
Proof.
  unfold vb2_dma_contig_init_ctx.
  assert (Hfresh : confs xs !! fresh (dom (confs xs)) = None)
    by (apply not_elem_of_dom, is_fresh).
  destruct (x_kzalloc_conf kx (xlog xs)).
  - eexists _, _, _. split; [reflexivity|].
    unfold vb2_dma_contig_cleanup_ctx. cbn [confs ks xlog].
    rewrite lookup_insert_eq. cbn [mbind option_bind].
    split; [reflexivity|]. cbn [ks confs xlog].
    rewrite delete_insert_id by done.
    rewrite <- app_assoc. by repeat split.
  - eexists _, _, _. split; [reflexivity|]. split; [reflexivity|].
    by repeat split.
Qed.

End Teardown.

(** ** The code at concrete inputs, continued *)

Lemma k_scattered_pins_well : kernel_pins_well k_scattered.
Proof. exact k_ok_pins_well. Qed.

Lemma k_scattered_maps_well : kernel_maps_well k_scattered.
Proof.
  intros h d l n dir mapped sgl' [= <- <-] _.
  split; [discriminate | vm_compute; split; discriminate].
Qed.

Lemma k_scattered_maps_uint : kernel_maps_uint k_scattered.
Proof.
  intros h d l n dir mapped sgl' [= <- <-].
  repeat constructor; vm_compute; try reflexivity; discriminate.
Qed.

Lemma contiguous_size_is_covered_witness :
  ∃ j s off,
    mapped_segments table3 !! j = Some s ∧ 0 ≤ off < sg_dma_len s
    ∧ dma_addr_t p32 (sg_dma_address s + off)
      = dma_addr_t p32 (sg_dma_address (seg 4096 10) + 25).
Proof.
  apply (contiguous_size_is_covered p32 table3 (seg 4096 10) 30).
  - split; [discriminate | simpl; lia].
  - repeat constructor; simpl; lia.
  - reflexivity.
  - vm_compute; reflexivity.
  - lia.
Defined.

Lemma contiguous_size_at_most_total_witness :
  ∃ c, vb2_dc_get_contiguous_size p64 table_coalesced = Some c
    ∧ 0 ≤ c ≤ total_length (mapped_segments table_coalesced)
    ∧ (touching p64 (mapped_segments table_coalesced) →
       total_length (mapped_segments table_coalesced) < 2 ^ bits (BITS_PER_LONG p64) →
       c = total_length (mapped_segments table_coalesced)).
Proof.
  apply (contiguous_size_at_most_total p64 table_coalesced).
  - split; [discriminate | simpl; lia].
  - repeat constructor; simpl; lia.
Defined.

Lemma contiguous_size_ignores_unmapped_witness :
  vb2_dc_get_contiguous_size p64
    (SgTable (sgl table3 ++ [Scatterlist 3 0 4096 0 0]) (nents table3) 4)
  = vb2_dc_get_contiguous_size p64 table3.
Proof.
  apply (contiguous_size_ignores_unmapped p64 table3).
  split; [discriminate | simpl; lia].
Defined.

Lemma map_dmabuf_success_covers_buffer_witness :
  ∃ b1 t s0,
    k_dma_buf_map_attachment k_ok (klog s_attached) dba0 (dma_dir buf_attached)
    = Ptr t
    ∧ head (sgl t) = Some s0
    ∧ bufs s_mapped = <[1%positive := b1]> (bufs s_attached)
    ∧ b1 = set_vaddr 0 (set_dma_sgt (Some t)
                          (set_dma_addr (sg_dma_address s0) buf_attached))
    ∧ dma_sgt b1 = Some t ∧ dma_addr b1 = sg_dma_address s0
    ∧ vaddr b1 = 0 ∧ size b1 = size buf_attached
    ∧ db_attach b1 = Some dba0
    ∧ ∀ o, 0 ≤ o < size b1 →
        ∃ j sg off,
          mapped_segments t !! j = Some sg ∧ 0 ≤ off < sg_dma_len sg
          ∧ dma_addr_t p64 (sg_dma_address sg + off)
            = dma_addr_t p64 (dma_addr b1 + o).
Proof.
  apply (map_dmabuf_success_covers_buffer p64 k_ok 1%positive s_attached
           buf_attached dba0 s_mapped).
  - vm_compute; reflexivity.
  - reflexivity.
  - reflexivity.
  - intros h d t [= <-]. split; [split; [discriminate | simpl; lia]|].
    repeat constructor; simpl; lia.
  - vm_compute; reflexivity.
Defined.

Lemma map_dmabuf_not_attached_witness :
  vb2_dc_map_dmabuf p64 k_ok 1%positive s_alloc
  = Some (- EINVAL,
          KState (bufs s_alloc) (attachs s_alloc)
            (klog s_alloc ++ [Warn_on; Pr_err "trying to pin a non attached buffer"])).
Proof.
  eapply (map_dmabuf_not_attached p64 k_ok 1%positive s_alloc);
    vm_compute; reflexivity.
Defined.

Lemma unmap_dmabuf_undoes_map_witness :
  vb2_dc_unmap_dmabuf 1%positive s_mapped
  = Some (tt, KState (bufs s_attached) (attachs s_attached)
                (klog s_attached
                 ++ [Dma_buf_map_attachment (dma_dir buf_attached) true;
                     Dma_buf_unmap_attachment (dma_dir buf_attached)])).
Proof.
  apply (unmap_dmabuf_undoes_map p64 k_ok 1%positive s_attached buf_attached
           dba0 s_mapped);
    vm_compute; reflexivity.
Defined.

Lemma unmap_dmabuf_not_mapped_witness :
  ∃ msg,
    vb2_dc_unmap_dmabuf 1%positive s_attached
    = Some (tt, KState (bufs s_attached) (attachs s_attached)
                  (klog s_attached ++ [Warn_on; Pr_err msg])).
Proof.
  apply (unmap_dmabuf_not_mapped 1%positive s_attached buf_attached).
  - vm_compute; reflexivity.
  - right. reflexivity.
Defined.

Lemma detach_dmabuf_frees_witness :
  ∃ forced,
    vb2_dc_detach_dmabuf 1%positive s_mapped
    = Some (tt, KState (delete 1%positive (bufs s_mapped)) (attachs s_mapped)
                  (klog s_mapped ++ forced ++ [Dma_buf_detach; Kfree Kobj_buf]))
    ∧ (dma_addr buf_mapped = 0 → forced = [])
    ∧ (dma_addr buf_mapped ≠ 0 → ∀ t, dma_sgt buf_mapped = Some t →
         forced = [Warn_on]
                  ++ (if bool_decide (vaddr buf_mapped ≠ 0)
                      then [Dma_buf_vunmap] else [])
                  ++ [Dma_buf_unmap_attachment (dma_dir buf_mapped)]).
Proof.
  apply (detach_dmabuf_frees 1%positive s_mapped buf_mapped dba0).
  - vm_compute; reflexivity.
  - reflexivity.
Defined.

Lemma detach_dmabuf_not_attached_faults_witness :
  vb2_dc_detach_dmabuf 1%positive s_alloc = None.
Proof.
  eapply (detach_dmabuf_not_attached_faults 1%positive s_alloc);
    vm_compute; reflexivity.
Defined.

Lemma put_undoes_alloc_witness :
  vb2_dc_put 1%positive s_alloc
  = Some (tt, KState (bufs s_empty) (attachs s_empty)
                (klog s_empty
                 ++ [Kmalloc Kobj_buf true; Dma_alloc_coherent 4096 true;
                     Get_device (conf_dev conf0);
                     Dma_free_coherent; Put_device; Kfree Kobj_buf])).
Proof.
  apply (put_undoes_alloc p64 k_ok conf0 4096 DMA_FROM_DEVICE 0 s_empty
           1%positive s_alloc).
  vm_compute; reflexivity.
Defined.

Lemma put_destroys_at_last_reference_witness :
  ∃ s', vb2_dc_put 1%positive s_exported = Some (tt, s')
    ∧ attachs s' = attachs s_exported.
Proof.
  edestruct (put_destroys_at_last_reference 1%positive s_exported)
    as (s' & Hrun & Hatt & _).
  - vm_compute; reflexivity.
  - vm_compute. split; discriminate.
  - exists s'. split; [exact Hrun | exact Hatt].
Defined.

Lemma get_dmabuf_reuses_base_table_witness :
  ∃ res ok b' t,
    vb2_dc_get_dmabuf k_ok 1%positive 0 s_exported
    = Some (res, KState (<[1%positive := b']> (bufs s_exported)) (attachs s_exported)
                   (klog s_exported ++ [Dma_buf_export ok]))
    ∧ sgt_base b' = Some t
    ∧ (ok = true ↔ is_Some res).
Proof.
  edestruct (get_dmabuf_reuses_base_table k_ok 1%positive s_exported)
    as (res & ok & b' & H).
  - vm_compute; reflexivity.
  - reflexivity.
  - exists res, ok, b'. eexists. exact H.
Defined.

Lemma get_dmabuf_null_takes_no_reference_witness :
  refcount_at (state_after (vb2_dc_get_dmabuf k_no_memory 1%positive 0) s_alloc)
    1%positive
  = Some 1.
Proof.
  edestruct (get_dmabuf_null_takes_no_reference k_no_memory 1%positive s_alloc)
    with (flags := 0) as (H & _).
  - vm_compute; reflexivity.
  - vm_compute; reflexivity.
  - exact H.
Defined.

Lemma exported_buffer_freed_by_last_holder_witness :
  ∃ s3,
    vb2_dc_dmabuf_ops_release (DmaBuf 4096 1%positive) s_exported = Some (tt, s3)
    ∧ refcount_at s3 1%positive = Some 1 ∧ klog s3 = klog s_exported
    ∧ vb2_dc_put 1%positive s3
      = Some (tt, KState (bufs s_empty) (attachs s_empty)
                    (klog s_exported
                     ++ [Sg_free_table; Kfree Kobj_sgt;
                         Dma_free_coherent; Put_device; Kfree Kobj_buf])).
Proof.
  apply (exported_buffer_freed_by_last_holder p64 k_ok conf0 4096
           DMA_FROM_DEVICE 0 0 s_empty 1%positive s_alloc);
    vm_compute; reflexivity.
Defined.

Lemma import_cycle_restores_store_witness :
  ∃ s3,
    vb2_dc_unmap_dmabuf 1%positive s_mapped = Some (tt, s3)
    ∧ vb2_dc_detach_dmabuf 1%positive s3
      = Some (tt, KState (bufs s_empty) (attachs s_empty)
                    (klog s_empty
                     ++ [Kmalloc Kobj_buf true; Dma_buf_attach true;
                         Dma_buf_map_attachment DMA_FROM_DEVICE true;
                         Dma_buf_unmap_attachment DMA_FROM_DEVICE;
                         Dma_buf_detach; Kfree Kobj_buf])).
Proof.
  apply (import_cycle_restores_store p64 k_ok conf0 dbuf0 4096 DMA_FROM_DEVICE
           s_empty 1%positive s_attached s_mapped);
    vm_compute; reflexivity.
Defined.

Lemma dmabuf_ops_map_failure_leaves_cache_empty_witness :
  bufs (state_after (vb2_dc_dmabuf_ops_map k_unmappable dba_exporter
                         DMA_TO_DEVICE) s_exporter)
    = bufs s_exporter
  ∧ ∃ att1,
      attachs (state_after (vb2_dc_dmabuf_ops_map k_unmappable dba_exporter
                              DMA_TO_DEVICE) s_exporter)
      = <[7%positive := att1]> (attachs s_exporter)
      ∧ att_dma_dir att1 = DMA_NONE ∧ nents (att_sgt att1) = 0
      ∧ orig_nents (att_sgt att1) = orig_nents (att_sgt att0).
Proof.
  eapply proj2, (dmabuf_ops_map_failure_leaves_cache_empty k_unmappable
                   dba_exporter 7%positive att0 DMA_TO_DEVICE s_exporter);
    vm_compute; reflexivity.
Defined.

Lemma pfn_to_dma_is_linear_witness :
  vb2_dc_pfn_to_dma p64 1%positive 256 = dma_addr_t p64 (256 * 2 ^ PAGE_SHIFT p64)
  ∧ vb2_dc_pfn_to_dma p64 1%positive (256 + 1)
    = dma_addr_t p64 (vb2_dc_pfn_to_dma p64 1%positive 256 + 1 * 2 ^ PAGE_SHIFT p64).
Proof.
  apply (pfn_to_dma_is_linear p64 1%positive 256 1); [reflexivity | simpl; lia].
Defined.

Lemma get_userptr_buffer_is_covered_witness :
  ∃ b,
    bufs (state_after (vb2_dc_get_userptr p64 k_scattered conf0 4096 4096
                         DMA_TO_DEVICE) s_empty) !! 1%positive = Some b
    ∧ size b = 4096
    ∧ ∀ t, dma_sgt b = Some t →
        ∀ o, 0 ≤ o < 4096 →
          ∃ j sg off,
            mapped_segments t !! j = Some sg ∧ 0 ≤ off < sg_dma_len sg
            ∧ dma_addr_t p64 (sg_dma_address sg + off)
              = dma_addr_t p64 (dma_addr b + o).
Proof.
  apply (get_userptr_buffer_is_covered p64 k_scattered conf0 4096 4096
           DMA_TO_DEVICE s_empty 1%positive).
  - exact k_scattered_pins_well.
  - exact k_scattered_maps_well.
  - exact k_scattered_maps_uint.
  - vm_compute; reflexivity.
Defined.

Lemma prepare_finish_skip_coherent_and_imported_witness :
  (vb2_dc_prepare 1%positive (XState s_alloc [] ∅) = Some (tt, XState s_alloc [] ∅)
   ∧ vb2_dc_finish 1%positive (XState s_alloc [] ∅) = Some (tt, XState s_alloc [] ∅))
  ∧ (vb2_dc_prepare 1%positive (XState s_mapped [] ∅)
     = Some (tt, XState s_mapped [] ∅)
     ∧ vb2_dc_finish 1%positive (XState s_mapped [] ∅)
       = Some (tt, XState s_mapped [] ∅)).
Proof.
  split.
  - apply (proj1 (prepare_finish_skip_coherent_and_imported p64 k_ok)
             conf0 4096 DMA_FROM_DEVICE 0 s_empty).
    vm_compute; reflexivity.
  - apply (proj2 (prepare_finish_skip_coherent_and_imported p64 k_ok)
             1%positive s_mapped buf_mapped dba0).
    + vm_compute; reflexivity.
    + reflexivity.
Defined.

Lemma prepare_finish_sync_pinned_witness :
  ∃ b, bufs s_pinned !! 1%positive = Some b
    ∧ vb2_dc_prepare 1%positive (XState s_pinned [] ∅)
      = Some (tt, XState s_pinned
                    ([] ++ (if dma_sgt b is Some t
                            then [Dma_sync_sg_for_device (orig_nents t) DMA_TO_DEVICE]
                            else [])) ∅)
    ∧ vb2_dc_finish 1%positive (XState s_pinned [] ∅)
      = Some (tt, XState s_pinned
                    ([] ++ (if dma_sgt b is Some t
                            then [Dma_sync_sg_for_cpu (orig_nents t) DMA_TO_DEVICE]
                            else [])) ∅).
Proof.
  apply (prepare_finish_sync_pinned p64 k_ok conf0 4096 8192 DMA_TO_DEVICE
           s_empty 1%positive s_pinned [] ∅).
  - exact k_ok_pins_well.
  - vm_compute; reflexivity.
Defined.

Lemma vaddr_maps_imported_buffer_once_witness :
  let va := x_dma_buf_vmap kx_no_vmap [] (dba_dmabuf dba0) in
  let xs1 := XState (KState (<[1%positive := set_vaddr va buf_attached]>
                               (bufs s_attached))
                            (attachs s_attached) (klog s_attached))
                    ([] ++ [Dma_buf_vmap va]) ∅ in
  vb2_dc_vaddr kx_no_vmap 1%positive (XState s_attached [] ∅) = Some (va, xs1)
  ∧ (va ≠ 0 → vb2_dc_vaddr kx_no_vmap 1%positive xs1 = Some (va, xs1))
  ∧ (va = 0 →
     ∃ va', vb2_dc_vaddr kx_no_vmap 1%positive xs1
            = Some (va', XState (KState (<[1%positive := set_vaddr va' buf_attached]>
                                           (bufs s_attached))
                                        (attachs s_attached) (klog s_attached))
                                ([] ++ [Dma_buf_vmap 0; Dma_buf_vmap va']) ∅)).
Proof.
  apply (vaddr_maps_imported_buffer_once kx_no_vmap 1%positive s_attached
           buf_attached dba0 [] ∅).
  - vm_compute; reflexivity.
  - reflexivity.
  - reflexivity.
Defined.

Lemma unmap_dmabuf_releases_cpu_view_witness :
  ∃ xs1,
    vb2_dc_vaddr kx_ok 1%positive (XState s_mapped [] ∅) = Some (3489660928, xs1)
    ∧ vb2_dc_unmap_dmabuf 1%positive (ks xs1)
      = Some (tt, KState (<[1%positive := set_dma_sgt None (set_dma_addr 0 buf_mapped)]>
                            (bufs s_mapped))
                    (attachs s_mapped)
                    (klog s_mapped
                     ++ [Dma_buf_vunmap;
                         Dma_buf_unmap_attachment (dma_dir buf_mapped)])).
Proof.
  eexists. split; [vm_compute; reflexivity|].
  apply (unmap_dmabuf_releases_cpu_view kx_ok 1%positive s_mapped buf_mapped dba0
           (mapped_table [seg 2097152 8192]) [] ∅ 3489660928).
  - vm_compute; reflexivity.
  - reflexivity.
  - reflexivity.
  - reflexivity.
  - vm_compute; reflexivity.
  - lia.
Defined.

Lemma put_userptr_undoes_get_userptr_witness :
  ∃ b fv new,
    bufs s_pinned !! 1%positive = Some b ∧ vec b = Some fv
    ∧ vb2_dc_put_userptr 1%positive (XState s_pinned [] ∅)
      = Some (tt, XState (KState (bufs s_empty) (attachs s_empty)
                            (klog s_empty ++ new))
                    ([] ++ put_userptr_log DMA_TO_DEVICE fv (dma_sgt b)) ∅)
    ∧ unwind new [] = Some [].
Proof.
  apply (put_userptr_undoes_get_userptr p64 k_ok conf0 4096 8192 DMA_TO_DEVICE
           s_empty 1%positive s_pinned [] ∅).
  - exact k_ok_pins_well.
  - vm_compute; reflexivity.
Defined.

Lemma dmabuf_ops_attach_copies_base_table_witness :
  ∃ r dba' xs',
    vb2_dc_dmabuf_ops_attach kx_ok (DmaBuf 4096 1%positive) 2%positive
      (DmaBufAttachment (DmaBuf 4096 1%positive) 2%positive None)
      (XState s_exported [] ∅)
    = Some ((r, dba'), xs')
    ∧ bufs (ks xs') = bufs s_exported ∧ r = 0.
Proof.
  edestruct (dmabuf_ops_attach_copies_base_table kx_ok (DmaBuf 4096 1%positive)
               2%positive
               (DmaBufAttachment (DmaBuf 4096 1%positive) 2%positive None)
               (XState s_exported [] ∅))
    as (r & dba' & xs' & Hrun & Hbufs & _).
  - vm_compute; reflexivity.
  - reflexivity.
  - reflexivity.
  - exists r, dba', xs'. split; [exact Hrun|]. split; [exact Hbufs|].
    vm_compute in Hrun. injection Hrun as <- _ _. reflexivity.
Defined.

Lemma dmabuf_ops_detach_releases_witness :
  ∃ dba' xs',
    vb2_dc_dmabuf_ops_detach dbuf0 dba_exporter (XState s_exporter [] ∅)
    = Some (dba', xs')
    ∧ dba_priv dba' = None
    ∧ attachs (ks xs') = delete 7%positive (attachs s_exporter)
    ∧ bufs (ks xs') = bufs s_exporter
    ∧ xlog xs' = [] ++ (if bool_decide (att_dma_dir att0 = DMA_NONE) then []
                        else [Base (Dma_unmap_sg (att_dma_dir att0))])
                 ++ [Base Sg_free_table; Kfree_attach]
    ∧ vb2_dc_dmabuf_ops_detach dbuf0 dba' xs' = Some (dba', xs').
Proof.
  apply (dmabuf_ops_detach_releases dbuf0 dba_exporter 7%positive att0
           (XState s_exporter [] ∅)).
  - reflexivity.
  - vm_compute; reflexivity.
Defined.

Lemma exporter_attachment_cycle_witness :
  ∃ dba1 xs1 t s2,
    vb2_dc_dmabuf_ops_attach kx_ok (DmaBuf 4096 1%positive) 2%positive
      (DmaBufAttachment (DmaBuf 4096 1%positive) 2%positive None)
      (XState s_exported [] ∅)
    = Some ((0, dba1), xs1)
    ∧ vb2_dc_dmabuf_ops_map k_ok dba1 DMA_TO_DEVICE (ks xs1) = Some (Ptr t, s2)
    ∧ vb2_dc_dmabuf_ops_detach (DmaBuf 4096 1%positive) dba1 (XState s2 (xlog xs1) ∅)
      = Some (DmaBufAttachment (dba_dmabuf dba1) (dba_dev dba1) None,
              XState (KState (bufs s_exported) (attachs s_exported)
                        (klog s2 ++ [Dma_unmap_sg DMA_TO_DEVICE; Sg_free_table]))
                     (xlog xs1 ++ [Base (Dma_unmap_sg DMA_TO_DEVICE);
                                   Base Sg_free_table; Kfree_attach]) ∅).
Proof.
  eexists _, _, _, _.
  split; [vm_compute; reflexivity|]. split; [vm_compute; reflexivity|].
  eapply (exporter_attachment_cycle k_ok kx_ok (DmaBuf 4096 1%positive) 2%positive
            (DmaBufAttachment (DmaBuf 4096 1%positive) 2%positive None)
            (XState s_exported [] ∅)).
  - vm_compute; reflexivity.
  - reflexivity.
  - reflexivity.
  - vm_compute; reflexivity.
  - discriminate.
  - vm_compute; reflexivity.
Defined.
